(** * MTS Deploy AI: cost model, security scorer, address allocator

    A shallow embedding of the deterministic core of the repository:

    - [src/mcp_server/config.py]                  ([NetworkConfig])
    - [src/mcp_server/tools/cost_optimizer.py]    ([CostOptimizer])
    - [src/mcp_server/tools/security_analyzer.py] ([SecurityAnalyzer])
    - [src/mcp_server/tools/telecom_generator.py] ([TelecomGenerator])

    Modelling conventions.

    - A value produced by [yaml.safe_load_all] or [json.loads] is a tree
      of type [value].  Mapping keys are strings: every lookup the code
      performs uses a string literal, which no key of another type can
      equal.  YAML anchors (two places sharing one object) are not
      modelled.
    - A Python exception is the [None] of an [option]; where the code
      mutates an accumulator before the exception is caught, the function
      returns the accumulator together with a flag.
    - Python floats are exact rationals ([Q]); binary64 rounding, [inf]
      and [nan] are not modelled.
    - The YAML library is external: [safe_load_all] and [dump_all] are
      parameters of the sections that use them. *)

From Stdlib Require Import Bool Arith ZArith QArith Qround Lia Lqa List.
From Stdlib Require Import Ascii String Decimal DecimalString DecimalPos DecimalZ.
Import ListNotations.

#[local] Open Scope string_scope.
#[local] Open Scope Z_scope.

(** ** Python strings *)

Module PyStr.

(** [s.endswith(suf)]: some tail of [s] is [suf]. *)
Fixpoint endswith (s suf : string) : bool :=
  String.eqb s suf ||
  match s with
  | EmptyString => false
  | String _ s' => endswith s' suf
  end.

Fixpoint take (n : nat) (s : string) : string :=
  match n, s with
  | S n', String c s' => String c (take n' s')
  | _, _ => EmptyString
  end.

(** [s[:-k]] for a positive literal [k]. *)
Definition drop_last (k : nat) (s : string) : string :=
  take (String.length s - k) s.

(** [c in s] for a one-character [c]. *)
Fixpoint contains_char (c : ascii) (s : string) : bool :=
  match s with
  | EmptyString => false
  | String a s' => Ascii.eqb a c || contains_char c s'
  end.

Fixpoint starts_with (p s : string) : bool :=
  match p, s with
  | EmptyString, _ => true
  | String a p', String b s' => Ascii.eqb a b && starts_with p' s'
  | String _ _, EmptyString => false
  end.

(** [sub in s]. *)
Fixpoint contains (sub s : string) : bool :=
  starts_with sub s ||
  match s with
  | EmptyString => false
  | String _ s' => contains sub s'
  end.

(** [s.split(c)] for a one-character separator: never the empty list. *)
Fixpoint split (c : ascii) (s : string) : list string :=
  match s with
  | EmptyString => [EmptyString]
  | String a s' =>
      if Ascii.eqb a c then EmptyString :: split c s'
      else match split c s' with
           | [] => [String a EmptyString]
           | w :: ws => String a w :: ws
           end
  end.

(** [sep.join(l)]. *)
Fixpoint join (sep : string) (l : list string) : string :=
  match l with
  | [] => EmptyString
  | [x] => x
  | x :: rest => x ++ sep ++ join sep rest
  end.

(** [s.rsplit(c, 1)[0]]: what precedes the last [c], or [s] itself when
    [c] does not occur. *)
Definition rsplit1_head (c : ascii) (s : string) : string :=
  match List.rev (split c s) with
  | [] => s
  | [_] => s
  | _ :: front => join (String c EmptyString) (List.rev front)
  end.

Definition upper_char (a : ascii) : ascii :=
  let n := nat_of_ascii a in
  if ((97 <=? n) && (n <=? 122))%nat then ascii_of_nat (n - 32) else a.

(** [s.upper()] on ASCII text. *)
Fixpoint upper (s : string) : string :=
  match s with
  | EmptyString => EmptyString
  | String a s' => String (upper_char a) (upper s')
  end.

(** [a.isspace()] on ASCII: blank, tab to carriage return, and the four
    separators 28 to 31. *)
Definition is_space (a : ascii) : bool :=
  let n := nat_of_ascii a in
  ((n =? 32) || ((9 <=? n) && (n <=? 13)) || ((28 <=? n) && (n <=? 31)))%nat.

Fixpoint lstrip (s : string) : string :=
  match s with
  | String a s' => if is_space a then lstrip s' else s
  | EmptyString => EmptyString
  end.

Fixpoint rstrip (s : string) : string :=
  match s with
  | EmptyString => EmptyString
  | String a s' =>
      match rstrip s' with
      | EmptyString => if is_space a then EmptyString else String a EmptyString
      | r => String a r
      end
  end.

Definition strip (s : string) : string := rstrip (lstrip s).

(** [str(n)] for an integer. *)
Definition of_Z (z : Z) : string := NilZero.string_of_int (Z.to_int z).

Definition of_nat (n : nat) : string := of_Z (Z.of_nat n).

End PyStr.

(** ** Python numbers *)

Module PyNum.

Definition is_digit (a : ascii) : bool :=
  let n := nat_of_ascii a in ((48 <=? n) && (n <=? 57))%nat.

Fixpoint all_digits (s : string) : bool :=
  match s with
  | EmptyString => true
  | String a s' => is_digit a && all_digits s'
  end.

(** The digits of [s] read as a natural number; [""] reads as [0]. *)
Definition digits_value (s : string) : option Z :=
  option_map Z.of_uint (NilEmpty.uint_of_string s).

(** Cut [s] at the first character satisfying [p]. *)
Fixpoint cut_at (p : ascii -> bool) (s : string) : string * option string :=
  match s with
  | EmptyString => (EmptyString, None)
  | String a s' =>
      if p a then (EmptyString, Some s')
      else let '(l, r) := cut_at p s' in (String a l, r)
  end.

Definition split_sign (s : string) : bool * string :=
  match s with
  | String "-" r => (true, r)
  | String "+" r => (false, r)
  | _ => (false, s)
  end.

Definition is_e (a : ascii) : bool := Ascii.eqb a "e" || Ascii.eqb a "E".
Definition is_dot (a : ascii) : bool := Ascii.eqb a ".".

(** A signed non-empty run of digits, as in an exponent. *)
Definition signed_digits (s : string) : option Z :=
  let '(neg, body) := split_sign s in
  match body with
  | EmptyString => None
  | _ => option_map (fun z => if neg then - z else z) (digits_value body)
  end.

Definition pow10 (e : Z) : Q :=
  if e <? 0 then (1 / inject_Z (10 ^ (- e)))%Q else inject_Z (10 ^ e).

(** [float(s)] on the decimal literals
    [ws* [+-] (digits [. [digits]] | . digits) [(e|E) [+-] digits] ws*];
    [None] is [ValueError].  Digit-group underscores and the spellings of
    infinity and not-a-number are outside the model. *)
Definition py_float (s : string) : option Q :=
  let '(neg, body) := split_sign (PyStr.strip s) in
  let '(mant, ex) := cut_at is_e body in
  let '(ip, fp) := cut_at is_dot mant in
  let fp' := match fp with Some f => f | None => EmptyString end in
  match ip, fp' with
  | EmptyString, EmptyString => None
  | _, _ =>
      match digits_value ip, digits_value fp',
            match ex with None => Some 0 | Some e => signed_digits e end with
      | Some i, Some f, Some e =>
          let scale := 10 ^ Z.of_nat (String.length fp') in
          let m := ((inject_Z (i * scale + f) / inject_Z scale) * pow10 e)%Q in
          Some (if neg then - m else m)%Q
      | _, _, _ => None
      end
  end.

(** A character that [float] reads neither as a blank nor as a sign, a
    point or an exponent mark. *)
Definition plain (a : ascii) : bool :=
  negb (PyStr.is_space a) && negb (is_e a) && negb (is_dot a)
  && negb (Ascii.eqb a "-") && negb (Ascii.eqb a "+").

Fixpoint all_plain (s : string) : bool :=
  match s with
  | EmptyString => true
  | String a s' => plain a && all_plain s'
  end.

(** [round(x, 2)]: to the nearest hundredth, ties to the even one. *)
Definition round_half_even (x : Q) : Z :=
  let f := Qfloor x in
  let d := (x - inject_Z f)%Q in
  match Qcompare d (1 # 2) with
  | Lt => f
  | Gt => f + 1
  | Eq => if Z.even f then f else f + 1
  end.

Definition round2 (x : Q) : Q := (inject_Z (round_half_even (x * 100)) / 100)%Q.

End PyNum.

(** ** Parsed YAML and JSON values *)

#[local] Set Warnings "-register-all".

Inductive value : Type :=
| VNone
| VBool (b : bool)
| VInt (z : Z)
| VFloat (q : Q)
| VStr (s : string)
| VList (l : list value)
| VDict (d : list (string * value)).

Module Py.

Fixpoint lookup (k : string) (d : list (string * value)) : option value :=
  match d with
  | [] => None
  | (k', v) :: d' => if String.eqb k' k then Some v else lookup k d'
  end.

(** [bool(v)]. *)
Definition truthy (v : value) : bool :=
  match v with
  | VNone => false
  | VBool b => b
  | VInt z => negb (z =? 0)
  | VFloat q => negb (Qeq_bool q 0)
  | VStr s => negb (String.eqb s "")
  | VList l => match l with [] => false | _ => true end
  | VDict d => match d with [] => false | _ => true end
  end.

(** [v.get(k, dflt)]; only a mapping has [get] ([AttributeError]). *)
Definition get (v : value) (k : string) (dflt : value) : option value :=
  match v with
  | VDict d => Some (match lookup k d with Some x => x | None => dflt end)
  | _ => None
  end.

(** [v.get(k)]. *)
Definition get1 (v : value) (k : string) : option value := get v k VNone.

(** [k in v] for a mapping [v], as the code uses it on a value that has
    already answered [get]. *)
Definition has_key (v : value) (k : string) : bool :=
  match v with
  | VDict d => match lookup k d with Some _ => true | None => false end
  | _ => false
  end.

(** [v[k]] for a string [k]: [KeyError] on a mapping without [k],
    [TypeError] on everything else. *)
Definition item (v : value) (k : string) : option value :=
  match v with
  | VDict d => lookup k d
  | _ => None
  end.

(** [v == s] for a string literal [s]. *)
Definition is_str (v : value) (s : string) : bool :=
  match v with
  | VStr t => String.eqb t s
  | _ => false
  end.

Fixpoint chars (s : string) : list value :=
  match s with
  | EmptyString => []
  | String a s' => VStr (String a EmptyString) :: chars s'
  end.

(** The items a [for] loop over [v] visits; [None] when [v] is not
    iterable. *)
Definition iter (v : value) : option (list value) :=
  match v with
  | VList l => Some l
  | VDict d => Some (map (fun kv => VStr (fst kv)) d)
  | VStr s => Some (chars s)
  | _ => None
  end.

(** The number a value stands for in arithmetic, if any. *)
Definition as_number (v : value) : option Q :=
  match v with
  | VInt z => Some (inject_Z z)
  | VBool b => Some (if b then 1 else 0)%Q
  | VFloat q => Some q
  | _ => None
  end.

(** [x * v] for a float [x]. *)
Definition float_mul (x : Q) (v : value) : option Q :=
  option_map (Qmult x) (as_number v).

End Py.

(** ** Exceptions over a mutable accumulator

    [Exc S A]: a computation that reads and writes a state [S] and either
    returns an [A] or raises; what was written before the raise stays
    written. *)

Definition Exc (S A : Type) : Type := S -> S * option A.

Module ExcM.
Section Ops.
Context {S : Type}.

Definition ret {A} (a : A) : Exc S A := fun s => (s, Some a).

Definition bind {A B} (m : Exc S A) (k : A -> Exc S B) : Exc S B :=
  fun s => match m s with
           | (s', Some a) => k a s'
           | (s', None) => (s', None)
           end.

(** A pure, fallible expression. *)
Definition lift {A} (o : option A) : Exc S A := fun s => (s, o).

Definition modify (f : S -> S) : Exc S unit := fun s => (f s, Some tt).

(** [for x in l: body x]. *)
Fixpoint for_each {A} (l : list A) (body : A -> Exc S unit) : Exc S unit :=
  match l with
  | [] => ret tt
  | x :: l' => bind (body x) (fun _ => for_each l' body)
  end.

(** [try: m  except Exception: continue]. *)
Definition try_ (m : Exc S unit) : S -> S := fun s => fst (m s).

(** Whether [m] ran to its end from [s]. *)
Definition completes {A} (m : Exc S A) (s : S) : bool :=
  match snd (m s) with Some _ => true | None => false end.

(** Whether [m] raises, and what it returns, does not depend on the
    state it starts from. *)
Definition oblivious {A} (m : Exc S A) : Prop :=
  forall s s', snd (m s) = snd (m s').

(** [m] leaves the observation [f] of the state as it was. *)
Definition preserves {A B} (f : S -> B) (m : Exc S A) : Prop :=
  forall s, f (fst (m s)) = f s.

End Ops.
End ExcM.

Notation "x <- m ;; k" := (ExcM.bind m (fun x => k))
  (at level 61, m at next level, right associativity).
Notation "m ;;; k" := (ExcM.bind m (fun _ => k))
  (at level 61, right associativity).

(** Plain [option] chaining for expressions such as
    [doc.get("spec", {}).get("replicas", 1)]. *)
Definition obind {A B} (o : option A) (k : A -> option B) : option B :=
  match o with Some a => k a | None => None end.
Notation "o >>= k" := (obind o k) (at level 50, left associativity).

Definition empty_dict : value := VDict [].
Definition empty_list : value := VList [].

(** The manifest map [Dict[str, str]]: file name to YAML text, in
    insertion order. *)
Definition manifests : Type := list (string * string).

(** ** Cost model ([cost_optimizer.py]) *)

Record pricing : Type := {
  cpu_core : Q;
  memory_gb : Q;
  storage_gb : Q;
  spot_discount : Q
}.

(** [CostOptimizer.__init__]. *)
Definition default_pricing : pricing :=
  {| cpu_core := 1500; memory_gb := 600; storage_gb := 50;
     spot_discount := 65 # 100 |}.

Module CostOptimizer.

(** [_parse_cpu]. *)
Definition _parse_cpu (cpu_str : value) : option Q :=
  match cpu_str with
  | VStr s =>
      if PyStr.endswith s "m"
      then option_map (fun x => x / 1000)%Q (PyNum.py_float (PyStr.drop_last 1 s))
      else PyNum.py_float s
  | _ => None
  end.

Definition multipliers : list (string * Q) :=
  [("Ki", 1 / (1024 * 1024)); ("Mi", 1 / 1024); ("Gi", 1); ("Ti", 1024)]%Q.

Fixpoint scan_suffixes (table : list (string * Q)) (s : string) : option Q :=
  match table with
  | [] => PyNum.py_float s
  | (suffix, multiplier) :: rest =>
      if PyStr.endswith s suffix
      then option_map (fun x => x * multiplier)%Q
                      (PyNum.py_float (PyStr.drop_last 2 s))
      else scan_suffixes rest s
  end.

(** [_parse_memory]. *)
Definition _parse_memory (mem_str : value) : option Q :=
  match mem_str with
  | VStr s => scan_suffixes multipliers s
  | _ => None
  end.

Section Cost.
Variable safe_load_all : string -> option (list value).
Variable self : pricing.

(** The body of [for container in containers]. *)
Definition bill_container (replicas container : value) : Exc Q unit :=
  resources <- ExcM.lift (Py.get container "resources" empty_dict
                          >>= fun r => Py.get r "requests" empty_dict) ;;
  cpu_cost <- ExcM.lift (Py.get resources "cpu" (VStr "100m")
                         >>= _parse_cpu
                         >>= fun cpu_cores =>
                               Py.float_mul (cpu_cores * cpu_core self) replicas) ;;
  ExcM.modify (fun total_cost => total_cost + cpu_cost)%Q ;;;
  memory_cost <- ExcM.lift (Py.get resources "memory" (VStr "128Mi")
                            >>= _parse_memory
                            >>= fun memory_gb' =>
                                  Py.float_mul (memory_gb' * memory_gb self) replicas) ;;
  ExcM.modify (fun total_cost => total_cost + memory_cost)%Q.

(** The body of [for doc in docs]. *)
Definition bill_doc (doc : value) : Exc Q unit :=
  if negb (Py.truthy doc) then ExcM.ret tt else
  kind <- ExcM.lift (Py.get1 doc "kind") ;;
  if negb (Py.is_str kind "Deployment") then ExcM.ret tt else
  replicas <- ExcM.lift (Py.get doc "spec" empty_dict
                         >>= fun s => Py.get s "replicas" (VInt 1)) ;;
  containers <- ExcM.lift (Py.get doc "spec" empty_dict
                           >>= fun s => Py.get s "template" empty_dict
                           >>= fun t => Py.get t "spec" empty_dict
                           >>= fun p => Py.get p "containers" empty_list
                           >>= Py.iter) ;;
  ExcM.for_each containers (bill_container replicas) ;;;
  kind' <- ExcM.lift (Py.get1 doc "kind") ;;
  if Py.is_str kind' "PersistentVolumeClaim" then
    storage_cost <- ExcM.lift (Py.get doc "spec" empty_dict
                               >>= fun s => Py.get s "resources" empty_dict
                               >>= fun r => Py.get r "requests" empty_dict
                               >>= fun q => Py.get q "storage" (VStr "1Gi")
                               >>= _parse_memory
                               >>= fun storage_gb' =>
                                     Some (storage_gb' * storage_gb self)%Q) ;;
    ExcM.modify (fun total_cost => total_cost + storage_cost)%Q
  else ExcM.ret tt.

(** The [try] block of one manifest entry. *)
Definition bill_file (content : string) : Exc Q unit :=
  docs <- ExcM.lift (safe_load_all content) ;;
  ExcM.for_each docs bill_doc.

(** The body of [for filename, content in manifests.items()]. *)
Definition bill_entry (total_cost : Q) (entry : string * string) : Q :=
  let '(filename, content) := entry in
  if negb (PyStr.endswith filename ".yaml") then total_cost
  else ExcM.try_ (bill_file content) total_cost.

(** The sum before the final rounding. *)
Definition total_cost_of (m : manifests) : Q := fold_left bill_entry m 0%Q.

(** [_calculate_current_cost]. *)
Definition _calculate_current_cost (m : manifests) : Q :=
  PyNum.round2 (total_cost_of m).

End Cost.

(** A storage-claim document. *)
Definition is_storage_claim (doc : value) : Prop :=
  Py.get1 doc "kind" = Some (VStr "PersistentVolumeClaim").

(** [container.get("resources", {}).get("requests", {})]. *)
Definition requests_of (container : value) : option value :=
  Py.get container "resources" empty_dict
  >>= fun r => Py.get r "requests" empty_dict.




(** [doc.get("spec", {}).get("replicas", 1)]. *)
Definition replicas_of (doc : value) : option value :=
  Py.get doc "spec" empty_dict >>= fun s => Py.get s "replicas" (VInt 1).

(** The containers the billing loop visits. *)
Definition containers_of (doc : value) : option (list value) :=
  Py.get doc "spec" empty_dict
  >>= fun s => Py.get s "template" empty_dict
  >>= fun t => Py.get t "spec" empty_dict
  >>= fun p => Py.get p "containers" empty_list
  >>= Py.iter.

End CostOptimizer.

(** [returns o q]: the call returned a float equal to [q]. *)
Definition returns (o : option Q) (q : Q) : Prop :=
  exists x, o = Some x /\ x == q.

(** ** Address allocator ([config.py], [NetworkConfig]) *)

Module NetworkConfig.

Definition NETWORK_CIDR : string := "/24".
Definition SUBNET_START_IP : string := "10".
Definition SUBNET_END_IP : string := "100".
Definition SUBNET_GATEWAY_IP : string := "1".

(** [os.getenv("TELECOM_NETWORK_BASE", "10.100")] when the variable is
    not set. *)
Definition default_base : string := "10.100".

Section Allocator.
(** The value of [BASE_NETWORK], read from the environment at import. *)
Variable BASE_NETWORK : string.

Definition get_subnet (index : Z) : string :=
  BASE_NETWORK ++ "." ++ PyStr.of_Z index ++ ".0" ++ NETWORK_CIDR.

Definition get_ip (index : Z) : string :=
  BASE_NETWORK ++ "." ++ PyStr.of_Z index ++ "." ++ SUBNET_START_IP.

Definition get_gateway (index : Z) : string :=
  BASE_NETWORK ++ "." ++ PyStr.of_Z index ++ "." ++ SUBNET_GATEWAY_IP.

End Allocator.


End NetworkConfig.

(** ** Security scorer ([security_analyzer.py]) *)

(** The [checks] dictionary of [_run_basic_checks]: its fourteen keys
    are fixed when it is created, so it is a record. *)
Record basic_checks : Type := {
  security_context_present : bool;
  run_as_non_root : bool;
  privileged_containers : list value;
  host_network_usage : list value;
  host_path_volumes : list value;
  secrets_in_env : list value;
  capabilities_added : list value;
  resource_limits_set : bool;
  readiness_probes_set : bool;
  liveness_probes_set : bool;
  network_policies_present : bool;
  service_account_set : bool;
  image_pull_policy : list value;
  trusted_registry : list value
}.

Module Checks.

Definition initial : basic_checks :=
  {| security_context_present := false; run_as_non_root := false;
     privileged_containers := []; host_network_usage := [];
     host_path_volumes := []; secrets_in_env := [];
     capabilities_added := []; resource_limits_set := false;
     readiness_probes_set := false; liveness_probes_set := false;
     network_policies_present := false; service_account_set := false;
     image_pull_policy := []; trusted_registry := [] |}.

Definition set_security_context_present (c : basic_checks) : basic_checks :=
  {| security_context_present := true; run_as_non_root := run_as_non_root c;
     privileged_containers := privileged_containers c;
     host_network_usage := host_network_usage c;
     host_path_volumes := host_path_volumes c;
     secrets_in_env := secrets_in_env c;
     capabilities_added := capabilities_added c;
     resource_limits_set := resource_limits_set c;
     readiness_probes_set := readiness_probes_set c;
     liveness_probes_set := liveness_probes_set c;
     network_policies_present := network_policies_present c;
     service_account_set := service_account_set c;
     image_pull_policy := image_pull_policy c;
     trusted_registry := trusted_registry c |}.

Definition set_run_as_non_root (c : basic_checks) : basic_checks :=
  {| security_context_present := security_context_present c;
     run_as_non_root := true;
     privileged_containers := privileged_containers c;
     host_network_usage := host_network_usage c;
     host_path_volumes := host_path_volumes c;
     secrets_in_env := secrets_in_env c;
     capabilities_added := capabilities_added c;
     resource_limits_set := resource_limits_set c;
     readiness_probes_set := readiness_probes_set c;
     liveness_probes_set := liveness_probes_set c;
     network_policies_present := network_policies_present c;
     service_account_set := service_account_set c;
     image_pull_policy := image_pull_policy c;
     trusted_registry := trusted_registry c |}.

Definition add_privileged_containers (l : list value) (c : basic_checks) : basic_checks :=
  {| security_context_present := security_context_present c;
     run_as_non_root := run_as_non_root c;
     privileged_containers := privileged_containers c ++ l;
     host_network_usage := host_network_usage c;
     host_path_volumes := host_path_volumes c;
     secrets_in_env := secrets_in_env c;
     capabilities_added := capabilities_added c;
     resource_limits_set := resource_limits_set c;
     readiness_probes_set := readiness_probes_set c;
     liveness_probes_set := liveness_probes_set c;
     network_policies_present := network_policies_present c;
     service_account_set := service_account_set c;
     image_pull_policy := image_pull_policy c;
     trusted_registry := trusted_registry c |}.

Definition add_host_network_usage (l : list value) (c : basic_checks) : basic_checks :=
  {| security_context_present := security_context_present c;
     run_as_non_root := run_as_non_root c;
     privileged_containers := privileged_containers c;
     host_network_usage := host_network_usage c ++ l;
     host_path_volumes := host_path_volumes c;
     secrets_in_env := secrets_in_env c;
     capabilities_added := capabilities_added c;
     resource_limits_set := resource_limits_set c;
     readiness_probes_set := readiness_probes_set c;
     liveness_probes_set := liveness_probes_set c;
     network_policies_present := network_policies_present c;
     service_account_set := service_account_set c;
     image_pull_policy := image_pull_policy c;
     trusted_registry := trusted_registry c |}.

Definition add_host_path_volumes (l : list value) (c : basic_checks) : basic_checks :=
  {| security_context_present := security_context_present c;
     run_as_non_root := run_as_non_root c;
     privileged_containers := privileged_containers c;
     host_network_usage := host_network_usage c;
     host_path_volumes := host_path_volumes c ++ l;
     secrets_in_env := secrets_in_env c;
     capabilities_added := capabilities_added c;
     resource_limits_set := resource_limits_set c;
     readiness_probes_set := readiness_probes_set c;
     liveness_probes_set := liveness_probes_set c;
     network_policies_present := network_policies_present c;
     service_account_set := service_account_set c;
     image_pull_policy := image_pull_policy c;
     trusted_registry := trusted_registry c |}.

Definition add_secrets_in_env (l : list value) (c : basic_checks) : basic_checks :=
  {| security_context_present := security_context_present c;
     run_as_non_root := run_as_non_root c;
     privileged_containers := privileged_containers c;
     host_network_usage := host_network_usage c;
     host_path_volumes := host_path_volumes c;
     secrets_in_env := secrets_in_env c ++ l;
     capabilities_added := capabilities_added c;
     resource_limits_set := resource_limits_set c;
     readiness_probes_set := readiness_probes_set c;
     liveness_probes_set := liveness_probes_set c;
     network_policies_present := network_policies_present c;
     service_account_set := service_account_set c;
     image_pull_policy := image_pull_policy c;
     trusted_registry := trusted_registry c |}.

Definition add_capabilities_added (l : list value) (c : basic_checks) : basic_checks :=
  {| security_context_present := security_context_present c;
     run_as_non_root := run_as_non_root c;
     privileged_containers := privileged_containers c;
     host_network_usage := host_network_usage c;
     host_path_volumes := host_path_volumes c;
     secrets_in_env := secrets_in_env c;
     capabilities_added := capabilities_added c ++ l;
     resource_limits_set := resource_limits_set c;
     readiness_probes_set := readiness_probes_set c;
     liveness_probes_set := liveness_probes_set c;
     network_policies_present := network_policies_present c;
     service_account_set := service_account_set c;
     image_pull_policy := image_pull_policy c;
     trusted_registry := trusted_registry c |}.

Definition set_resource_limits_set (c : basic_checks) : basic_checks :=
  {| security_context_present := security_context_present c;
     run_as_non_root := run_as_non_root c;
     privileged_containers := privileged_containers c;
     host_network_usage := host_network_usage c;
     host_path_volumes := host_path_volumes c;
     secrets_in_env := secrets_in_env c;
     capabilities_added := capabilities_added c;
     resource_limits_set := true;
     readiness_probes_set := readiness_probes_set c;
     liveness_probes_set := liveness_probes_set c;
     network_policies_present := network_policies_present c;
     service_account_set := service_account_set c;
     image_pull_policy := image_pull_policy c;
     trusted_registry := trusted_registry c |}.

Definition set_readiness_probes_set (c : basic_checks) : basic_checks :=
  {| security_context_present := security_context_present c;
     run_as_non_root := run_as_non_root c;
     privileged_containers := privileged_containers c;
     host_network_usage := host_network_usage c;
     host_path_volumes := host_path_volumes c;
     secrets_in_env := secrets_in_env c;
     capabilities_added := capabilities_added c;
     resource_limits_set := resource_limits_set c;
     readiness_probes_set := true;
     liveness_probes_set := liveness_probes_set c;
     network_policies_present := network_policies_present c;
     service_account_set := service_account_set c;
     image_pull_policy := image_pull_policy c;
     trusted_registry := trusted_registry c |}.

Definition set_liveness_probes_set (c : basic_checks) : basic_checks :=
  {| security_context_present := security_context_present c;
     run_as_non_root := run_as_non_root c;
     privileged_containers := privileged_containers c;
     host_network_usage := host_network_usage c;
     host_path_volumes := host_path_volumes c;
     secrets_in_env := secrets_in_env c;
     capabilities_added := capabilities_added c;
     resource_limits_set := resource_limits_set c;
     readiness_probes_set := readiness_probes_set c;
     liveness_probes_set := true;
     network_policies_present := network_policies_present c;
     service_account_set := service_account_set c;
     image_pull_policy := image_pull_policy c;
     trusted_registry := trusted_registry c |}.

Definition set_network_policies_present (c : basic_checks) : basic_checks :=
  {| security_context_present := security_context_present c;
     run_as_non_root := run_as_non_root c;
     privileged_containers := privileged_containers c;
     host_network_usage := host_network_usage c;
     host_path_volumes := host_path_volumes c;
     secrets_in_env := secrets_in_env c;
     capabilities_added := capabilities_added c;
     resource_limits_set := resource_limits_set c;
     readiness_probes_set := readiness_probes_set c;
     liveness_probes_set := liveness_probes_set c;
     network_policies_present := true;
     service_account_set := service_account_set c;
     image_pull_policy := image_pull_policy c;
     trusted_registry := trusted_registry c |}.

Definition set_service_account_set (c : basic_checks) : basic_checks :=
  {| security_context_present := security_context_present c;
     run_as_non_root := run_as_non_root c;
     privileged_containers := privileged_containers c;
     host_network_usage := host_network_usage c;
     host_path_volumes := host_path_volumes c;
     secrets_in_env := secrets_in_env c;
     capabilities_added := capabilities_added c;
     resource_limits_set := resource_limits_set c;
     readiness_probes_set := readiness_probes_set c;
     liveness_probes_set := liveness_probes_set c;
     network_policies_present := network_policies_present c;
     service_account_set := true;
     image_pull_policy := image_pull_policy c;
     trusted_registry := trusted_registry c |}.

Definition add_image_pull_policy (l : list value) (c : basic_checks) : basic_checks :=
  {| security_context_present := security_context_present c;
     run_as_non_root := run_as_non_root c;
     privileged_containers := privileged_containers c;
     host_network_usage := host_network_usage c;
     host_path_volumes := host_path_volumes c;
     secrets_in_env := secrets_in_env c;
     capabilities_added := capabilities_added c;
     resource_limits_set := resource_limits_set c;
     readiness_probes_set := readiness_probes_set c;
     liveness_probes_set := liveness_probes_set c;
     network_policies_present := network_policies_present c;
     service_account_set := service_account_set c;
     image_pull_policy := image_pull_policy c ++ l;
     trusted_registry := trusted_registry c |}.

Definition add_trusted_registry (l : list value) (c : basic_checks) : basic_checks :=
  {| security_context_present := security_context_present c;
     run_as_non_root := run_as_non_root c;
     privileged_containers := privileged_containers c;
     host_network_usage := host_network_usage c;
     host_path_volumes := host_path_volumes c;
     secrets_in_env := secrets_in_env c;
     capabilities_added := capabilities_added c;
     resource_limits_set := resource_limits_set c;
     readiness_probes_set := readiness_probes_set c;
     liveness_probes_set := liveness_probes_set c;
     network_policies_present := network_policies_present c;
     service_account_set := service_account_set c;
     image_pull_policy := image_pull_policy c;
     trusted_registry := trusted_registry c ++ l |}.

End Checks.

Module PyExtra.

(** [s in v] for a string [s]: substring of a string, member of a list,
    key of a mapping; [TypeError] on anything else. *)
Definition str_in (s : string) (v : value) : option bool :=
  match v with
  | VStr t => Some (PyStr.contains s t)
  | VList l => Some (existsb (fun x => Py.is_str x s) l)
  | VDict _ => Some (Py.has_key v s)
  | _ => None
  end.

(** [v.upper()]; only a string has [upper]. *)
Definition upper_of (v : value) : option string :=
  match v with
  | VStr s => Some (PyStr.upper s)
  | _ => None
  end.

(** [a == b].  Numbers compare by value across [bool], [int] and
    [float]; lists element by element; mappings entry by entry whatever
    the order of their keys. *)
Fixpoint py_eq (a b : value) {struct a} : bool :=
  match a, b with
  | VNone, VNone => true
  | VStr s, VStr t => String.eqb s t
  | VList l, VList l' =>
      (fix all2 (l l' : list value) {struct l} : bool :=
         match l, l' with
         | [], [] => true
         | x :: xs, y :: ys => py_eq x y && all2 xs ys
         | _, _ => false
         end) l l'
  | VDict d, VDict d' =>
      Nat.eqb (List.length d) (List.length d') &&
      (fix all1 (d : list (string * value)) {struct d} : bool :=
         match d with
         | [] => true
         | (k, v) :: r =>
             match Py.lookup k d' with
             | Some v' => py_eq v v'
             | None => false
             end && all1 r
         end) d
  | _, _ =>
      match Py.as_number a, Py.as_number b with
      | Some x, Some y => Qeq_bool x y
      | _, _ => false
      end
  end.

(** Truncation toward zero, [int(x)] for a float [x]. *)
Definition trunc (q : Q) : Z := Z.quot (Qnum q) (Zpos (Qden q)).

(** [int(v)]: numbers are truncated, a string must spell an integer
    (blanks around it allowed); [None] is [ValueError] or [TypeError]. *)
Definition int_of (v : value) : option Z :=
  match v with
  | VInt z => Some z
  | VBool b => Some (if b then 1 else 0)
  | VFloat q => Some (trunc q)
  | VStr s => PyNum.signed_digits (PyStr.strip s)
  | _ => None
  end.

(** [d[k] = x] on the entries of a mapping: an existing key keeps its
    place, a new one goes last. *)
Fixpoint set_key (k : string) (x : value) (d : list (string * value))
  : list (string * value) :=
  match d with
  | [] => [(k, x)]
  | (k', v) :: d' =>
      if String.eqb k' k then (k', x) :: d' else (k', v) :: set_key k x d'
  end.

(** [v[k] = x]; only a mapping takes a string key. *)
Definition set_item (v : value) (k : string) (x : value) : option value :=
  match v with
  | VDict d => Some (VDict (set_key k x d))
  | _ => None
  end.

(** In-place edit of [v[k1][k2]...]: the object found there is replaced
    by what [f] makes of it; a missing key or a non-mapping on the way
    raises. *)
Fixpoint update_at (path : list string) (f : value -> option value) (v : value)
  : option value :=
  match path with
  | [] => f v
  | k :: path' =>
      Py.item v k >>= update_at path' f >>= set_item v k
  end.

Fixpoint mapM {A B} (f : A -> option B) (l : list A) : option (list B) :=
  match l with
  | [] => Some []
  | x :: l' => f x >>= fun y => mapM f l' >>= fun ys => Some (y :: ys)
  end.

(** [len(v)]. *)
Definition len (v : value) : option Z :=
  match v with
  | VStr s => Some (Z.of_nat (String.length s))
  | VList l => Some (Z.of_nat (List.length l))
  | VDict d => Some (Z.of_nat (List.length d))
  | _ => None
  end.

End PyExtra.

Module SecurityAnalyzer.

(** [if cond: m]. *)
Definition when {S} (cond : bool) (m : Exc S unit) : Exc S unit :=
  if cond then m else ExcM.ret tt.

(** [bool(l)] for one of the lists of the checks record. *)
Definition flag_of (l : list value) : bool :=
  match l with [] => false | _ => true end.

Section Scan.
Variable safe_load_all : string -> option (list value).
(** [str(v)], what an f-string writes for [{v}]. *)
Variable format : value -> string.

(** The body of [for env in container.get("env", [])]. *)
Definition check_env (name container_name env : value) : Exc basic_checks unit :=
  upper_name <- ExcM.lift (Py.get env "name" (VStr "") >>= PyExtra.upper_of) ;;
  when (PyStr.contains "SECRET" upper_name || PyStr.contains "PASSWORD" upper_name)
    (when (Py.has_key env "value")
       (env_name <- ExcM.lift (Py.item env "name") ;;
        ExcM.modify (Checks.add_secrets_in_env
          [VStr (format name ++ "/" ++ format container_name ++ ": "
                 ++ format env_name)]))).

(** The body of [for container in spec.get("containers", [])]. *)
Definition check_container (name container : value) : Exc basic_checks unit :=
  container_name <- ExcM.lift (Py.get container "name" (VStr "unnamed")) ;;
  privileged <- ExcM.lift (Py.get container "securityContext" empty_dict
                           >>= fun sc => Py.get1 sc "privileged") ;;
  when (Py.truthy privileged)
    (ExcM.modify (Checks.add_privileged_containers
       [VStr (format name ++ "/" ++ format container_name)])) ;;;
  caps <- ExcM.lift (Py.get container "securityContext" empty_dict
                     >>= fun sc => Py.get sc "capabilities" empty_dict
                     >>= fun cp => Py.get cp "add" empty_list) ;;
  when (Py.truthy caps)
    (each <- ExcM.lift (Py.iter caps) ;;
     ExcM.modify (Checks.add_capabilities_added
       (map (fun cap => VStr (format name ++ "/" ++ format container_name
                              ++ ": " ++ format cap)) each))) ;;;
  limits <- ExcM.lift (Py.get container "resources" empty_dict
                       >>= fun r => Py.get1 r "limits") ;;
  when (Py.truthy limits) (ExcM.modify Checks.set_resource_limits_set) ;;;
  readiness <- ExcM.lift (Py.get1 container "readinessProbe") ;;
  when (Py.truthy readiness) (ExcM.modify Checks.set_readiness_probes_set) ;;;
  liveness <- ExcM.lift (Py.get1 container "livenessProbe") ;;
  when (Py.truthy liveness) (ExcM.modify Checks.set_liveness_probes_set) ;;;
  image <- ExcM.lift (Py.get container "image" (VStr "")) ;;
  when (Py.truthy image)
    (in_mts <- ExcM.lift (PyExtra.str_in "registry.mts.ru" image) ;;
     in_hub <- (if in_mts then ExcM.ret true
                else ExcM.lift (PyExtra.str_in "docker.io/library" image)) ;;
     if in_hub
     then ExcM.modify (Checks.add_trusted_registry [image])
     else ExcM.modify (Checks.add_image_pull_policy
            [VStr (format name ++ ": " ++ format image)])) ;;;
  envs <- ExcM.lift (Py.get container "env" empty_list >>= Py.iter) ;;
  ExcM.for_each envs (check_env name container_name).

(** The body of [for volume in spec.get("volumes", [])]. *)
Definition check_volume (name volume : value) : Exc basic_checks unit :=
  host_path <- ExcM.lift (Py.get1 volume "hostPath") ;;
  when (Py.truthy host_path)
    (path <- ExcM.lift (Py.item volume "hostPath" >>= fun h => Py.item h "path") ;;
     ExcM.modify (Checks.add_host_path_volumes
       [VStr (format name ++ ": " ++ format path)])).

(** [doc.get("spec", {}).get("template", {}).get("spec", {})]. *)
Definition pod_spec_of (doc : value) : option value :=
  Py.get doc "spec" empty_dict
  >>= fun s => Py.get s "template" empty_dict
  >>= fun t => Py.get t "spec" empty_dict.

(** The [if kind == "Deployment"] branch up to the host-path volumes. *)
Definition check_pod (name spec : value) : Exc basic_checks unit :=
  pod_security <- ExcM.lift (Py.get spec "securityContext" empty_dict) ;;
  when (Py.truthy pod_security)
    (ExcM.modify Checks.set_security_context_present ;;;
     non_root <- ExcM.lift (Py.get1 pod_security "runAsNonRoot") ;;
     when (Py.truthy non_root) (ExcM.modify Checks.set_run_as_non_root)) ;;;
  containers <- ExcM.lift (Py.get spec "containers" empty_list >>= Py.iter) ;;
  ExcM.for_each containers (check_container name) ;;;
  host_network <- ExcM.lift (Py.get1 spec "hostNetwork") ;;
  when (Py.truthy host_network)
    (ExcM.modify (Checks.add_host_network_usage [name])) ;;;
  volumes <- ExcM.lift (Py.get spec "volumes" empty_list >>= Py.iter) ;;
  ExcM.for_each volumes (check_volume name).

(** The whole branch: the service account is looked at last. *)
Definition check_deployment (name doc : value) : Exc basic_checks unit :=
  spec <- ExcM.lift (pod_spec_of doc) ;;
  check_pod name spec ;;;
  service_account <- ExcM.lift (Py.get1 spec "serviceAccountName") ;;
  when (Py.truthy service_account) (ExcM.modify Checks.set_service_account_set).

(** The body of [for doc in docs]. *)
Definition check_doc (doc : value) : Exc basic_checks unit :=
  if negb (Py.truthy doc) then ExcM.ret tt else
  kind <- ExcM.lift (Py.get1 doc "kind") ;;
  name <- ExcM.lift (Py.get doc "metadata" empty_dict
                     >>= fun m => Py.get m "name" (VStr "unnamed")) ;;
  if Py.is_str kind "Deployment" then check_deployment name doc
  else if Py.is_str kind "NetworkPolicy"
       then ExcM.modify Checks.set_network_policies_present
       else ExcM.ret tt.

(** The [try] block of one manifest entry. *)
Definition check_file (content : string) : Exc basic_checks unit :=
  docs <- ExcM.lift (safe_load_all content) ;;
  ExcM.for_each docs check_doc.

(** The body of [for filename, content in manifests.items()]. *)
Definition check_entry (checks : basic_checks) (entry : string * string) : basic_checks :=
  let '(filename, content) := entry in
  if negb (PyStr.endswith filename ".yaml") then checks
  else ExcM.try_ (check_file content) checks.

(** [_run_basic_checks]. *)
Definition _run_basic_checks (m : manifests) : basic_checks :=
  fold_left check_entry m Checks.initial.

(** The scan of [doc] runs to its end. *)
Definition doc_ok (doc : value) : bool :=
  ExcM.completes (check_doc doc) Checks.initial.

(** The documents the loop over one file visits: all of them up to and
    including the first whose scan raises. *)
Fixpoint visited_docs (docs : list value) : list value :=
  match docs with
  | [] => []
  | doc :: rest => doc :: (if doc_ok doc then visited_docs rest else [])
  end.

(** The documents [_run_basic_checks] visits. *)
Definition visited (m : manifests) : list value :=
  flat_map (fun entry : string * string =>
              if PyStr.endswith (fst entry) ".yaml"
              then match safe_load_all (snd entry) with
                   | Some docs => visited_docs docs
                   | None => []
                   end
              else []) m.

Definition kind_is (doc : value) (kind : string) : bool :=
  match Py.get1 doc "kind" with
  | Some k => Py.is_str k kind
  | None => false
  end.

(** A network policy that the scan takes note of. *)
Definition declares_policy (doc : value) : bool :=
  doc_ok doc && Py.truthy doc && kind_is doc "NetworkPolicy".

(** A Deployment scanned to its end whose pod spec names a service
    account, whatever the name. *)
Definition declares_account (doc : value) : bool :=
  doc_ok doc && Py.truthy doc && kind_is doc "Deployment"
  && match pod_spec_of doc >>= fun spec => Py.get1 spec "serviceAccountName" with
     | Some account => Py.truthy account
     | None => false
     end.

End Scan.

(** In the words of the specification: every Deployment of the list
    declares a service account other than [default]. *)
Definition spec_every_deployment_has_account (docs : list value) : bool :=
  forallb (fun doc =>
             negb (kind_is doc "Deployment")
             || match pod_spec_of doc
                      >>= fun spec => Py.get1 spec "serviceAccountName" with
                | Some (VStr account) =>
                    negb (String.eqb account "") && negb (String.eqb account "default")
                | _ => false
                end) docs.

(** In the words of the specification: a network policy exists in the
    list. *)
Definition spec_has_network_policy (docs : list value) : bool :=
  existsb (fun doc => kind_is doc "NetworkPolicy") docs.

(** The flat deductions of [_calculate_security_score]. *)
Definition deductions (c : basic_checks) : Z :=
  (if negb (security_context_present c) then 10 else 0)
  + (if negb (run_as_non_root c) then 10 else 0)
  + (if flag_of (privileged_containers c) then 20 else 0)
  + (if flag_of (secrets_in_env c) then 15 else 0)
  + (if negb (resource_limits_set c) then 10 else 0)
  + (if negb (network_policies_present c) then 10 else 0).

(** [_calculate_security_score]; [llm_analysis] is the decoded JSON
    answer of the external analysis. *)
Definition _calculate_security_score (c : basic_checks) (llm_analysis : value)
  : option Z :=
  Py.get llm_analysis "critical_issues" empty_list >>= PyExtra.len
  >>= fun critical_issues =>
  Py.get llm_analysis "warnings" empty_list >>= PyExtra.len
  >>= fun warnings =>
  let score := 100 in
  let score := score - critical_issues * 15 in
  let score := score - warnings * 5 in
  let score := if negb (security_context_present c) then score - 10 else score in
  let score := if negb (run_as_non_root c) then score - 10 else score in
  let score := if flag_of (privileged_containers c) then score - 20 else score in
  let score := if flag_of (secrets_in_env c) then score - 15 else score in
  let score := if negb (resource_limits_set c) then score - 10 else score in
  let score := if negb (network_policies_present c) then score - 10 else score in
  Some (Z.max 0 (Z.min 100 score)).

(** [_get_security_grade], the letter only. *)
Definition _get_security_grade (score : Z) : string :=
  if 90 <=? score then "A"
  else if 75 <=? score then "B"
  else if 60 <=? score then "C"
  else if 40 <=? score then "D"
  else "F".

Record compliance : Type := {
  pod_security_baseline : bool;
  pod_security_restricted : bool;
  zero_trust_ready : bool
}.

(** [_check_compliance]. *)
Definition _check_compliance (c : basic_checks) : compliance :=
  {| pod_security_baseline :=
       security_context_present c && negb (flag_of (privileged_containers c));
     pod_security_restricted :=
       run_as_non_root c && resource_limits_set c
       && negb (flag_of (host_network_usage c));
     zero_trust_ready :=
       network_policies_present c && service_account_set c |}.

End SecurityAnalyzer.

(** ** Applying optimization changes ([cost_optimizer.py]) *)

Module Optimizer.

(** [container.setdefault("resources", {}).setdefault("requests", {})[key]
    = new_value]. *)
Definition set_request (key : string) (new_value container : value)
  : option value :=
  match container with
  | VDict c =>
      match (match Py.lookup "resources" c with Some r => r | None => empty_dict end) with
      | VDict r =>
          match (match Py.lookup "requests" r with Some q => q | None => empty_dict end) with
          | VDict q =>
              Some (VDict (PyExtra.set_key "resources"
                     (VDict (PyExtra.set_key "requests"
                       (VDict (PyExtra.set_key key new_value q)) r)) c))
          | _ => None
          end
      | _ => None
      end
  | _ => None
  end.

(** [for container in containers: ...] writing into each container.  A
    list is rewritten item by item; any other iterable only passes when
    it yields nothing, since what it yields is a string. *)
Definition set_requests (key : string) (new_value containers : value)
  : option value :=
  match containers with
  | VList cs => option_map VList (PyExtra.mapM (set_request key new_value) cs)
  | _ => match Py.iter containers with
         | Some [] => Some containers
         | _ => None
         end
  end.

Definition containers_path : list string :=
  ["spec"; "template"; "spec"; "containers"].

(** The body of [for doc in docs]: the document after the edit and
    whether [modified] was set; [None] when it raised. *)
Definition edit_doc (change_type target new_value doc : value)
  : option (value * bool) :=
  if negb (Py.truthy doc) then Some (doc, false) else
  (Py.get doc "metadata" empty_dict >>= fun md => Py.get1 md "name")
  >>= fun name =>
  if negb (PyExtra.py_eq name target) then Some (doc, false) else
  Py.get1 doc "kind" >>= fun kind =>
  if Py.is_str change_type "reduce_replicas" && Py.is_str kind "Deployment" then
    PyExtra.int_of new_value >>= fun n =>
    PyExtra.update_at ["spec"] (fun s => PyExtra.set_item s "replicas" (VInt n)) doc
    >>= fun doc' => Some (doc', true)
  else if Py.is_str change_type "reduce_cpu" && Py.is_str kind "Deployment" then
    PyExtra.update_at containers_path (set_requests "cpu" new_value) doc
    >>= fun doc' => Some (doc', true)
  else if Py.is_str change_type "reduce_memory" && Py.is_str kind "Deployment" then
    PyExtra.update_at containers_path (set_requests "memory" new_value) doc
    >>= fun doc' => Some (doc', true)
  else Some (doc, false).

(** The loop over the documents of one file. *)
Fixpoint edit_docs (change_type target new_value : value) (docs : list value)
  : option (list value * bool) :=
  match docs with
  | [] => Some ([], false)
  | doc :: rest =>
      edit_doc change_type target new_value doc >>= fun '(doc', m1) =>
      edit_docs change_type target new_value rest >>= fun '(rest', m2) =>
      Some (doc' :: rest', m1 || m2)
  end.

Section Apply.
Variable safe_load_all : string -> option (list value).
(** [yaml.dump_all(docs, default_flow_style=False)]. *)
Variable dump_all : list value -> string.

(** The body of [for filename, content in optimized.items()]: the entry
    as the loop leaves it. *)
Definition edit_entry (change_type target new_value : value)
    (entry : string * string) : string * string :=
  let '(filename, content) := entry in
  if negb (PyStr.endswith filename ".yaml") then entry
  else match safe_load_all content
             >>= edit_docs change_type target new_value with
       | Some (docs, true) => (filename, dump_all docs)
       | _ => entry
       end.

(** The body of [for change in changes]; reading the change is outside
    any [try]. *)
Definition apply_change (optimized : manifests) (change : value)
  : option manifests :=
  Py.get1 change "type" >>= fun change_type =>
  Py.get1 change "target" >>= fun target =>
  Py.get1 change "to" >>= fun new_value =>
  Some (map (edit_entry change_type target new_value) optimized).

Fixpoint apply_changes (optimized : manifests) (changes : list value)
  : option manifests :=
  match changes with
  | [] => Some optimized
  | change :: rest =>
      apply_change optimized change >>= fun m => apply_changes m rest
  end.

(** [_apply_optimizations]; [None] is an exception that leaves the
    function. *)
Definition _apply_optimizations (m : manifests) (optimization : value)
  : option manifests :=
  Py.get optimization "changes" empty_list >>= Py.iter >>= apply_changes m.

(** What one change does to a single entry, whichever map the entry is
    in: the loop over the entries treats each on its own. *)
Definition edit_by (change : value) : option (string * string -> string * string) :=
  Py.get1 change "type" >>= fun change_type =>
  Py.get1 change "target" >>= fun target =>
  Py.get1 change "to" >>= fun new_value =>
  Some (edit_entry change_type target new_value).

(** What a list of changes does to a single entry. *)
Fixpoint edit_by_all (changes : list value)
  : option (string * string -> string * string) :=
  match changes with
  | [] => Some (fun entry => entry)
  | change :: rest =>
      edit_by change >>= fun g =>
      edit_by_all rest >>= fun h => Some (fun entry => h (g entry))
  end.

End Apply.

(** [doc]'s [metadata.name] equals [target], as the loop tests it. *)
Definition names_target (doc target : value) : bool :=
  match Py.get doc "metadata" empty_dict >>= fun md => Py.get1 md "name" with
  | Some name => PyExtra.py_eq name target
  | None => false
  end.

(** The change types the loop acts on. *)
Definition implemented (change_type : value) : bool :=
  Py.is_str change_type "reduce_replicas"
  || Py.is_str change_type "reduce_cpu"
  || Py.is_str change_type "reduce_memory".

End Optimizer.

(** ** Manifest synthesizer ([telecom_generator.py]) *)

(** A call that returns or raises [ValueError] with a message. *)
Inductive result (A : Type) : Type :=
| Ok (a : A)
| ValueError (msg : string).
Arguments Ok {A} a.
Arguments ValueError {A} msg.

(** An entry of [TELECOM_COMPONENTS]; a key the entry does not have is
    [None], [false] or the empty list. *)
Record component : Type := {
  component_type_ : option string;
  cpu_min : string; cpu_max : string;
  memory_min : string; memory_max : string;
  replicas : option Z;
  networks : list string;
  capabilities : list string;
  storage : option string;
  storage_class : option string;
  critical : bool;
  priority : option string;
  needs_database : bool;
  needs_cache : bool;
  needs_queue : bool;
  ports : list Z
}.

Module TelecomGenerator.

Definition nl : string := String (ascii_of_nat 10) EmptyString.
Definition dq : string := String (ascii_of_nat 34) EmptyString.
Definition quoted (s : string) : string := dq ++ s ++ dq.
Definition field (k v : string) : string := quoted k ++ ": " ++ quoted v.

(** What [TELECOM_COMPONENTS.get(component_type, {})] gives for a type
    that is not in the table. *)
Definition generic : component :=
  {| component_type_ := None;
     cpu_min := ""; cpu_max := ""; memory_min := ""; memory_max := "";
     replicas := None; networks := []; capabilities := [];
     storage := None; storage_class := None; critical := false;
     priority := None; needs_database := false; needs_cache := false;
     needs_queue := false; ports := [] |}.

Definition TELECOM_COMPONENTS : list (string * component) :=
  [ ("5g_upf",
     {| component_type_ := None;
        cpu_min := "4"; cpu_max := "8"; memory_min := "8Gi"; memory_max := "16Gi";
        replicas := Some 3; networks := ["n3"; "n4"; "n6"];
        capabilities := ["NET_ADMIN"; "SYS_ADMIN"];
        storage := Some "100Gi"; storage_class := Some "fast-ssd";
        critical := true; priority := Some "system-cluster-critical";
        needs_database := false; needs_cache := false; needs_queue := false;
        ports := [] |});
    ("5g_amf",
     {| component_type_ := None;
        cpu_min := "2"; cpu_max := "4"; memory_min := "4Gi"; memory_max := "8Gi";
        replicas := Some 3; networks := ["n1"; "n2"];
        capabilities := ["NET_ADMIN"];
        storage := None; storage_class := None;
        critical := true; priority := Some "system-cluster-critical";
        needs_database := false; needs_cache := false; needs_queue := false;
        ports := [] |});
    ("5g_smf",
     {| component_type_ := None;
        cpu_min := "2"; cpu_max := "4"; memory_min := "4Gi"; memory_max := "8Gi";
        replicas := Some 3; networks := ["n4"; "n7"];
        capabilities := ["NET_ADMIN"];
        storage := None; storage_class := None;
        critical := true; priority := Some "system-cluster-critical";
        needs_database := false; needs_cache := false; needs_queue := false;
        ports := [] |});
    ("billing",
     {| component_type_ := None;
        cpu_min := "1"; cpu_max := "4"; memory_min := "2Gi"; memory_max := "8Gi";
        replicas := Some 3; networks := []; capabilities := [];
        storage := None; storage_class := None;
        critical := true; priority := Some "high-priority";
        needs_database := true; needs_cache := true; needs_queue := true;
        ports := [] |});
    ("rabbitmq",
     {| component_type_ := Some "StatefulSet";
        cpu_min := "1"; cpu_max := "2"; memory_min := "2Gi"; memory_max := "4Gi";
        replicas := Some 3; networks := []; capabilities := [];
        storage := Some "100Gi"; storage_class := Some "fast-ssd";
        critical := false; priority := None;
        needs_database := false; needs_cache := false; needs_queue := false;
        ports := [5672; 15672; 25672] |});
    ("redis",
     {| component_type_ := Some "StatefulSet";
        cpu_min := "500m"; cpu_max := "2"; memory_min := "1Gi"; memory_max := "4Gi";
        replicas := Some 3; networks := []; capabilities := [];
        storage := Some "20Gi"; storage_class := Some "fast-ssd";
        critical := false; priority := None;
        needs_database := false; needs_cache := false; needs_queue := false;
        ports := [] |}) ].

Fixpoint find_component (t : string) (table : list (string * component))
  : option component :=
  match table with
  | [] => None
  | (k, c) :: rest => if String.eqb k t then Some c else find_component t rest
  end.

(** [get_component_config]. *)
Definition get_component_config (component_type : string) : component :=
  match find_component component_type TELECOM_COMPONENTS with
  | Some c => c
  | None => generic
  end.

(** The [try] block of [generate_networkattachmentdefinition_yaml]: the
    address part without its last field, or the failure that the
    [except] clause turns into [ValueError]. *)
Definition parse_subnet (subnet : string) : option string :=
  let subnet_parts := PyStr.split "/" subnet in
  if negb (Nat.eqb (List.length subnet_parts) 2) then None else
  let ip_part := nth 0 subnet_parts EmptyString in
  if negb (PyStr.contains_char "." ip_part) then None else
  Some (PyStr.rsplit1_head "." ip_part).

Definition nad_text (network_name namespace subnet base_ip : string) : string :=
  PyStr.strip
    (nl ++ "apiVersion: k8s.cni.cncf.io/v1" ++ nl
     ++ "kind: NetworkAttachmentDefinition" ++ nl
     ++ "metadata:" ++ nl
     ++ "  name: " ++ network_name ++ "-network" ++ nl
     ++ "  namespace: " ++ namespace ++ nl
     ++ "spec:" ++ nl
     ++ "  config: |" ++ nl
     ++ "    {" ++ nl
     ++ "      " ++ field "cniVersion" "0.3.1" ++ "," ++ nl
     ++ "      " ++ field "type" "macvlan" ++ "," ++ nl
     ++ "      " ++ field "master" "eth1" ++ "," ++ nl
     ++ "      " ++ field "mode" "bridge" ++ "," ++ nl
     ++ "      " ++ quoted "ipam" ++ ": {" ++ nl
     ++ "        " ++ field "type" "host-local" ++ "," ++ nl
     ++ "        " ++ field "subnet" subnet ++ "," ++ nl
     ++ "        " ++ field "rangeStart" (base_ip ++ ".10") ++ "," ++ nl
     ++ "        " ++ field "rangeEnd" (base_ip ++ ".100") ++ "," ++ nl
     ++ "        " ++ field "gateway" (base_ip ++ ".1") ++ nl
     ++ "      }" ++ nl
     ++ "    }" ++ nl).

(** [generate_networkattachmentdefinition_yaml]. *)
Definition generate_networkattachmentdefinition_yaml
    (network_name namespace subnet : string) : result string :=
  match parse_subnet subnet with
  | None => ValueError ("Invalid subnet format: " ++ subnet)
  | Some base_ip => Ok (nad_text network_name namespace subnet base_ip)
  end.

(** [manifests[name] = text] for a file name not yet in the map. *)
Definition put (m : manifests) (name text : string) : manifests :=
  (m ++ [(name, text)])%list.

Section FullStack.
(** The value of [NetworkConfig.BASE_NETWORK]. *)
Variable BASE_NETWORK : string.
(** The other generators: text templates filled with their arguments,
    none of which can raise. *)
Variable generate_deployment_yaml : string -> string -> string -> string.
Variable generate_service_yaml : string -> string -> string.
Variable generate_hpa_yaml : string -> string -> Z -> Z -> string.
Variable generate_pvc_yaml : string -> string -> string -> string -> string.
Variable _generate_secret_yaml : string -> string -> component -> string.

(** The loop [for idx, net in enumerate(config["networks"])], from
    ordinal [idx] on. *)
Fixpoint nad_manifests (namespace : string) (idx : Z) (nets : list string)
  : result (list string) :=
  match nets with
  | [] => Ok []
  | net :: rest =>
      let subnet := NetworkConfig.get_subnet BASE_NETWORK (100 + idx) in
      match generate_networkattachmentdefinition_yaml net namespace subnet with
      | ValueError msg => ValueError msg
      | Ok nad_yaml =>
          match nad_manifests namespace (idx + 1) rest with
          | ValueError msg => ValueError msg
          | Ok more => Ok (nad_yaml :: more)
          end
      end
  end.

Definition default_replicas (config : component) : Z :=
  match replicas config with Some r => r | None => 3 end.

(** [generate_full_stack]. *)
Definition generate_full_stack (component_type service_name namespace : string)
  : result manifests :=
  let config := get_component_config component_type in
  let m := [("deployment.yaml",
             generate_deployment_yaml component_type service_name namespace);
            ("service.yaml", generate_service_yaml service_name namespace)] in
  let m := if critical config
           then put m "hpa.yaml"
                  (generate_hpa_yaml service_name namespace
                     (default_replicas config) (default_replicas config * 3))
           else m in
  let m := match storage config with
           | Some st =>
               if negb (String.eqb st "")
               then put m "pvc.yaml"
                      (generate_pvc_yaml service_name namespace st
                         (match storage_class config with
                          | Some sc => sc
                          | None => "standard"
                          end))
               else m
           | None => m
           end in
  match (match networks config with
         | [] => Ok m
         | nets =>
             match nad_manifests namespace 0 nets with
             | ValueError msg => ValueError msg
             | Ok docs =>
                 Ok (put m "network-attachment.yaml"
                       (PyStr.join (nl ++ "---" ++ nl) docs))
             end
         end) with
  | ValueError msg => ValueError msg
  | Ok m =>
      Ok (if needs_database config || needs_queue config
          then put m "secret.yaml"
                 (_generate_secret_yaml service_name namespace config)
          else m)
  end.

End FullStack.

(** The two checks of the [try] block: exactly one slash, and a dot
    somewhere before it. *)
Definition accepted (subnet : string) : bool :=
  Nat.eqb (List.length (PyStr.split "/" subnet)) 2
  && PyStr.contains_char "." (nth 0 (PyStr.split "/" subnet) EmptyString).

(** A subnet in the words of the specification: [a.b.c.d/n], a dotted
    IPv4 address of four decimal fields, a slash, a decimal prefix
    length. *)
Definition spec_is_cidr (subnet : string) : bool :=
  match PyStr.split "/" subnet with
  | [addr; n] =>
      let decimal s := negb (String.eqb s "") && PyNum.all_digits s in
      Nat.eqb (List.length (PyStr.split "." addr)) 4
      && forallb decimal (PyStr.split "." addr) && decimal n
  | _ => false
  end.

End TelecomGenerator.

(** ** Sample manifests

    The YAML library is a parameter of the models above.  For concrete
    runs its behaviour is tabulated here on a handful of texts: what
    [yaml.safe_load_all] returns for each text and what
    [yaml.dump_all(..., default_flow_style=False)] writes for each list
    of documents.  A text outside the table counts as one that does not
    parse. *)

Module Samples.

(** Structural identity of two values, used to look documents up in the
    table of dumps. *)
Fixpoint same (a b : value) {struct a} : bool :=
  match a, b with
  | VNone, VNone => true
  | VBool x, VBool y => Bool.eqb x y
  | VInt x, VInt y => Z.eqb x y
  | VFloat x, VFloat y => Z.eqb (Qnum x) (Qnum y) && Pos.eqb (Qden x) (Qden y)
  | VStr s, VStr t => String.eqb s t
  | VList l, VList l' =>
      (fix all2 (l l' : list value) {struct l} : bool :=
         match l, l' with
         | [], [] => true
         | x :: xs, y :: ys => same x y && all2 xs ys
         | _, _ => false
         end) l l'
  | VDict d, VDict d' =>
      (fix all2 (d d' : list (string * value)) {struct d} : bool :=
         match d, d' with
         | [], [] => true
         | (k, x) :: xs, (k', y) :: ys =>
             String.eqb k k' && same x y && all2 xs ys
         | _, _ => false
         end) d d'
  | _, _ => false
  end.

Fixpoint same_docs (l l' : list value) : bool :=
  match l, l' with
  | [], [] => true
  | x :: xs, y :: ys => same x y && same_docs xs ys
  | _, _ => false
  end.

Definition named (name : string) : string * value :=
  ("metadata", VDict [("name", VStr name)]).

Definition pod (fields : list (string * value)) : string * value :=
  ("template", VDict [("spec", VDict fields)]).

(** A storage claim of 100 GiB. *)
Definition pvc_yaml : string :=
"apiVersion: v1
kind: PersistentVolumeClaim
metadata:
  name: data-pvc
spec:
  resources:
    requests:
      storage: 100Gi
".

Definition pvc_doc : value :=
  VDict [("apiVersion", VStr "v1"); ("kind", VStr "PersistentVolumeClaim");
         named "data-pvc";
         ("spec", VDict [("resources",
            VDict [("requests", VDict [("storage", VStr "100Gi")])])])].

(** A Deployment scaled to zero whose container requests nothing. *)
Definition idle_yaml : string :=
"apiVersion: apps/v1
kind: Deployment
metadata:
  name: idle
spec:
  replicas: 0
  template:
    spec:
      containers:
      - name: app
".

Definition bare_container : value := VDict [("name", VStr "app")].

Definition idle_doc : value :=
  VDict [("apiVersion", VStr "apps/v1"); ("kind", VStr "Deployment");
         named "idle";
         ("spec", VDict [("replicas", VInt 0);
                         pod [("containers", VList [bare_container])]])].

(** The same Deployment with two replicas. *)
Definition pair_yaml : string :=
"apiVersion: apps/v1
kind: Deployment
metadata:
  name: pair
spec:
  replicas: 2
  template:
    spec:
      containers:
      - name: app
".

Definition pair_doc : value :=
  VDict [("apiVersion", VStr "apps/v1"); ("kind", VStr "Deployment");
         named "pair";
         ("spec", VDict [("replicas", VInt 2);
                         pod [("containers", VList [bare_container])]])].

(** One file, two documents: a Deployment and the Service in front of
    it, the latter introduced by a comment. *)
Definition stack_yaml : string :=
"apiVersion: apps/v1
kind: Deployment
metadata:
  name: web
spec:
  replicas: 5
---
# cluster-internal entry point
apiVersion: v1
kind: Service
metadata:
  name: web-service
".

Definition web_doc (replicas : Z) : value :=
  VDict [("apiVersion", VStr "apps/v1"); ("kind", VStr "Deployment");
         named "web"; ("spec", VDict [("replicas", VInt replicas)])].

Definition service_doc : value :=
  VDict [("apiVersion", VStr "v1"); ("kind", VStr "Service");
         named "web-service"].

(** What [dump_all] writes for the two documents once the Deployment is
    down to three replicas. *)
Definition stack_yaml_3 : string :=
"apiVersion: apps/v1
kind: Deployment
metadata:
  name: web
spec:
  replicas: 3
---
apiVersion: v1
kind: Service
metadata:
  name: web-service
".

(** A network policy, a Deployment with a service account of its own
    and a Deployment without one. *)
Definition mixed_yaml : string :=
"apiVersion: networking.k8s.io/v1
kind: NetworkPolicy
metadata:
  name: deny-all
---
apiVersion: apps/v1
kind: Deployment
metadata:
  name: billing
spec:
  template:
    spec:
      containers:
      - name: app
      serviceAccountName: billing-sa
---
apiVersion: apps/v1
kind: Deployment
metadata:
  name: cache
spec:
  template:
    spec:
      containers:
      - name: app
".

Definition policy_doc : value :=
  VDict [("apiVersion", VStr "networking.k8s.io/v1");
         ("kind", VStr "NetworkPolicy"); named "deny-all"].

Definition billing_doc : value :=
  VDict [("apiVersion", VStr "apps/v1"); ("kind", VStr "Deployment");
         named "billing";
         ("spec", VDict [pod [("containers", VList [bare_container]);
                              ("serviceAccountName", VStr "billing-sa")]])].

Definition cache_doc : value :=
  VDict [("apiVersion", VStr "apps/v1"); ("kind", VStr "Deployment");
         named "cache";
         ("spec", VDict [pod [("containers", VList [bare_container])]])].

Definition loads : list (string * list value) :=
  [ (pvc_yaml, [pvc_doc]);
    (idle_yaml, [idle_doc]);
    (pair_yaml, [pair_doc]);
    (stack_yaml, [web_doc 5; service_doc]);
    (stack_yaml_3, [web_doc 3; service_doc]);
    (mixed_yaml, [policy_doc; billing_doc; cache_doc]) ].

Fixpoint find_text (s : string) (table : list (string * list value))
  : option (list value) :=
  match table with
  | [] => None
  | (text, docs) :: rest =>
      if String.eqb text s then Some docs else find_text s rest
  end.

Definition safe_load_all (content : string) : option (list value) :=
  find_text content loads.

Fixpoint find_docs (docs : list value) (table : list (string * list value))
  : string :=
  match table with
  | [] => EmptyString
  | (text, docs') :: rest =>
      if same_docs docs' docs then text else find_docs docs rest
  end.

Definition dump_all (docs : list value) : string :=
  find_docs docs [ (stack_yaml_3, [web_doc 3; service_doc]) ].

(** [str(v)] for the scalars the samples format. *)
Definition format (v : value) : string :=
  match v with
  | VStr s => s
  | VInt z => PyStr.of_Z z
  | VBool true => "True"
  | VBool false => "False"
  | VNone => "None"
  | _ => EmptyString
  end.

(** The lines of each document of a YAML stream: documents are parted
    by lines that read [---]. *)
Fixpoint part_documents (lines : list string) : list (list string) :=
  match lines with
  | [] => [[]]
  | line :: rest =>
      if String.eqb line "---" then [] :: part_documents rest
      else match part_documents rest with
           | [] => [[line]]
           | doc :: docs => (line :: doc) :: docs
           end
  end.

Definition stream_documents (content : string) : list (list string) :=
  part_documents (PyStr.split (ascii_of_nat 10) content).

Definition entry_text (m : manifests) (filename : string) : option string :=
  option_map snd (find (fun e => String.eqb (fst e) filename) m).

Definition change (type target to : string) : value :=
  VDict [("type", VStr type); ("target", VStr target); ("to", VStr to)].

Definition changes (l : list value) : value := VDict [("changes", VList l)].

(** A change of a type nobody defined, and one of a type the change
    format lists but the code does not act on. *)
Definition resize : value := change "resize_disk" "web" "3".
Definition spot : value := change "enable_spot" "web" "true".

(** The change the tests apply: down to three replicas. *)
Definition scale_down : value := change "reduce_replicas" "web" "3".

End Samples.

(** ** Further definitions: what the generators emit *)

Module Emitted.
Import TelecomGenerator.


(** The address part of the subnet allocated to an index: what the
    attachment generator prefixes to [.10], [.100] and [.1]. *)
Definition base_ip_of (BASE_NETWORK : string) (index : Z) : string :=
  BASE_NETWORK ++ "." ++ PyStr.of_Z index.

End Emitted.

(** ** Further definitions: the characters of a number *)

Module Numeral.

(** A character that can occur in a text [float] accepts: a digit, a
    blank, a point, a sign, an exponent mark, a digit-group underscore,
    or a letter of [inf], [infinity] or [nan] in either case.  Bytes
    outside ASCII are counted in: [float] reads the digits and blanks of
    other scripts too. *)
Definition numeral_char (a : ascii) : bool :=
  PyNum.is_digit a || PyStr.is_space a || PyNum.is_dot a || PyNum.is_e a
  || Ascii.eqb a "-" || Ascii.eqb a "+" || Ascii.eqb a "_"
  || PyStr.contains_char a "infatyINFATY"
  || (128 <=? nat_of_ascii a)%nat.

Fixpoint numeral (s : string) : bool :=
  match s with
  | EmptyString => true
  | String a s' => numeral_char a && numeral s'
  end.

(** A value [int] refuses: [None], a list, a mapping, or a text with a
    character no number has. *)
Definition not_a_count (v : value) : bool :=
  match v with
  | VNone | VList _ | VDict _ => true
  | VStr s => negb (numeral s)
  | _ => false
  end.

End Numeral.

(** ** Further samples *)

Module MoreSamples.
Import Samples.

(** A Deployment whose CPU request is written as a number. *)
Definition raw_doc : value :=
  VDict [("apiVersion", VStr "apps/v1"); ("kind", VStr "Deployment");
         named "raw";
         ("spec", VDict [pod [("containers",
            VList [VDict [("name", VStr "app");
                          ("resources",
                           VDict [("requests", VDict [("cpu", VInt 2)])])]])]])].

(** Three documents in one file: a billable Deployment, the one with
    the numeric request, and the billable one again. *)
Definition trio_yaml : string :=
"apiVersion: apps/v1
kind: Deployment
metadata:
  name: pair
spec:
  replicas: 2
  template:
    spec:
      containers:
      - name: app
---
apiVersion: apps/v1
kind: Deployment
metadata:
  name: raw
spec:
  template:
    spec:
      containers:
      - name: app
        resources:
          requests:
            cpu: 2
---
apiVersion: apps/v1
kind: Deployment
metadata:
  name: pair
spec:
  replicas: 2
  template:
    spec:
      containers:
      - name: app
".

(** A Deployment that has a name and nothing else. *)
Definition hollow_yaml : string :=
"apiVersion: apps/v1
kind: Deployment
metadata:
  name: web
".

Definition hollow_doc : value :=
  VDict [("apiVersion", VStr "apps/v1"); ("kind", VStr "Deployment");
         named "web"].

Definition loads : list (string * list value) :=
  [ (trio_yaml, [pair_doc; raw_doc; pair_doc]);
    (hollow_yaml, [hollow_doc]) ].

Definition safe_load_all (content : string) : option (list value) :=
  match find_text content loads with
  | Some docs => Some docs
  | None => Samples.safe_load_all content
  end.

End MoreSamples.

(** ** Further definitions: reading an edited document *)

Module Reading.



End Reading.

(** ** Further definitions: how the checks record evolves *)

Module Findings.

Definition flag_le (a b : bool) : Prop := a = true -> b = true.

Definition extends (a b : list value) : Prop := exists l, b = (a ++ l)%list.

(** [s'] records everything [s] records: no flag of [s] is cleared and
    every list of [s] is the beginning of the list of [s']. *)
Definition grows (s s' : basic_checks) : Prop :=
  flag_le (security_context_present s) (security_context_present s')
  /\ flag_le (run_as_non_root s) (run_as_non_root s')
  /\ flag_le (resource_limits_set s) (resource_limits_set s')
  /\ flag_le (readiness_probes_set s) (readiness_probes_set s')
  /\ flag_le (liveness_probes_set s) (liveness_probes_set s')
  /\ flag_le (network_policies_present s) (network_policies_present s')
  /\ flag_le (service_account_set s) (service_account_set s')
  /\ extends (privileged_containers s) (privileged_containers s')
  /\ extends (host_network_usage s) (host_network_usage s')
  /\ extends (host_path_volumes s) (host_path_volumes s')
  /\ extends (secrets_in_env s) (secrets_in_env s')
  /\ extends (capabilities_added s) (capabilities_added s')
  /\ extends (image_pull_policy s) (image_pull_policy s')
  /\ extends (trusted_registry s) (trusted_registry s').

(** [m] only adds to the record. *)
Definition extensive {A} (m : Exc basic_checks A) : Prop :=
  forall s, grows s (fst (m s)).

(** [m] keeps the property [P] of the state. *)
Definition keeps {S A} (P : S -> Prop) (m : Exc S A) : Prop :=
  forall s, P s -> P (fst (m s)).

(** Non-root enforcement is only recorded together with a security
    context. *)
Definition context_seen (s : basic_checks) : Prop :=
  run_as_non_root s = true -> security_context_present s = true.

End Findings.

(** ** Docker image names ([config.py], [DockerConfig]) *)

Module DockerConfig.

Definition DEFAULT_TAG : string := "latest".

(** [os.getenv("DOCKER_REGISTRY", "registry.mts.ru")] and
    [os.getenv("DOCKER_ORGANIZATION", "telecom")] when the variables are
    not set. *)
Definition default_registry : string := "registry.mts.ru".
Definition default_organization : string := "telecom".

Section Names.
Variable REGISTRY : string.
Variable ORGANIZATION : string.

(** [get_image_name]; [tag or DEFAULT_TAG] replaces a missing or empty
    tag. *)
Definition get_image_name (component_type : string) (tag : option string)
  : string :=
  let tag := match tag with
             | Some t => if String.eqb t "" then DEFAULT_TAG else t
             | None => DEFAULT_TAG
             end in
  REGISTRY ++ "/" ++ ORGANIZATION ++ "/" ++ component_type ++ ":" ++ tag.

End Names.
End DockerConfig.

(** ** Security fixes ([security_analyzer.py]) *)

Module SecurityFixes.
Import TelecomGenerator.

Definition lower_char (a : ascii) : ascii :=
  let n := nat_of_ascii a in
  if ((65 <=? n) && (n <=? 90))%nat then ascii_of_nat (n + 32) else a.

(** [s.lower()] on a text of ASCII characters; used where a concrete
    [lower] is needed. *)
Fixpoint ascii_lower (s : string) : string :=
  match s with
  | EmptyString => EmptyString
  | String a s' => String (lower_char a) (ascii_lower s')
  end.

Definition auto_fixable_types : list string :=
  ["add_security_context"; "add_resource_limits"; "add_network_policy"].

Section Fixes.
(** [str.lower], whatever it does to characters outside ASCII. *)
Variable lower : string -> string.

(** [v.lower()]; only a string has [lower]. *)
Definition lower_of (v : value) : option string :=
  match v with
  | VStr s => Some (lower s)
  | _ => None
  end.

(** [_determine_fix_type]. *)
Definition _determine_fix_type (issue : value) : option string :=
  Py.get issue "issue" (VStr "") >>= lower_of >>= fun issue_text =>
  Some (if PyStr.contains "security context" issue_text
           || PyStr.contains "runasnonroot" issue_text
        then "add_security_context"
        else if PyStr.contains "privileged" issue_text
        then "remove_privileged"
        else if PyStr.contains "secret" issue_text
                || PyStr.contains "password" issue_text
        then "move_to_secret"
        else if PyStr.contains "network policy" issue_text
        then "add_network_policy"
        else if PyStr.contains "resource limit" issue_text
        then "add_resource_limits"
        else "manual_review_required").

(** [_is_auto_fixable]. *)
Definition _is_auto_fixable (issue : value) : option bool :=
  option_map (fun t => existsb (String.eqb t) auto_fixable_types)
             (_determine_fix_type issue).

End Fixes.

Definition patch_add_context (affected : string) : string :=
  "kubectl patch deployment " ++ affected ++ " --type=json -p='[{"
  ++ quoted "op" ++ ":" ++ quoted "add" ++ ","
  ++ quoted "path" ++ ":" ++ quoted "/spec/template/spec/securityContext" ++ ","
  ++ quoted "value" ++ ":{" ++ quoted "runAsNonRoot" ++ ":true,"
  ++ quoted "runAsUser" ++ ":1000}}]'".

Definition patch_remove_privileged (affected : string) : string :=
  "kubectl patch deployment " ++ affected ++ " --type=json -p='[{"
  ++ quoted "op" ++ ":" ++ quoted "remove" ++ ","
  ++ quoted "path" ++ ":"
  ++ quoted "/spec/template/spec/containers/0/securityContext/privileged"
  ++ "}]'".

Definition set_resource_limits (affected : string) : string :=
  "kubectl set resources deployment " ++ affected
  ++ " --limits=cpu=1,memory=1Gi --requests=cpu=100m,memory=128Mi".

(** One entry of the list [_generate_security_fixes] returns. *)
Record security_fix : Type := {
  fix_issue : value;
  fix_severity : value;
  fix_affected : value;
  fix_type : string;
  auto_applicable : bool;
  kubectl_command : option string
}.

Section Commands.
(** [str.lower]. *)
Variable lower : string -> string.
(** [str(v)], what an f-string writes for [{v}]. *)
Variable format : value -> string.

(** [_generate_kubectl_fix]: [Some None] is the returned [None]. *)
Definition _generate_kubectl_fix (issue : value) : option (option string) :=
  _determine_fix_type lower issue >>= fun fix_type =>
  Py.get issue "affected" (VStr "") >>= fun affected =>
  Some (if String.eqb fix_type "add_security_context"
        then Some (patch_add_context (format affected))
        else if String.eqb fix_type "remove_privileged"
        then Some (patch_remove_privileged (format affected))
        else if String.eqb fix_type "add_resource_limits"
        then Some (set_resource_limits (format affected))
        else None).

(** The dictionary built for one issue. *)
Definition make_fix (issue : value) : option security_fix :=
  Py.get1 issue "issue" >>= fun i =>
  Py.get1 issue "severity" >>= fun s =>
  Py.get1 issue "affected" >>= fun a =>
  _determine_fix_type lower issue >>= fun t =>
  _is_auto_fixable lower issue >>= fun auto =>
  _generate_kubectl_fix issue >>= fun cmd =>
  Some {| fix_issue := i; fix_severity := s; fix_affected := a;
          fix_type := t; auto_applicable := auto; kubectl_command := cmd |}.

(** [_generate_security_fixes]. *)
Definition _generate_security_fixes (llm_analysis : value)
  : option (list security_fix) :=
  Py.get llm_analysis "critical_issues" empty_list >>= Py.iter
  >>= PyExtra.mapM make_fix.

End Commands.

Definition fix_types : list string :=
  ["add_security_context"; "remove_privileged"; "move_to_secret";
   "add_network_policy"; "add_resource_limits"; "manual_review_required"].

End SecurityFixes.

(** What the two image lists of the checks record may hold. *)
Module Registry.

(** The test [_run_basic_checks] makes on an image. *)
Definition trusted_image (image : value) : Prop :=
  PyExtra.str_in "registry.mts.ru" image = Some true
  \/ PyExtra.str_in "docker.io/library" image = Some true.

Section Entries.
Variable format : value -> string.

(** An entry of [image_pull_policy]: the text [name: image] for an image
    that failed both tests. *)
Definition foreign_entry (entry : value) : Prop :=
  exists name image,
    entry = VStr (format name ++ ": " ++ format image)
    /\ Py.truthy image = true
    /\ PyExtra.str_in "registry.mts.ru" image = Some false
    /\ PyExtra.str_in "docker.io/library" image = Some false.

Definition sorted (s : basic_checks) : Prop :=
  Forall (fun image => Py.truthy image = true /\ trusted_image image)
         (trusted_registry s)
  /\ Forall foreign_entry (image_pull_policy s).

End Entries.

(** Wherever [m] runs to its end, it has put [l] at the end of
    [trusted_registry]. *)
Definition appends {A} (l : list value) (m : Exc basic_checks A) : Prop :=
  forall s, ExcM.completes m s = true ->
            trusted_registry (fst (m s)) = (trusted_registry s ++ l)%list.

End Registry.

(** The report of [analyze_costs]. *)
Module Report.
Import CostOptimizer Optimizer.

(** [round(x, 1)]. *)
Definition round1 (x : Q) : Q :=
  (inject_Z (PyNum.round_half_even (x * 10)) / 10)%Q.

(** The dictionary returned with status [analyzed]. *)
Record analysis : Type := {
  current_cost_monthly : Q;
  optimized_cost_monthly : Q;
  savings_monthly : Q;
  savings_yearly : Q;
  savings_percentage : Q;
  optimizations : value;
  optimized_manifests : manifests;
  recommendations : value
}.

(** The two dictionaries [analyze_costs] returns: status [analyzed] and
    status [error]. *)
Inductive outcome : Type :=
  | Analyzed (a : analysis)
  | Error.

Section Analysis.
Variable safe_load_all : string -> option (list value).
Variable dump_all : list value -> string.
Variable self : pricing.
(** The recommendation written when the call to the model fails. *)
Variable failure_note : string.

Definition fallback : value :=
  VDict [("changes", VList []);
         ("recommendations", VList [VStr failure_note]);
         ("total_estimated_savings", VInt 0)].

(** What the [try] block of [_llm_optimize] computes from [reply], the
    value [json.loads] made of the answer ([None] when anything up to
    there raised): the reply itself, once its changes were counted for
    the log line. *)
Definition counted (reply : option value) : option value :=
  reply >>= fun result =>
  Py.get result "changes" empty_list >>= PyExtra.len >>= fun _ =>
  Some result.

(** [_llm_optimize]: the summary and the prompt are built before the
    [try] and do not raise on the values of [value]. *)
Definition _llm_optimize (reply : option value) : value :=
  match counted reply with
  | Some result => result
  | None => fallback
  end.

(** The body of the [try] of [analyze_costs]. *)
Definition analyze (m : manifests) (reply : option value) : option analysis :=
  let current_cost := _calculate_current_cost safe_load_all self m in
  let optimization := _llm_optimize reply in
  _apply_optimizations safe_load_all dump_all m optimization
  >>= fun optimized_manifests =>
  let optimized_cost :=
    _calculate_current_cost safe_load_all self optimized_manifests in
  Py.get optimization "changes" empty_list >>= fun changes =>
  Py.get optimization "recommendations" empty_list >>= fun recommendations =>
  Some {| current_cost_monthly := current_cost;
          optimized_cost_monthly := optimized_cost;
          savings_monthly := current_cost - optimized_cost;
          savings_yearly := (current_cost - optimized_cost) * 12;
          savings_percentage :=
            if Qle_bool current_cost 0 then 0
            else round1 ((current_cost - optimized_cost) / current_cost * 100);
          optimizations := changes;
          optimized_manifests := optimized_manifests;
          recommendations := recommendations |}%Q.

(** [analyze_costs]. *)
Definition analyze_costs (m : manifests) (reply : option value) : outcome :=
  match analyze m reply with
  | Some a => Analyzed a
  | None => Error
  end.

End Analysis.

(** A change that can be read: a mapping. *)
Definition is_mapping (v : value) : bool :=
  match v with VDict _ => true | _ => false end.

End Report.

(** The report of [analyze_security]. *)
Module SecurityReport.
Import SecurityAnalyzer SecurityFixes.

(** The dictionary returned with status [analyzed]. *)
Record analysis : Type := {
  security_score : Z;
  grade : string;
  basic_checks_found : basic_checks;
  critical_issues : value;
  warnings : value;
  recommendations : value;
  auto_fixes : list security_fix;
  compliance_found : compliance
}.

(** The two dictionaries [analyze_security] returns: status [analyzed]
    and status [error] (with score 0). *)
Inductive outcome : Type :=
  | Analyzed (a : analysis)
  | Error.

Section Analysis.
Variable safe_load_all : string -> option (list value).
Variable format : value -> string.
Variable lower : string -> string.
(** The warning written when the call to the model fails. *)
Variable failure_note : string.

Definition fallback : value :=
  VDict [("critical_issues", VList []);
         ("warnings", VList [VDict [("warning", VStr failure_note)]]);
         ("recommendations", VList []);
         ("compliance_issues", VList [])].

(** What the [try] block of [_llm_security_analysis] computes from
    [reply], the value [json.loads] made of the answer ([None] when
    anything up to there raised): the reply itself, once its critical
    issues were counted for the log line. *)
Definition counted (reply : option value) : option value :=
  reply >>= fun result =>
  Py.get result "critical_issues" empty_list >>= PyExtra.len >>= fun _ =>
  Some result.

(** [_llm_security_analysis]: the summary and the prompt are built
    before the [try] and do not raise on the values of [value]. *)
Definition _llm_security_analysis (reply : option value) : value :=
  match counted reply with
  | Some result => result
  | None => fallback
  end.

(** The body of the [try] of [analyze_security]. *)
Definition analyze (m : manifests) (reply : option value) : option analysis :=
  let basic_checks := _run_basic_checks safe_load_all format m in
  let llm_analysis := _llm_security_analysis reply in
  _generate_security_fixes lower format llm_analysis >>= fun fixes =>
  _calculate_security_score basic_checks llm_analysis >>= fun score =>
  Py.get llm_analysis "critical_issues" empty_list >>= fun critical_issues =>
  Py.get llm_analysis "warnings" empty_list >>= fun warnings =>
  Py.get llm_analysis "recommendations" empty_list >>= fun recommendations =>
  Some {| security_score := score;
          grade := _get_security_grade score;
          basic_checks_found := basic_checks;
          critical_issues := critical_issues;
          warnings := warnings;
          recommendations := recommendations;
          auto_fixes := fixes;
          compliance_found := _check_compliance basic_checks |}.

(** [analyze_security]. *)
Definition analyze_security (m : manifests) (reply : option value) : outcome :=
  match analyze m reply with
  | Some a => Analyzed a
  | None => Error
  end.

End Analysis.
End SecurityReport.

(** * Proofs *)

(** ** Strings *)

Module PyStrFacts.
Import PyStr.

Lemma endswith_cons c s suf :
  endswith (String c s) suf = String.eqb (String c s) suf || endswith s suf.
Proof. reflexivity. Qed.

Lemma endswith_nil suf : endswith "" suf = String.eqb "" suf.
Proof. unfold endswith. apply orb_false_r. Qed.

Lemma endswith_refl s : endswith s s = true.
Proof.
  destruct s; [rewrite endswith_nil|rewrite endswith_cons];
    rewrite String.eqb_refl; reflexivity.
Qed.

Lemma endswith_app a suf : endswith (a ++ suf) suf = true.
Proof.
  induction a as [|c a IH].
  - apply endswith_refl.
  - change (String c a ++ suf) with (String c (a ++ suf)).
    rewrite endswith_cons, IH. apply orb_true_r.
Qed.

Lemma endswith_spec s suf :
  endswith s suf = true <-> exists a, s = a ++ suf.
Proof.
  split.
  - induction s as [|c s IH]; intros H.
    + rewrite endswith_nil in H. apply String.eqb_eq in H. exists "". exact H.
    + rewrite endswith_cons in H. apply orb_true_iff in H as [H|H].
      * apply String.eqb_eq in H. exists "". exact H.
      * destruct (IH H) as [a ->]. exists (String c a). reflexivity.
  - intros [a ->]. apply endswith_app.
Qed.

Lemma length_app a b :
  String.length (a ++ b) = (String.length a + String.length b)%nat.
Proof. induction a as [|c a IH]; simpl; [|rewrite IH]; reflexivity. Qed.

Lemma take_app a b : take (String.length a) (a ++ b) = a.
Proof. induction a as [|c a IH]; simpl; [destruct b|rewrite IH]; reflexivity. Qed.

Lemma drop_last_app a b : drop_last (String.length b) (a ++ b) = a.
Proof.
  unfold drop_last. rewrite length_app.
  replace (String.length a + String.length b - String.length b)%nat
    with (String.length a) by lia.
  apply take_app.
Qed.

(** Two decompositions with tails of one length agree. *)
Lemma app_tail_inj a b x y :
  a ++ x = b ++ y -> String.length x = String.length y -> a = b /\ x = y.
Proof.
  revert b. induction a as [|c a IH]; intros b H L.
  - destruct b as [|d b]; [split; [reflexivity|exact H]|].
    simpl in H. subst x. simpl in L. rewrite length_app in L. lia.
  - destruct b as [|d b].
    + simpl in H. subst y. simpl in L. rewrite length_app in L. lia.
    + simpl in H. injection H as -> H. destruct (IH _ H L) as [-> ->].
      split; reflexivity.
Qed.

Lemma endswith_other a suf suf' :
  String.length suf = String.length suf' -> suf <> suf' ->
  endswith (a ++ suf) suf' = false.
Proof.
  intros L N. destruct (endswith (a ++ suf) suf') eqn:E; [|reflexivity].
  apply endswith_spec in E as [b E]. apply app_tail_inj in E as [_ E]; [|exact L].
  contradiction.
Qed.

Lemma app_head_inj p a b : p ++ a = p ++ b -> a = b.
Proof. induction p as [|c p IH]; simpl; intros H; [exact H|injection H; auto]. Qed.

End PyStrFacts.

(** ** Decimal numerals *)

Module PyNumFacts.
Import PyStr PyNum PyStrFacts.


Lemma digits_plain d : all_plain (NilEmpty.string_of_uint d) = true.
Proof. induction d; simpl; rewrite ?IHd; reflexivity. Qed.






Lemma of_nat_digits (n : nat) :
  exists d, of_nat n = NilEmpty.string_of_uint d /\ d <> Nil
            /\ Z.of_uint d = Z.of_nat n.
Proof.
  unfold of_nat, of_Z.
  pose proof (DecimalZ.of_to (Z.of_nat n)) as R.
  destruct (Z.to_int (Z.of_nat n)) as [d|d] eqn:E.
  - destruct d eqn:Ed.
    + exfalso. destruct (Z.of_nat n); simpl in E; try discriminate;
        injection E as E; revert E; apply DecimalPos.Unsigned.to_uint_nonnil.
    + exists d. subst d. simpl. split; [reflexivity|]. split; [discriminate|exact R].
    + exists d. subst d. simpl. split; [reflexivity|]. split; [discriminate|exact R].
    + exists d. subst d. simpl. split; [reflexivity|]. split; [discriminate|exact R].
    + exists d. subst d. simpl. split; [reflexivity|]. split; [discriminate|exact R].
    + exists d. subst d. simpl. split; [reflexivity|]. split; [discriminate|exact R].
    + exists d. subst d. simpl. split; [reflexivity|]. split; [discriminate|exact R].
    + exists d. subst d. simpl. split; [reflexivity|]. split; [discriminate|exact R].
    + exists d. subst d. simpl. split; [reflexivity|]. split; [discriminate|exact R].
    + exists d. subst d. simpl. split; [reflexivity|]. split; [discriminate|exact R].
    + exists d. subst d. simpl. split; [reflexivity|]. split; [discriminate|exact R].
  - exfalso. destruct (Z.of_nat n) eqn:Z; simpl in E; try discriminate. lia.
Qed.


Lemma of_nat_plain n : all_plain (of_nat n) = true.
Proof. destruct (of_nat_digits n) as (d & -> & _). apply digits_plain. Qed.

End PyNumFacts.

(** ** Resource quantity parser *)

Module ParserFacts.
Import PyStr PyNum PyStrFacts PyNumFacts CostOptimizer.





Ltac cut_suffix body suf :=
  let H := fresh in
  pose proof (drop_last_app body suf) as H; simpl String.length in H;
  rewrite endswith_app, H; clear H.

Lemma parse_cpu_milli body :
  _parse_cpu (VStr (body ++ "m"))
  = option_map (fun x => x / 1000)%Q (py_float body).
Proof.
  unfold _parse_cpu. cut_suffix body "m". reflexivity.
Qed.


Lemma parse_memory_Ki body :
  _parse_memory (VStr (body ++ "Ki"))
  = option_map (fun x => x * (1 / (1024 * 1024)))%Q (py_float body).
Proof.
  unfold _parse_memory, multipliers, scan_suffixes.
  cut_suffix body "Ki". reflexivity.
Qed.

Lemma parse_memory_Mi body :
  _parse_memory (VStr (body ++ "Mi"))
  = option_map (fun x => x * (1 / 1024))%Q (py_float body).
Proof.
  unfold _parse_memory, multipliers, scan_suffixes.
  rewrite (endswith_other body "Mi" "Ki") by (reflexivity || discriminate).
  cut_suffix body "Mi". reflexivity.
Qed.

Lemma parse_memory_Gi body :
  _parse_memory (VStr (body ++ "Gi"))
  = option_map (fun x => x * 1)%Q (py_float body).
Proof.
  unfold _parse_memory, multipliers, scan_suffixes.
  rewrite (endswith_other body "Gi" "Ki") by (reflexivity || discriminate).
  rewrite (endswith_other body "Gi" "Mi") by (reflexivity || discriminate).
  cut_suffix body "Gi". reflexivity.
Qed.

Lemma parse_memory_Ti body :
  _parse_memory (VStr (body ++ "Ti"))
  = option_map (fun x => x * 1024)%Q (py_float body).
Proof.
  unfold _parse_memory, multipliers, scan_suffixes.
  rewrite (endswith_other body "Ti" "Ki") by (reflexivity || discriminate).
  rewrite (endswith_other body "Ti" "Mi") by (reflexivity || discriminate).
  rewrite (endswith_other body "Ti" "Gi") by (reflexivity || discriminate).
  cut_suffix body "Ti". reflexivity.
Qed.







End ParserFacts.

(** ** Address allocator *)

Module AllocatorFacts.
Import PyStr PyStrFacts NetworkConfig.

Lemma to_int_proper z : Z.to_int z <> Pos Nil /\ Z.to_int z <> Neg Nil.
Proof.
  destruct z as [|p|p]; simpl; split; try discriminate;
    intros [= H]; revert H; apply DecimalPos.Unsigned.to_uint_nonnil.
Qed.

(** Reading back the decimal spelling of an integer. *)
Lemma int_of_string_of_Z z :
  option_map Z.of_int (NilZero.int_of_string (of_Z z)) = Some z.
Proof.
  unfold of_Z. destruct (to_int_proper z) as [H1 H2].
  rewrite (NilZero.isi _ H1 H2). simpl. f_equal. apply DecimalZ.of_to.
Qed.

Lemma of_Z_inj i j : of_Z i = of_Z j -> i = j.
Proof.
  intros H. pose proof (int_of_string_of_Z i) as Hi.
  rewrite H, int_of_string_of_Z in Hi. congruence.
Qed.

Lemma split_nonempty c s : split c s <> [].
Proof.
  destruct s as [|a s]; simpl; [discriminate|].
  destruct (Ascii.eqb a c); [discriminate|].
  destruct (split c s); discriminate.
Qed.

Lemma split_app c a b :
  split c (a ++ String c b) = (split c a ++ split c b)%list.
Proof.
  induction a as [|x a IH]; simpl.
  - rewrite Ascii.eqb_refl. reflexivity.
  - destruct (Ascii.eqb x c); rewrite IH; [reflexivity|].
    pose proof (split_nonempty c a) as N.
    destruct (split c a); [contradiction|reflexivity].
Qed.

Lemma split_absent c s : contains_char c s = false -> split c s = [s].
Proof.
  induction s as [|a s IH]; simpl; [reflexivity|].
  intros H. apply orb_false_iff in H as [Ha Hs].
  rewrite Ha, (IH Hs). reflexivity.
Qed.




Lemma get_subnet_inj base i j : get_subnet base i = get_subnet base j -> i = j.
Proof.
  unfold get_subnet. intros H.
  apply app_head_inj, (app_head_inj ".") in H.
  apply app_tail_inj in H as [H _]; [|reflexivity].
  apply of_Z_inj, H.
Qed.




End AllocatorFacts.

(** ** Security score *)

Module ScoreFacts.
Import SecurityAnalyzer.

Lemma score_formula c llm ci w :
  Py.get llm "critical_issues" empty_list = Some (VList ci) ->
  Py.get llm "warnings" empty_list = Some (VList w) ->
  _calculate_security_score c llm
  = Some (Z.max 0 (Z.min 100
            (100 - 15 * Z.of_nat (List.length ci) - 5 * Z.of_nat (List.length w)
             - deductions c))).
Proof.
  intros Hc Hw. unfold _calculate_security_score, deductions.
  rewrite Hc. cbn [obind PyExtra.len]. rewrite Hw. cbn [obind PyExtra.len].
  f_equal.
  destruct (security_context_present c), (run_as_non_root c),
    (flag_of (privileged_containers c)), (flag_of (secrets_in_env c)),
    (resource_limits_set c), (network_policies_present c);
    cbn [negb]; lia.
Qed.

(** C5. Whatever the checks record and however many critical issues
    and warnings the external analysis lists, the score is returned, it
    is [100] less [15] per issue, [5] per warning and the flat deductions,
    clamped, and it lies in [[0, 100]]. *)
Theorem security_score_bounded (c : basic_checks) (llm : value)
    (critical_issues warnings : list value) :
  Py.get llm "critical_issues" empty_list = Some (VList critical_issues) ->
  Py.get llm "warnings" empty_list = Some (VList warnings) ->
  exists score,
    _calculate_security_score c llm = Some score
    /\ score = Z.max 0 (Z.min 100
                 (100 - 15 * Z.of_nat (List.length critical_issues)
                  - 5 * Z.of_nat (List.length warnings) - deductions c))
    /\ 0 <= score <= 100.
Proof.
  intros Hc Hw. eexists. split; [apply (score_formula c llm _ _ Hc Hw)|].
  split; [reflexivity|]. lia.
Qed.

(** Eight critical issues and three warnings on an empty scan: the
    deductions pass 100 and the score is 0. *)
Lemma security_score_bounded_witness :
  exists score,
    _calculate_security_score Checks.initial
      (VDict [("critical_issues", VList (repeat VNone 8));
              ("warnings", VList (repeat VNone 3))]) = Some score
    /\ score = 0 /\ 0 <= score <= 100.
Proof.
  destruct (security_score_bounded Checks.initial
              (VDict [("critical_issues", VList (repeat VNone 8));
                      ("warnings", VList (repeat VNone 3))])
              (repeat VNone 8) (repeat VNone 3) eq_refl eq_refl)
    as (score & H1 & H2 & H3).
  exists score. split; [exact H1|]. split; [|exact H3].
  rewrite H2. reflexivity.
Defined.

End ScoreFacts.

(** ** Rounding *)

Module RoundFacts.
Import PyNum.

Lemma round_half_even_comp x y : x == y -> round_half_even x = round_half_even y.
Proof.
  intros H. unfold round_half_even.
  rewrite (Qfloor_comp _ _ H).
  assert (E : x - inject_Z (Qfloor y) == y - inject_Z (Qfloor y)) by (rewrite H; reflexivity).
  rewrite (Qcompare_comp _ _ E (1 # 2) (1 # 2) (Qeq_refl _)). reflexivity.
Qed.

Lemma round2_comp x y : x == y -> round2 x = round2 y.
Proof.
  intros H. unfold round2. f_equal. f_equal.
  apply round_half_even_comp. rewrite H. reflexivity.
Qed.



End RoundFacts.

(** ** Cost model *)

Module CostFacts.
Import CostOptimizer.

Section WithLoader.
Variable safe_load_all : string -> option (list value).
Variable self : pricing.

(** A falsy document is skipped. *)
Lemma bill_doc_falsy doc total :
  Py.truthy doc = false -> bill_doc self doc total = (total, Some tt).
Proof. intros H. unfold bill_doc. rewrite H. reflexivity. Qed.

(** A document of another kind than [Deployment] is skipped: the
    [continue] comes before the storage branch. *)
Lemma bill_doc_other_kind doc kind total :
  Py.get1 doc "kind" = Some kind -> Py.is_str kind "Deployment" = false ->
  bill_doc self doc total = (total, Some tt).
Proof.
  intros Hk Hd. unfold bill_doc.
  destruct (Py.truthy doc); [|reflexivity]. cbn [negb].
  unfold ExcM.bind, ExcM.lift. rewrite Hk, Hd. reflexivity.
Qed.

Lemma for_each_skipped (docs : list value) total :
  Forall (fun doc => forall t, bill_doc self doc t = (t, Some tt)) docs ->
  ExcM.for_each docs (bill_doc self) total = (total, Some tt).
Proof.
  induction 1 as [|doc docs H _ IH]; [reflexivity|].
  cbn [ExcM.for_each]. unfold ExcM.bind. rewrite H. exact IH.
Qed.

Lemma bill_entry_not_yaml total filename content :
  PyStr.endswith filename ".yaml" = false ->
  bill_entry safe_load_all self total (filename, content) = total.
Proof. intros H. unfold bill_entry. rewrite H. reflexivity. Qed.

Lemma total_cost_app (m1 m2 : manifests) :
  total_cost_of safe_load_all self (m1 ++ m2)%list
  = fold_left (bill_entry safe_load_all self) m2
      (total_cost_of safe_load_all self m1).
Proof. unfold total_cost_of. apply fold_left_app. Qed.

End WithLoader.
End CostFacts.

Module StorageFacts.
Import CostOptimizer CostFacts.

Lemma storage_claim_skipped self doc total :
  is_storage_claim doc -> bill_doc self doc total = (total, Some tt).
Proof.
  intros H. apply (bill_doc_other_kind self doc _ total H). reflexivity.
Qed.

(** C1, what the code does.  A storage claim adds nothing to the
    running total, and a document set made of storage claims costs
    nothing, whatever they request and whatever the storage price:
    [_calculate_current_cost] leaves every document that is not a
    Deployment before it reaches the storage branch. *)
Theorem storage_claims_not_billed
    (safe_load_all : string -> option (list value)) (self : pricing)
    (m : manifests) :
  (forall filename content, In (filename, content) m ->
     exists docs, safe_load_all content = Some docs
                  /\ Forall is_storage_claim docs) ->
  (forall doc total,
     is_storage_claim doc -> bill_doc self doc total = (total, Some tt))
  /\ total_cost_of safe_load_all self m = 0%Q
  /\ _calculate_current_cost safe_load_all self m == 0.
Proof.
  intros H. split; [intros doc total; apply storage_claim_skipped|].
  assert (E : forall total,
             fold_left (bill_entry safe_load_all self) m total = total).
  { induction m as [|[filename content] m IH]; intros total; [reflexivity|].
    cbn [fold_left]. rewrite IH.
    - unfold bill_entry.
      destruct (PyStr.endswith filename ".yaml"); [|reflexivity]. cbn [negb].
      destruct (H filename content (or_introl eq_refl)) as (docs & Hl & Hd).
      unfold ExcM.try_, bill_file, ExcM.bind, ExcM.lift. rewrite Hl.
      rewrite for_each_skipped; [reflexivity|].
      eapply Forall_impl; [|exact Hd].
      intros doc Hdoc t. apply storage_claim_skipped, Hdoc.
    - intros f c Hin. apply (H f c). right. exact Hin. }
  unfold _calculate_current_cost, total_cost_of. rewrite E.
  split; reflexivity.
Qed.

(** A claim of [100Gi] at 50 per gigabyte would be 5000; the computed
    cost is 0. *)
Lemma storage_claims_not_billed_witness :
  returns (option_map (fun gb => gb * storage_gb default_pricing)%Q
             (_parse_memory (VStr "100Gi"))) 5000
  /\ _calculate_current_cost Samples.safe_load_all default_pricing
       [("pvc.yaml", Samples.pvc_yaml)] == 0.
Proof.
  split.
  - eexists. split; [reflexivity|]. reflexivity.
  - refine (proj2 (proj2 (storage_claims_not_billed Samples.safe_load_all
                            default_pricing [("pvc.yaml", Samples.pvc_yaml)] _))).
    intros filename content [E|[]]. injection E as <- <-.
    exists [Samples.pvc_doc]. split; [reflexivity|].
    constructor; [reflexivity|constructor].
Defined.

End StorageFacts.

Module DefaultsFacts.
Import CostOptimizer CostFacts RoundFacts.












End DefaultsFacts.

(** ** Applying changes, entry by entry *)

Module ApplyFacts.
Import Optimizer.

Section WithYaml.
Variable safe_load_all : string -> option (list value).
Variable dump_all : list value -> string.

Lemma apply_change_map m change :
  apply_change safe_load_all dump_all m change
  = option_map (fun g => map g m) (edit_by safe_load_all dump_all change).
Proof.
  unfold apply_change, edit_by.
  destruct (Py.get1 change "type"); [|reflexivity]. cbn [obind].
  destruct (Py.get1 change "target"); [|reflexivity]. cbn [obind].
  destruct (Py.get1 change "to"); reflexivity.
Qed.

(** The changes act on the map entry by entry. *)
Lemma apply_changes_map changes : forall m,
  apply_changes safe_load_all dump_all m changes
  = option_map (fun g => map g m) (edit_by_all safe_load_all dump_all changes).
Proof.
  induction changes as [|change rest IH]; intros m; cbn [apply_changes edit_by_all].
  - cbn [option_map]. rewrite map_id. reflexivity.
  - rewrite apply_change_map.
    destruct (edit_by safe_load_all dump_all change) as [g|]; [|reflexivity].
    cbn [option_map obind]. rewrite IH.
    destruct (edit_by_all safe_load_all dump_all rest) as [h|]; [|reflexivity].
    cbn [option_map obind]. rewrite map_map. reflexivity.
Qed.

Lemma edit_entry_not_yaml ty target to filename content :
  PyStr.endswith filename ".yaml" = false ->
  edit_entry safe_load_all dump_all ty target to (filename, content)
  = (filename, content).
Proof. intros H. unfold edit_entry. rewrite H. reflexivity. Qed.

(** An entry kept by each change is kept by all of them. *)
Lemma edit_by_all_fixed (entry : string * string) changes :
  (forall change g, In change changes ->
     edit_by safe_load_all dump_all change = Some g -> g entry = entry) ->
  forall h, edit_by_all safe_load_all dump_all changes = Some h -> h entry = entry.
Proof.
  induction changes as [|change rest IH]; intros H h; cbn [edit_by_all].
  - intros [= <-]. reflexivity.
  - destruct (edit_by safe_load_all dump_all change) as [g|] eqn:Eg; [|discriminate].
    cbn [obind].
    destruct (edit_by_all safe_load_all dump_all rest) as [h'|] eqn:Eh; [|discriminate].
    cbn [obind]. intros [= <-].
    rewrite (H change g (or_introl eq_refl) Eg).
    apply IH; [|reflexivity].
    intros c g' Hin. apply H. right. exact Hin.
Qed.

Lemma edit_by_shape change g :
  edit_by safe_load_all dump_all change = Some g ->
  exists ty target to,
    Py.get1 change "type" = Some ty /\ Py.get1 change "target" = Some target
    /\ Py.get1 change "to" = Some to
    /\ g = edit_entry safe_load_all dump_all ty target to.
Proof.
  unfold edit_by.
  destruct (Py.get1 change "type") as [ty|]; [|discriminate].
  destruct (Py.get1 change "target") as [target|]; [|discriminate].
  destruct (Py.get1 change "to") as [to|]; [|discriminate].
  cbn [obind]. intros [= <-]. exists ty, target, to. auto.
Qed.

End WithYaml.
End ApplyFacts.

(** ** Entries that are not YAML files *)

Module FilterFacts.
Import CostOptimizer Optimizer SecurityAnalyzer CostFacts ApplyFacts.

Lemma firstn_skipn_map {A} (g : A -> A) (a b : list A) :
  (firstn (List.length a) (map g (a ++ b)), skipn (List.length a) (map g (a ++ b)))
  = (map g a, map g b).
Proof.
  rewrite map_app. f_equal.
  - rewrite <- (length_map g a). rewrite firstn_app, Nat.sub_diag, firstn_all.
    cbn [firstn]. apply app_nil_r.
  - rewrite <- (length_map g a). rewrite skipn_app, Nat.sub_diag, skipn_all.
    reflexivity.
Qed.

(** C10. An entry whose key does not end in [.yaml] is ignored by the
    three analyses: the cost is what it is without the entry, the
    optimized map is the one computed without the entry with the entry
    put back unchanged at its place (and the call fails with it exactly
    when it fails without it), and the basic-checks record is what it is
    without the entry. *)
Theorem non_yaml_entry_ignored
    (safe_load_all : string -> option (list value))
    (dump_all : list value -> string) (format : value -> string)
    (self : pricing) (m1 m2 : manifests) (filename content : string) :
  PyStr.endswith filename ".yaml" = false ->
  let m := (m1 ++ (filename, content) :: m2)%list in
  (forall total,
     bill_entry safe_load_all self total (filename, content) = total)
  /\ _calculate_current_cost safe_load_all self m
     = _calculate_current_cost safe_load_all self (m1 ++ m2)%list
  /\ (forall optimization,
        match _apply_optimizations safe_load_all dump_all (m1 ++ m2)%list
                optimization with
        | Some r =>
            _apply_optimizations safe_load_all dump_all m optimization
            = Some (firstn (List.length m1) r
                    ++ (filename, content) :: skipn (List.length m1) r)%list
        | None =>
            _apply_optimizations safe_load_all dump_all m optimization = None
        end)
  /\ _run_basic_checks safe_load_all format m
     = _run_basic_checks safe_load_all format (m1 ++ m2)%list.
Proof.
  intros H m. subst m. split; [|split; [|split]].
  - intros total. apply bill_entry_not_yaml, H.
  - unfold _calculate_current_cost, total_cost_of. f_equal.
    rewrite !fold_left_app. cbn [fold_left].
    rewrite bill_entry_not_yaml by exact H. reflexivity.
  - intros optimization. unfold _apply_optimizations.
    destruct (Py.get optimization "changes" empty_list >>= Py.iter)
      as [changes|]; [|reflexivity].
    cbn [obind]. rewrite !apply_changes_map.
    destruct (edit_by_all safe_load_all dump_all changes) as [h|] eqn:Eh;
      [|reflexivity].
    cbn [option_map].
    pose proof (firstn_skipn_map h m1 m2) as P. injection P as -> ->.
    rewrite map_app. cbn [map]. do 3 f_equal.
    apply (edit_by_all_fixed safe_load_all dump_all (filename, content) changes);
      [|exact Eh].
    intros change g _ Eg.
    destruct (edit_by_shape _ _ _ _ Eg) as (ty & target & to & _ & _ & _ & ->).
    apply edit_entry_not_yaml, H.
  - unfold _run_basic_checks. rewrite !fold_left_app. cbn [fold_left].
    f_equal. unfold check_entry. rewrite H. reflexivity.
Qed.

(** A Deployment kept in [deployment.yml] beside a storage claim. *)
Lemma non_yaml_entry_ignored_witness :
  let m := [("pvc.yaml", Samples.pvc_yaml); ("deployment.yml", Samples.pair_yaml)] in
  _calculate_current_cost Samples.safe_load_all default_pricing m
  = _calculate_current_cost Samples.safe_load_all default_pricing
      [("pvc.yaml", Samples.pvc_yaml)]
  /\ _apply_optimizations Samples.safe_load_all Samples.dump_all m
       (Samples.changes [Samples.change "reduce_replicas" "pair" "1"])
     = Some m
  /\ _run_basic_checks Samples.safe_load_all Samples.format m
     = _run_basic_checks Samples.safe_load_all Samples.format
         [("pvc.yaml", Samples.pvc_yaml)].
Proof.
  destruct (non_yaml_entry_ignored Samples.safe_load_all Samples.dump_all
              Samples.format default_pricing
              [("pvc.yaml", Samples.pvc_yaml)] []
              "deployment.yml" Samples.pair_yaml eq_refl)
    as (_ & C & A & S).
  split; [exact C|]. split; [|exact S].
  exact (A (Samples.changes [Samples.change "reduce_replicas" "pair" "1"])).
Defined.

End FilterFacts.

(** ** Changes that leave a file alone *)

Module EditFacts.
Import Optimizer ApplyFacts.

Lemma map_fixed {A} (g : A -> A) (l : list A) :
  (forall x, In x l -> g x = x) -> map g l = l.
Proof.
  induction l as [|x l IH]; intros H; [reflexivity|].
  cbn [map]. rewrite (H x (or_introl eq_refl)), IH; [reflexivity|].
  intros y Hy. apply H. right. exact Hy.
Qed.

Lemma edit_doc_unimplemented ty target to doc doc' b :
  implemented ty = false ->
  edit_doc ty target to doc = Some (doc', b) -> doc' = doc /\ b = false.
Proof.
  unfold implemented. intros H.
  apply orb_false_iff in H as [H Hm]. apply orb_false_iff in H as [Hr Hc].
  unfold edit_doc. rewrite Hr, Hc, Hm. cbn [andb].
  destruct (negb (Py.truthy doc)); [intros [= <- <-]; auto|].
  destruct (Py.get doc "metadata" empty_dict >>= fun md => Py.get1 md "name")
    as [name|]; [|discriminate].
  cbn [obind].
  destruct (negb (PyExtra.py_eq name target)); [intros [= <- <-]; auto|].
  destruct (Py.get1 doc "kind"); [|discriminate].
  cbn [obind]. intros [= <- <-]. auto.
Qed.

Lemma edit_doc_other_name ty target to doc doc' b :
  names_target doc target = false ->
  edit_doc ty target to doc = Some (doc', b) -> doc' = doc /\ b = false.
Proof.
  unfold names_target, edit_doc.
  destruct (negb (Py.truthy doc)); [intros _ [= <- <-]; auto|].
  destruct (Py.get doc "metadata" empty_dict >>= fun md => Py.get1 md "name")
    as [name|]; [|discriminate].
  cbn [obind]. intros ->. cbn [negb]. intros [= <- <-]. auto.
Qed.

(** When no document is modified the loop over the documents ends with
    [modified] unset. *)
Lemma edit_docs_unmodified ty target to docs :
  Forall (fun doc => forall doc' b,
            edit_doc ty target to doc = Some (doc', b) -> doc' = doc /\ b = false)
         docs ->
  forall docs' b, edit_docs ty target to docs = Some (docs', b) ->
                  docs' = docs /\ b = false.
Proof.
  induction 1 as [|doc docs H _ IH]; intros docs' b; cbn [edit_docs].
  - intros [= <- <-]. auto.
  - destruct (edit_doc ty target to doc) as [[d1 b1]|] eqn:E1; [|discriminate].
    cbn [obind].
    destruct (edit_docs ty target to docs) as [[ds b2]|] eqn:E2; [|discriminate].
    cbn [obind]. intros [= <- <-].
    destruct (H _ _ eq_refl) as [-> ->]. destruct (IH _ _ eq_refl) as [-> ->].
    auto.
Qed.

Section WithYaml.
Variable safe_load_all : string -> option (list value).
Variable dump_all : list value -> string.

Lemma edit_entry_unmodified ty target to filename content :
  (forall docs, safe_load_all content = Some docs ->
     Forall (fun doc => forall doc' b,
               edit_doc ty target to doc = Some (doc', b) ->
               doc' = doc /\ b = false) docs) ->
  edit_entry safe_load_all dump_all ty target to (filename, content)
  = (filename, content).
Proof.
  intros H. unfold edit_entry.
  destruct (negb (PyStr.endswith filename ".yaml")); [reflexivity|].
  destruct (safe_load_all content) as [docs|] eqn:E; [|reflexivity].
  cbn [obind].
  destruct (edit_docs ty target to docs) as [[docs' b]|] eqn:Ed; [|reflexivity].
  destruct (edit_docs_unmodified ty target to docs (H docs eq_refl) _ _ Ed)
    as [_ ->].
  reflexivity.
Qed.

Lemma edit_entry_name ty target to entry :
  fst (edit_entry safe_load_all dump_all ty target to entry) = fst entry.
Proof.
  destruct entry as [filename content]. unfold edit_entry.
  destruct (negb (PyStr.endswith filename ".yaml")); [reflexivity|].
  destruct (safe_load_all content >>= edit_docs ty target to)
    as [[docs [|]]|]; reflexivity.
Qed.

Lemma edit_by_all_name changes : forall h entry,
  edit_by_all safe_load_all dump_all changes = Some h ->
  fst (h entry) = fst entry.
Proof.
  induction changes as [|change rest IH]; intros h entry; cbn [edit_by_all].
  - intros [= <-]. reflexivity.
  - destruct (edit_by safe_load_all dump_all change) as [g|] eqn:Eg; [|discriminate].
    cbn [obind].
    destruct (edit_by_all safe_load_all dump_all rest) as [h'|] eqn:Eh; [|discriminate].
    cbn [obind]. intros [= <-]. rewrite (IH h' _ eq_refl).
    destruct (edit_by_shape _ _ _ _ Eg) as (ty & target & to & _ & _ & _ & ->).
    apply edit_entry_name.
Qed.

(** An unimplemented change type edits no entry. *)
Lemma edit_by_unimplemented change ty g entry :
  Py.get1 change "type" = Some ty -> implemented ty = false ->
  edit_by safe_load_all dump_all change = Some g -> g entry = entry.
Proof.
  intros Hty Hi Eg.
  destruct (edit_by_shape _ _ _ _ Eg) as (ty' & target & to & Hty' & _ & _ & ->).
  rewrite Hty in Hty'. injection Hty' as <-.
  destruct entry as [filename content]. apply edit_entry_unmodified.
  intros docs _. apply Forall_forall. intros doc _ doc' b.
  apply edit_doc_unimplemented, Hi.
Qed.

End WithYaml.

(** C4, as stated, fails.  A change of the unknown type [resize_disk]
    is not reported: the call returns, and returns its input. *)
Lemma unknown_change_not_reported :
  implemented (VStr "resize_disk") = false
  /\ _apply_optimizations Samples.safe_load_all Samples.dump_all
       [("stack.yaml", Samples.stack_yaml)] (Samples.changes [Samples.resize])
     = Some [("stack.yaml", Samples.stack_yaml)]
  /\ _apply_optimizations Samples.safe_load_all Samples.dump_all
       [("stack.yaml", Samples.stack_yaml)] (Samples.changes [Samples.resize])
     <> None.
Proof. split; [reflexivity|]. split; [reflexivity|discriminate]. Qed.

(** C4, amended.  A change whose type is none of [reduce_replicas],
    [reduce_cpu], [reduce_memory] is dropped without a word: applying it
    returns the map it was given, and a list of such changes returns the
    input map; no failure is reported. *)
Theorem unimplemented_change_dropped
    (safe_load_all : string -> option (list value))
    (dump_all : list value -> string) (m : manifests) :
  (forall change ty,
     Py.get1 change "type" = Some ty -> implemented ty = false ->
     apply_change safe_load_all dump_all m change = Some m)
  /\ (forall optimization changes,
        Py.get optimization "changes" empty_list >>= Py.iter = Some changes ->
        Forall (fun change => exists ty, Py.get1 change "type" = Some ty
                                         /\ implemented ty = false) changes ->
        _apply_optimizations safe_load_all dump_all m optimization = Some m).
Proof.
  assert (One : forall change ty,
             Py.get1 change "type" = Some ty -> implemented ty = false ->
             exists g, edit_by safe_load_all dump_all change = Some g
                       /\ forall entry, g entry = entry).
  { intros change ty Hty Hi.
    assert (exists g, edit_by safe_load_all dump_all change = Some g) as [g Eg].
    { unfold edit_by. destruct change; try discriminate. eexists. reflexivity. }
    exists g. split; [exact Eg|]. intros entry.
    apply (edit_by_unimplemented safe_load_all dump_all change ty g entry Hty Hi Eg). }
  split.
  - intros change ty Hty Hi. rewrite apply_change_map.
    destruct (One change ty Hty Hi) as (g & -> & Hg). cbn [option_map].
    rewrite (map_fixed g m (fun x _ => Hg x)). reflexivity.
  - intros optimization changes Hc Hall. unfold _apply_optimizations.
    rewrite Hc. cbn [obind]. rewrite apply_changes_map.
    assert (exists h, edit_by_all safe_load_all dump_all changes = Some h
                      /\ forall entry, h entry = entry) as (h & -> & Hh).
    { clear Hc. induction Hall as [|change rest (ty & Hty & Hi) _ IH].
      - exists (fun entry => entry). split; reflexivity.
      - destruct (One change ty Hty Hi) as (g & Eg & Hg).
        destruct IH as (h & Eh & Hh).
        exists (fun entry => h (g entry)). split.
        + cbn [edit_by_all]. rewrite Eg. cbn [obind]. rewrite Eh. reflexivity.
        + intros entry. rewrite Hg. apply Hh. }
    cbn [option_map]. rewrite (map_fixed h m (fun x _ => Hh x)). reflexivity.
Qed.

(** The tag [enable_spot], which the change format lists, is dropped
    like any unknown one. *)
Lemma unimplemented_change_dropped_witness :
  _apply_optimizations Samples.safe_load_all Samples.dump_all
    [("stack.yaml", Samples.stack_yaml)]
    (Samples.changes [Samples.spot; Samples.resize])
  = Some [("stack.yaml", Samples.stack_yaml)].
Proof.
  apply (proj2 (unimplemented_change_dropped Samples.safe_load_all
                  Samples.dump_all [("stack.yaml", Samples.stack_yaml)])
           (Samples.changes [Samples.spot; Samples.resize])
           [Samples.spot; Samples.resize] eq_refl).
  constructor; [exists (VStr "enable_spot"); split; reflexivity|].
  constructor; [exists (VStr "resize_disk"); split; reflexivity|].
  constructor.
Defined.

End EditFacts.

Module FrameFacts.
Import Optimizer ApplyFacts EditFacts.

(** C8, as stated, fails.  The sample file holds a Deployment named
    [web] and a Service named [web-service].  The one change targets
    [web]; the Service matches no target, yet the file is written anew
    from both documents and the text of the Service is no longer what it
    was: its comment line is gone. *)
Lemma sibling_document_rewritten :
  Samples.safe_load_all Samples.stack_yaml
  = Some [Samples.web_doc 5; Samples.service_doc]
  /\ names_target Samples.service_doc (VStr "web") = false
  /\ option_map (fun r => Samples.entry_text r "stack.yaml")
       (_apply_optimizations Samples.safe_load_all Samples.dump_all
          [("stack.yaml", Samples.stack_yaml)]
          (Samples.changes [Samples.scale_down]))
     = Some (Some Samples.stack_yaml_3)
  /\ nth_error (Samples.stream_documents Samples.stack_yaml_3) 1
     <> nth_error (Samples.stream_documents Samples.stack_yaml) 1.
Proof.
  split; [reflexivity|]. split; [reflexivity|]. split; [reflexivity|].
  vm_compute. discriminate.
Qed.

(** C8, amended.  The unit of re-serialization is the file.  The
    optimized map has the keys of the input in their order; an entry
    none of whose documents bears the name a change targets is returned
    byte-identical, and so is the whole map when no document of the set
    does.  (A document that shares its file with a modified one is written
    anew along with it.) *)
Theorem untouched_files_identical
    (safe_load_all : string -> option (list value))
    (dump_all : list value -> string)
    (m r : manifests) (optimization : value) (changes : list value) :
  Py.get optimization "changes" empty_list >>= Py.iter = Some changes ->
  _apply_optimizations safe_load_all dump_all m optimization = Some r ->
  let untouched (content : string) :=
    forall docs doc change target,
      safe_load_all content = Some docs -> In doc docs ->
      In change changes -> Py.get1 change "target" = Some target ->
      names_target doc target = false in
  map fst r = map fst m
  /\ (forall i filename content,
        nth_error m i = Some (filename, content) -> untouched content ->
        nth_error r i = Some (filename, content))
  /\ ((forall filename content, In (filename, content) m -> untouched content) ->
      r = m).
Proof.
  intros Hc Hr untouched. unfold _apply_optimizations in Hr.
  rewrite Hc in Hr. cbn [obind] in Hr. rewrite apply_changes_map in Hr.
  destruct (edit_by_all safe_load_all dump_all changes) as [h|] eqn:Eh;
    [|discriminate].
  injection Hr as <-.
  assert (Fix : forall filename content,
             untouched content -> h (filename, content) = (filename, content)).
  { intros filename content Hu.
    apply (edit_by_all_fixed safe_load_all dump_all _ changes); [|exact Eh].
    intros change g Hin Eg.
    destruct (edit_by_shape _ _ _ _ Eg) as (ty & target & to & _ & Ht & _ & ->).
    apply edit_entry_unmodified. intros docs Hl.
    apply Forall_forall. intros doc Hd doc' b.
    apply edit_doc_other_name. exact (Hu docs doc change target Hl Hd Hin Ht). }
  split; [|split].
  - rewrite map_map. apply map_ext. intros entry.
    apply (edit_by_all_name safe_load_all dump_all changes h entry Eh).
  - intros i filename content Hi Hu.
    rewrite nth_error_map, Hi. cbn [option_map]. f_equal. apply Fix, Hu.
  - intros Hall. apply map_fixed. intros [filename content] Hin.
    apply Fix, (Hall filename content Hin).
Qed.

(** The storage claim beside the rewritten file comes back as it was. *)
Lemma untouched_files_identical_witness :
  exists r,
    _apply_optimizations Samples.safe_load_all Samples.dump_all
      [("stack.yaml", Samples.stack_yaml); ("pvc.yaml", Samples.pvc_yaml)]
      (Samples.changes [Samples.scale_down]) = Some r
    /\ map fst r = ["stack.yaml"; "pvc.yaml"]
    /\ nth_error r 1 = Some ("pvc.yaml", Samples.pvc_yaml).
Proof.
  eexists. split; [reflexivity|].
  destruct (untouched_files_identical Samples.safe_load_all Samples.dump_all
              [("stack.yaml", Samples.stack_yaml); ("pvc.yaml", Samples.pvc_yaml)]
              _ (Samples.changes [Samples.scale_down]) [Samples.scale_down]
              eq_refl eq_refl) as (K & E & _).
  split; [exact K|].
  apply (E 1%nat "pvc.yaml" Samples.pvc_yaml eq_refl).
  intros docs doc change target Hl Hd Hc Ht.
  injection Hl as <-. destruct Hd as [<-|[]]. destruct Hc as [<-|[]].
  injection Ht as <-. reflexivity.
Defined.

End FrameFacts.

(** ** Subnet validation *)

Module SubnetFacts.
Import PyStr TelecomGenerator AllocatorFacts.

Lemma parse_subnet_accepted subnet :
  accepted subnet = true <-> exists base_ip, parse_subnet subnet = Some base_ip.
Proof.
  unfold accepted, parse_subnet.
  destruct (Nat.eqb (List.length (split "/" subnet)) 2); cbn [negb andb].
  - destruct (contains_char "." (nth 0 (split "/" subnet) "")); cbn [negb].
    + split; [eexists; reflexivity|reflexivity].
    + split; [discriminate|intros [b H]; discriminate].
  - split; [discriminate|intros [b H]; discriminate].
Qed.

Lemma rejected_raises network_name namespace subnet :
  accepted subnet = false ->
  generate_networkattachmentdefinition_yaml network_name namespace subnet
  = ValueError ("Invalid subnet format: " ++ subnet).
Proof.
  intros H. unfold generate_networkattachmentdefinition_yaml.
  destruct (parse_subnet subnet) as [b|] eqn:E; [|reflexivity].
  assert (A : accepted subnet = true) by (apply parse_subnet_accepted; eauto).
  congruence.
Qed.

Lemma accepted_returns network_name namespace subnet :
  accepted subnet = true ->
  exists text,
    generate_networkattachmentdefinition_yaml network_name namespace subnet
    = Ok text.
Proof.
  intros H. apply parse_subnet_accepted in H as [b E].
  unfold generate_networkattachmentdefinition_yaml. rewrite E. eauto.
Qed.

Lemma no_slash_rejected subnet :
  contains_char "/" subnet = false -> accepted subnet = false.
Proof.
  intros H. unfold accepted. rewrite (split_absent _ _ H). reflexivity.
Qed.

Section Stack.
Variable BASE_NETWORK : string.

(** The loop over the interfaces stops at the first rejected subnet. *)
Lemma nad_manifests_abort namespace nets : forall idx k net,
  nth_error nets k = Some net ->
  accepted (NetworkConfig.get_subnet BASE_NETWORK (100 + (idx + Z.of_nat k)))
  = false ->
  exists msg, nad_manifests BASE_NETWORK namespace idx nets = ValueError msg.
Proof.
  induction nets as [|n nets IH]; intros idx k net Hk Hs.
  - destruct k; discriminate.
  - cbn [nad_manifests]. destruct k as [|k].
    + cbn [Z.of_nat] in Hs. rewrite Z.add_0_r in Hs.
      rewrite (rejected_raises n namespace _ Hs). eauto.
    + destruct (generate_networkattachmentdefinition_yaml n namespace
                  (NetworkConfig.get_subnet BASE_NETWORK (100 + idx)));
        [|eauto].
      cbn [nth_error] in Hk.
      destruct (IH (idx + 1) k net Hk) as [msg ->]; [|eauto].
      rewrite <- Hs. do 3 f_equal. lia.
Qed.

End Stack.

(** C2, as stated, fails.  ["10.x.0.0/24"] is not an address block in
    the [a.b.c.d/n] sense, its second field is not a number, and an
    attachment document is produced for it. *)
Lemma non_numeric_octet_accepted :
  spec_is_cidr "10.x.0.0/24" = false
  /\ generate_networkattachmentdefinition_yaml "n3" "telecom" "10.x.0.0/24"
     = Ok (nad_text "n3" "telecom" "10.x.0.0/24" "10.x.0").
Proof. split; reflexivity. Qed.

(** C2, amended.  The generator raises [ValueError] exactly when the
    subnet text does not have one slash with a dot somewhere before it,
    in particular when the slash is missing; any other text, numeric or
    not, yields an attachment document.  When the subnet allocated to one
    of a component's interfaces is rejected, the whole synthesis call
    raises: no map without the attachment is returned. *)
Theorem subnet_validation (network_name namespace subnet : string) :
  ((exists msg,
      generate_networkattachmentdefinition_yaml network_name namespace subnet
      = ValueError msg)
   <-> accepted subnet = false)
  /\ (accepted subnet = false ->
      generate_networkattachmentdefinition_yaml network_name namespace subnet
      = ValueError ("Invalid subnet format: " ++ subnet))
  /\ (contains_char "/" subnet = false -> accepted subnet = false)
  /\ (forall BASE_NETWORK gen_deployment gen_service gen_hpa gen_pvc gen_secret
             component_type service_name k net,
        nth_error (networks (get_component_config component_type)) k = Some net ->
        accepted (NetworkConfig.get_subnet BASE_NETWORK (100 + Z.of_nat k))
        = false ->
        exists msg,
          generate_full_stack BASE_NETWORK gen_deployment gen_service gen_hpa
            gen_pvc gen_secret component_type service_name namespace
          = ValueError msg).
Proof.
  split; [|split; [|split]].
  - split.
    + intros [msg H]. destruct (accepted subnet) eqn:A; [|reflexivity].
      destruct (accepted_returns network_name namespace subnet A) as [t E].
      congruence.
    + intros A. rewrite (rejected_raises _ _ _ A). eauto.
  - apply rejected_raises.
  - apply no_slash_rejected.
  - intros BASE gd gs gh gp gx component_type service_name k net Hk Hs.
    unfold generate_full_stack.
    destruct (nad_manifests_abort BASE namespace
                (networks (get_component_config component_type)) 0 k net Hk Hs)
      as [msg E].
    destruct (networks (get_component_config component_type)) as [|n nets] eqn:N.
    + destruct k; discriminate.
    + rewrite E. eauto.
Qed.

(** The text of the repository's test, and a component synthesized on a
    base prefix that carries a slash. *)
Lemma subnet_validation_witness :
  generate_networkattachmentdefinition_yaml "test" "telecom" "invalid_subnet"
  = ValueError "Invalid subnet format: invalid_subnet"
  /\ exists msg,
       generate_full_stack "10/100" (fun _ _ _ => "") (fun _ _ => "")
         (fun _ _ _ _ => "") (fun _ _ _ _ => "") (fun _ _ _ => "")
         "5g_upf" "moscow-upf" "telecom" = ValueError msg.
Proof.
  destruct (subnet_validation "test" "telecom" "invalid_subnet")
    as (_ & R & S & F).
  split.
  - apply R, S. reflexivity.
  - apply (F "10/100" _ _ _ _ _ "5g_upf" "moscow-upf" 0%nat "n3"); reflexivity.
Defined.

End SubnetFacts.

(** ** Control flow and frames of the scan *)

Module ExcFacts.
Import SecurityAnalyzer ExcM.

Section Generic.
Context {S : Type}.

Lemma bind_lift {A B} (o : option A) (k : A -> Exc S B) (s : S) :
  ExcM.bind (ExcM.lift o) k s
  = match o with Some a => k a s | None => (s, None) end.
Proof. destruct o; reflexivity. Qed.

Lemma bind_run {A B} (m : Exc S A) (k : A -> Exc S B) (s : S) :
  ExcM.bind m k s
  = match m s with (s', Some a) => k a s' | (s', None) => (s', None) end.
Proof. reflexivity. Qed.

Lemma obl_ret {A} (a : A) : oblivious (S:=S) (ExcM.ret a).
Proof. intros s s'. reflexivity. Qed.

Lemma obl_lift {A} (o : option A) : oblivious (S:=S) (ExcM.lift o).
Proof. intros s s'. reflexivity. Qed.

Lemma obl_modify (g : S -> S) : oblivious (S:=S) (ExcM.modify g).
Proof. intros s s'. reflexivity. Qed.

Lemma obl_bind {A B} (m : Exc S A) (k : A -> Exc S B) :
  oblivious (S:=S) m -> (forall a, oblivious (S:=S) (k a)) -> oblivious (S:=S) (ExcM.bind m k).
Proof.
  intros Hm Hk s s'. unfold ExcM.bind. specialize (Hm s s').
  destruct (m s) as [s1 [a|]], (m s') as [s1' [a'|]]; cbn [snd] in *;
    try discriminate; [|reflexivity].
  injection Hm as <-. apply Hk.
Qed.

Lemma obl_for_each {A} (l : list A) (body : A -> Exc S unit) :
  (forall x, oblivious (S:=S) (body x)) -> oblivious (S:=S) (ExcM.for_each l body).
Proof.
  intros H. induction l as [|x l IH]; cbn [ExcM.for_each].
  - apply obl_ret.
  - apply obl_bind; [apply H|intros _; exact IH].
Qed.

Lemma obl_when (c : bool) (m : Exc S unit) :
  oblivious (S:=S) m -> oblivious (S:=S) (when c m).
Proof. intros H. destruct c; [exact H|apply obl_ret]. Qed.

Lemma pres_ret {A B} (f : S -> B) (a : A) : preserves (S:=S) f (ExcM.ret a).
Proof. intros s. reflexivity. Qed.

Lemma pres_lift {A B} (f : S -> B) (o : option A) : preserves (S:=S) f (ExcM.lift o).
Proof. intros s. reflexivity. Qed.

Lemma pres_modify {B} (f : S -> B) (g : S -> S) :
  (forall s, f (g s) = f s) -> preserves (S:=S) f (ExcM.modify g).
Proof. intros H s. apply H. Qed.

Lemma pres_bind {A B C} (f : S -> C) (m : Exc S A) (k : A -> Exc S B) :
  preserves (S:=S) f m -> (forall a, preserves (S:=S) f (k a)) -> preserves (S:=S) f (ExcM.bind m k).
Proof.
  intros Hm Hk s. unfold ExcM.bind. specialize (Hm s).
  destruct (m s) as [s1 [a|]]; cbn [fst] in *; [|exact Hm].
  rewrite Hk. exact Hm.
Qed.

Lemma pres_for_each {A B} (f : S -> B) (l : list A) (body : A -> Exc S unit) :
  (forall x, preserves (S:=S) f (body x)) -> preserves (S:=S) f (ExcM.for_each l body).
Proof.
  intros H. induction l as [|x l IH]; cbn [ExcM.for_each].
  - apply pres_ret.
  - apply pres_bind; [apply H|intros _; exact IH].
Qed.

Lemma pres_when {B} (f : S -> B) (c : bool) (m : Exc S unit) :
  preserves (S:=S) f m -> preserves (S:=S) f (when c m).
Proof. intros H. destruct c; [exact H|apply pres_ret]. Qed.

End Generic.

(** Goals of the two kinds are settled along the structure of the
    computation. *)
Ltac obl :=
  repeat match goal with
    | |- oblivious (ExcM.ret _) => apply obl_ret
    | |- oblivious (ExcM.lift _) => apply obl_lift
    | |- oblivious (ExcM.modify _) => apply obl_modify
    | |- oblivious (when _ _) => apply obl_when
    | |- oblivious (ExcM.for_each _ _) => apply obl_for_each; intro; cbv beta
    | |- oblivious (ExcM.bind _ _) => apply obl_bind; [|intro; cbv beta]
    | |- oblivious (if ?c then _ else _) => destruct c
    end.

Ltac pres_with tac :=
  repeat match goal with
    | |- preserves _ (ExcM.ret _) => apply pres_ret
    | |- preserves _ (ExcM.lift _) => apply pres_lift
    | |- preserves _ (ExcM.modify _) => apply pres_modify; intro; tac
    | |- preserves _ (when _ _) => apply pres_when
    | |- preserves _ (ExcM.for_each _ _) => apply pres_for_each; intro; cbv beta
    | |- preserves _ (ExcM.bind _ _) => apply pres_bind; [|intro; cbv beta]
    | |- preserves _ (if ?c then _ else _) => destruct c
    end.

Ltac pres := pres_with ltac:(reflexivity).

End ExcFacts.

Module ScanFacts.
Import SecurityAnalyzer ExcM ExcFacts.

Section WithYaml.
Variable safe_load_all : string -> option (list value).
Variable format : value -> string.

Lemma check_container_obl name c : oblivious (check_container format name c).
Proof. unfold check_container, check_env. obl. Qed.

Lemma check_pod_obl name spec : oblivious (check_pod format name spec).
Proof.
  unfold check_pod, check_volume. obl; try apply check_container_obl.
Qed.

Lemma check_doc_obl doc : oblivious (check_doc format doc).
Proof.
  unfold check_doc, check_deployment. obl; try apply check_pod_obl.
Qed.

Lemma check_container_pres {B} (f : basic_checks -> B) name c :
  (forall s, f (Checks.set_resource_limits_set s) = f s) ->
  (forall s, f (Checks.set_readiness_probes_set s) = f s) ->
  (forall s, f (Checks.set_liveness_probes_set s) = f s) ->
  (forall l s, f (Checks.add_privileged_containers l s) = f s) ->
  (forall l s, f (Checks.add_capabilities_added l s) = f s) ->
  (forall l s, f (Checks.add_trusted_registry l s) = f s) ->
  (forall l s, f (Checks.add_image_pull_policy l s) = f s) ->
  (forall l s, f (Checks.add_secrets_in_env l s) = f s) ->
  preserves f (check_container format name c).
Proof.
  intros. unfold check_container, check_env. pres_with ltac:(auto).
Qed.

(** Nothing before the last line of the Deployment branch touches the
    two flags of the zero-trust test. *)
Lemma check_pod_keeps_policy name spec :
  preserves network_policies_present (check_pod format name spec).
Proof.
  unfold check_pod, check_volume. pres;
    try (apply check_container_pres; reflexivity).
Qed.

Lemma check_pod_keeps_account name spec :
  preserves service_account_set (check_pod format name spec).
Proof.
  unfold check_pod, check_volume. pres;
    try (apply check_container_pres; reflexivity).
Qed.

Lemma check_deployment_keeps_policy name doc :
  preserves network_policies_present (check_deployment format name doc).
Proof.
  unfold check_deployment. pres. apply check_pod_keeps_policy.
Qed.

Lemma kinds_apart k :
  Py.is_str k "Deployment" = true -> Py.is_str k "NetworkPolicy" = false.
Proof.
  destruct k; try discriminate. cbn [Py.is_str]. intros H.
  apply String.eqb_eq in H. subst. reflexivity.
Qed.

(** What the scan of one document does to the policy flag. *)
Lemma check_doc_policy doc s :
  network_policies_present (fst (check_doc format doc s))
  = network_policies_present s || declares_policy format doc.
Proof.
  unfold declares_policy, doc_ok, kind_is, completes, check_doc.
  destruct (Py.truthy doc); cbn [negb];
    [|rewrite andb_false_r; cbn [andb fst ret]; symmetry; apply orb_false_r].
  rewrite !bind_lift.
  destruct (Py.get1 doc "kind") as [k|];
    [|cbn [fst]; rewrite andb_false_r; symmetry; apply orb_false_r].
  rewrite !bind_lift.
  destruct (Py.get doc "metadata" empty_dict
            >>= fun m => Py.get m "name" (VStr "unnamed")) as [name|];
    [|cbn [fst snd andb]; symmetry; apply orb_false_r].
  destruct (Py.is_str k "Deployment") eqn:D.
  - rewrite (check_deployment_keeps_policy name doc s), (kinds_apart k D).
    rewrite andb_false_r. symmetry. apply orb_false_r.
  - destruct (Py.is_str k "NetworkPolicy").
    + cbn. symmetry. apply orb_true_r.
    + cbn. symmetry. apply orb_false_r.
Qed.

(** What the Deployment branch does to the account flag. *)
Lemma check_deployment_account name doc s :
  service_account_set (fst (check_deployment format name doc s))
  = service_account_set s
    || (completes (check_deployment format name doc) Checks.initial
        && match pod_spec_of doc
                 >>= fun spec => Py.get1 spec "serviceAccountName" with
           | Some account => Py.truthy account
           | None => false
           end).
Proof.
  unfold completes, check_deployment.
  rewrite !bind_lift.
  destruct (pod_spec_of doc) as [spec|];
    [|cbn [fst snd andb obind]; symmetry; apply orb_false_r].
  cbn [obind]. rewrite !(bind_run (check_pod format name spec)).
  pose proof (check_pod_keeps_account name spec s) as K.
  pose proof (check_pod_obl name spec s Checks.initial) as O.
  destruct (check_pod format name spec s) as [s1 r1].
  destruct (check_pod format name spec Checks.initial) as [s0 r0].
  cbn [fst snd] in K, O. subst r1.
  destruct r0 as [[]|];
    [|cbn [fst snd andb]; rewrite K; symmetry; apply orb_false_r].
  rewrite !bind_lift.
  destruct (Py.get1 spec "serviceAccountName") as [account|];
    [|cbn [fst snd andb]; rewrite K; symmetry; apply orb_false_r].
  destruct (Py.truthy account); cbn.
  - symmetry. apply orb_true_r.
  - rewrite K. symmetry. apply orb_false_r.
Qed.

(** What the scan of one document does to the account flag. *)
Lemma check_doc_account doc s :
  service_account_set (fst (check_doc format doc s))
  = service_account_set s || declares_account format doc.
Proof.
  unfold declares_account, doc_ok, kind_is, completes, check_doc.
  destruct (Py.truthy doc); cbn [negb];
    [|rewrite andb_false_r; cbn [andb fst ret]; symmetry; apply orb_false_r].
  rewrite !bind_lift.
  destruct (Py.get1 doc "kind") as [k|];
    [|cbn [fst]; rewrite andb_false_r; cbn [andb]; symmetry; apply orb_false_r].
  rewrite !bind_lift.
  destruct (Py.get doc "metadata" empty_dict
            >>= fun m => Py.get m "name" (VStr "unnamed")) as [name|];
    [|cbn [fst snd andb]; symmetry; apply orb_false_r].
  destruct (Py.is_str k "Deployment") eqn:D.
  - rewrite (check_deployment_account name doc s). unfold completes.
    rewrite !andb_true_r. reflexivity.
  - destruct (Py.is_str k "NetworkPolicy"); cbn;
      rewrite ?andb_false_r; symmetry; apply orb_false_r.
Qed.

(** A flag that each document raises as [declares] says is, after a
    file, raised by the documents visited. *)
Lemma for_each_flag (flag : basic_checks -> bool) (declares : value -> bool) :
  (forall doc s, flag (fst (check_doc format doc s)) = flag s || declares doc) ->
  forall docs s,
    flag (fst (for_each docs (check_doc format) s))
    = flag s || existsb declares (visited_docs format docs).
Proof.
  intros H. induction docs as [|doc docs IH]; intros s.
  - cbn. symmetry. apply orb_false_r.
  - cbn [for_each visited_docs existsb]. unfold bind.
    pose proof (H doc s) as Hd.
    pose proof (check_doc_obl doc s Checks.initial) as O.
    unfold doc_ok, completes. rewrite <- O.
    destruct (check_doc format doc s) as [s1 [[]|]]; cbn [fst snd] in *.
    + rewrite IH, Hd. symmetry. apply orb_assoc.
    + rewrite Hd. cbn [existsb]. rewrite orb_false_r. reflexivity.
Qed.

Lemma run_flag (flag : basic_checks -> bool) (declares : value -> bool) :
  (forall doc s, flag (fst (check_doc format doc s)) = flag s || declares doc) ->
  forall m s,
    flag (fold_left (check_entry safe_load_all format) m s)
    = flag s || existsb declares (visited safe_load_all format m).
Proof.
  intros H. induction m as [|[filename content] m IH]; intros s.
  - cbn. symmetry. apply orb_false_r.
  - cbn [fold_left visited flat_map fst snd]. rewrite IH.
    rewrite existsb_app, orb_assoc. f_equal.
    unfold check_entry.
    destruct (PyStr.endswith filename ".yaml"); cbn [negb];
      [|cbn; symmetry; apply orb_false_r].
    unfold try_, check_file, bind, lift.
    destruct (safe_load_all content) as [docs|];
      [|cbn; symmetry; apply orb_false_r].
    apply (for_each_flag flag declares H).
Qed.

End WithYaml.

(** C3, as stated, fails.  The sample set holds a network policy and
    two Deployments, one of which declares no service account; the flag
    is raised all the same. *)
Lemma one_account_suffices :
  Samples.safe_load_all Samples.mixed_yaml
  = Some [Samples.policy_doc; Samples.billing_doc; Samples.cache_doc]
  /\ spec_has_network_policy
       [Samples.policy_doc; Samples.billing_doc; Samples.cache_doc] = true
  /\ spec_every_deployment_has_account
       [Samples.policy_doc; Samples.billing_doc; Samples.cache_doc] = false
  /\ zero_trust_ready
       (_check_compliance
          (_run_basic_checks Samples.safe_load_all Samples.format
             [("all.yaml", Samples.mixed_yaml)])) = true.
Proof. repeat split. Qed.

(** C3, amended.  The zero-trust-ready flag is raised exactly when the
    scan visits a network policy and visits a Deployment that it scans
    to the end and whose pod spec carries a service-account name: one
    such Deployment is enough, and any name will do. *)
Theorem zero_trust_ready_iff
    (safe_load_all : string -> option (list value))
    (format : value -> string) (m : manifests) :
  zero_trust_ready
    (_check_compliance (_run_basic_checks safe_load_all format m)) = true
  <-> (exists doc, In doc (visited safe_load_all format m)
                   /\ declares_policy format doc = true)
      /\ (exists doc, In doc (visited safe_load_all format m)
                      /\ declares_account format doc = true).
Proof.
  unfold _check_compliance, _run_basic_checks. cbn [zero_trust_ready].
  rewrite (run_flag safe_load_all format network_policies_present
             (declares_policy format) (check_doc_policy format)).
  rewrite (run_flag safe_load_all format service_account_set
             (declares_account format) (check_doc_account format)).
  cbn [network_policies_present service_account_set Checks.initial orb].
  rewrite andb_true_iff, !existsb_exists. reflexivity.
Qed.

(** On the sample set the policy and the one Deployment with an
    account raise the flag. *)
Lemma zero_trust_ready_iff_witness :
  zero_trust_ready
    (_check_compliance
       (_run_basic_checks Samples.safe_load_all Samples.format
          [("all.yaml", Samples.mixed_yaml)])) = true.
Proof.
  apply (proj2 (zero_trust_ready_iff Samples.safe_load_all Samples.format
                  [("all.yaml", Samples.mixed_yaml)])).
  split.
  - exists Samples.policy_doc. split; [left; reflexivity|reflexivity].
  - exists Samples.billing_doc. split; [right; left; reflexivity|reflexivity].
Defined.

End ScanFacts.

(** * Further properties *)

(** ** Splitting and joining *)

Module SplitFacts.
Import PyStr PyStrFacts AllocatorFacts.

Lemma app_assoc_s (a b c : string) : (a ++ b) ++ c = a ++ (b ++ c).
Proof. induction a as [|x a IH]; simpl; [|rewrite IH]; reflexivity. Qed.

Lemma contains_char_app c a b :
  contains_char c (a ++ b) = contains_char c a || contains_char c b.
Proof.
  induction a as [|x a IH]; simpl; [reflexivity|].
  rewrite IH. apply orb_assoc.
Qed.

(** Joining what was split gives the text back. *)
Lemma join_split c s : join (String c "") (split c s) = s.
Proof.
  induction s as [|a s IH]; [reflexivity|].
  cbn [split]. pose proof (split_nonempty c s) as N.
  destruct (Ascii.eqb_spec a c) as [->|Hac].
  - destruct (split c s) as [|w ws]; [contradiction|].
    cbn [join]. cbn [join] in IH. rewrite IH. reflexivity.
  - destruct (split c s) as [|w ws]; [contradiction|].
    destruct ws as [|w' ws].
    + cbn [join] in *. rewrite IH. reflexivity.
    + cbn [join] in *. rewrite <- IH. reflexivity.
Qed.

(** Cutting at the last separator. *)
Lemma rsplit1_head_app c a b :
  contains_char c b = false -> rsplit1_head c (a ++ String c b) = a.
Proof.
  intros Hb. unfold rsplit1_head.
  rewrite split_app, (split_absent c b Hb), rev_app_distr. cbn [List.rev List.app].
  pose proof (split_nonempty c a) as N.
  destruct (List.rev (split c a)) as [|x l] eqn:E.
  - apply (f_equal (@List.rev string)) in E. rewrite rev_involutive in E.
    contradiction.
  - rewrite <- E, rev_involutive. apply join_split.
Qed.

Lemma uint_no_slash d : contains_char "/" (NilEmpty.string_of_uint d) = false.
Proof. induction d; simpl; rewrite ?IHd; reflexivity. Qed.

Lemma of_Z_no_slash z : contains_char "/" (of_Z z) = false.
Proof.
  unfold of_Z. destruct (Z.to_int z) as [d|d]; simpl;
    destruct d; simpl; rewrite ?uint_no_slash; reflexivity.
Qed.

End SplitFacts.

(** ** Allocator and attachments *)

Module AttachmentFacts.
Import PyStr PyStrFacts AllocatorFacts SplitFacts NetworkConfig TelecomGenerator
       SubnetFacts Emitted.

(** X1. The gateway of an index is never the address of any index, and
    two indices never share a gateway. *)
Theorem gateway_apart (base : string) (i j : Z) :
  get_gateway base i <> get_ip base j
  /\ (get_gateway base i = get_gateway base j -> i = j).
Proof.
  split.
  - unfold get_gateway, get_ip. intros H.
    apply app_head_inj, (app_head_inj ".") in H.
    change (of_Z i ++ "." ++ SUBNET_GATEWAY_IP) with (of_Z i ++ "." ++ "1") in H.
    change (of_Z j ++ "." ++ SUBNET_START_IP)
      with (of_Z j ++ (".1" ++ "0")) in H.
    rewrite <- (app_assoc_s (of_Z i) "." "1") in H.
    rewrite <- (app_assoc_s (of_Z j) ".1" "0") in H.
    apply app_tail_inj in H as [_ H]; [discriminate|reflexivity].
  - unfold get_gateway. intros H.
    apply app_head_inj, (app_head_inj ".") in H.
    apply app_tail_inj in H as [H _]; [|reflexivity].
    apply of_Z_inj, H.
Qed.

Lemma subnet_address_no_slash base index :
  contains_char "/" base = false ->
  contains_char "/" (base ++ "." ++ of_Z index ++ ".0") = false.
Proof.
  intros H.
  rewrite contains_char_app, H.
  change ("." ++ of_Z index ++ ".0") with (String "." (of_Z index ++ ".0")).
  cbn [contains_char]. rewrite contains_char_app, of_Z_no_slash. reflexivity.
Qed.

Lemma parse_allocated_subnet base index :
  contains_char "/" base = false ->
  parse_subnet (get_subnet base index) = Some (base_ip_of base index).
Proof.
  intros H. unfold parse_subnet, get_subnet.
  assert (E : base ++ "." ++ of_Z index ++ ".0" ++ NETWORK_CIDR
              = (base ++ "." ++ of_Z index ++ ".0") ++ String "/" "24").
  { rewrite !app_assoc_s. reflexivity. }
  rewrite E, split_app.
  rewrite (split_absent "/" _ (subnet_address_no_slash base index H)).
  cbn [split List.app List.length Nat.eqb negb nth Ascii.eqb Bool.eqb].
  assert (D : base ++ "." ++ of_Z index ++ ".0"
              = (base ++ "." ++ of_Z index) ++ String "." "0").
  { rewrite !app_assoc_s. reflexivity. }
  rewrite D, contains_char_app. cbn [contains_char Ascii.eqb Bool.eqb orb].
  rewrite orb_true_r. cbn [negb].
  rewrite rsplit1_head_app by reflexivity. reflexivity.
Qed.

(** X2. When the base prefix carries no slash, the attachment generated
    for the subnet of an index is returned, and the address part it
    prefixes to [.10] and [.1] is that of the allocator: its range starts
    at [get_ip] of the index and its gateway is [get_gateway] of the
    index. *)
Theorem attachment_agrees_with_allocator
    (base network_name namespace : string) (index : Z) :
  contains_char "/" base = false ->
  exists base_ip,
    parse_subnet (get_subnet base index) = Some base_ip
    /\ generate_networkattachmentdefinition_yaml network_name namespace
         (get_subnet base index)
       = Ok (nad_text network_name namespace (get_subnet base index) base_ip)
    /\ base_ip ++ ".10" = get_ip base index
    /\ base_ip ++ ".1" = get_gateway base index.
Proof.
  intros H. exists (base_ip_of base index).
  pose proof (parse_allocated_subnet base index H) as P.
  split; [exact P|]. split.
  - unfold generate_networkattachmentdefinition_yaml. rewrite P. reflexivity.
  - unfold base_ip_of, get_ip, get_gateway. rewrite !app_assoc_s. split; reflexivity.
Qed.

Lemma attachment_agrees_with_allocator_witness :
  exists base_ip,
    parse_subnet (get_subnet default_base 100) = Some base_ip
    /\ base_ip ++ ".10" = get_ip default_base 100.
Proof.
  destruct (attachment_agrees_with_allocator default_base "n3" "telecom" 100
              eq_refl) as (b & P & _ & I & _).
  exists b. split; [exact P|exact I].
Defined.

End AttachmentFacts.

(** ** The full stack *)

Module StackFacts.
Import PyStr PyStrFacts AllocatorFacts SplitFacts NetworkConfig TelecomGenerator
       SubnetFacts Emitted AttachmentFacts.

Section Stack.
Variable BASE_NETWORK : string.
Variable gen_deployment : string -> string -> string -> string.
Variable gen_service : string -> string -> string.
Variable gen_hpa : string -> string -> Z -> Z -> string.
Variable gen_pvc : string -> string -> string -> string -> string.
Variable gen_secret : string -> string -> component -> string.

(** On a slash-free base the loop over the interfaces yields one
    attachment per interface, the [k]-th on the subnet of index
    [100 + k]. *)
Lemma nad_manifests_all namespace nets :
  contains_char "/" BASE_NETWORK = false ->
  forall idx,
  exists docs,
    nad_manifests BASE_NETWORK namespace idx nets = Ok docs
    /\ List.length docs = List.length nets
    /\ forall k net,
         nth_error nets k = Some net ->
         nth_error docs k
         = Some (nad_text net namespace
                   (get_subnet BASE_NETWORK (100 + (idx + Z.of_nat k)))
                   (base_ip_of BASE_NETWORK (100 + (idx + Z.of_nat k)))).
Proof.
  intros H. induction nets as [|n nets IH]; intros idx.
  - exists []. split; [reflexivity|]. split; [reflexivity|].
    intros [|k] net; discriminate.
  - cbn [nad_manifests]. unfold generate_networkattachmentdefinition_yaml.
    rewrite (parse_allocated_subnet BASE_NETWORK (100 + idx) H).
    destruct (IH (idx + 1)) as (docs & -> & L & K).
    eexists. split; [reflexivity|]. split; [cbn [List.length]; rewrite L; reflexivity|].
    intros [|k] net Hk.
    + injection Hk as <-. cbn [nth_error Z.of_nat]. rewrite Z.add_0_r. reflexivity.
    + cbn [nth_error] in *. rewrite (K k net Hk).
      replace (idx + 1 + Z.of_nat k) with (idx + Z.of_nat (S k)) by lia.
      reflexivity.
Qed.




(** X5. For a component that declares interfaces, on a slash-free
    base, the map holds one attachment file: the documents of the
    interfaces joined by a separator line, one per interface in catalogue
    order, the [k]-th generated for the subnet of index [100 + k]; and
    different interfaces get different subnets. *)
Theorem attachments_per_interface (component_type service_name namespace : string) :
  contains_char "/" BASE_NETWORK = false ->
  networks (get_component_config component_type) <> [] ->
  exists m docs,
    generate_full_stack BASE_NETWORK gen_deployment gen_service gen_hpa
      gen_pvc gen_secret component_type service_name namespace = Ok m
    /\ In ("network-attachment.yaml", join (nl ++ "---" ++ nl) docs) m
    /\ List.length docs
       = List.length (networks (get_component_config component_type))
    /\ (forall k net,
          nth_error (networks (get_component_config component_type)) k = Some net ->
          nth_error docs k
          = Some (nad_text net namespace
                    (get_subnet BASE_NETWORK (100 + Z.of_nat k))
                    (base_ip_of BASE_NETWORK (100 + Z.of_nat k))))
    /\ (forall k1 k2 : nat,
          k1 <> k2 ->
          get_subnet BASE_NETWORK (100 + Z.of_nat k1)
          <> get_subnet BASE_NETWORK (100 + Z.of_nat k2)).
Proof.
  intros H N. unfold generate_full_stack.
  generalize dependent (get_component_config component_type). intros config N.
  destruct (nad_manifests_all namespace (networks config) H 0)
    as (docs & E & L & K).
  destruct (networks config) as [|n nets] eqn:En; [contradiction|].
  rewrite E.
  eexists. exists docs. split; [reflexivity|]. split; [|split; [exact L|split]].
  - destruct (needs_database config || needs_queue config);
      unfold put; rewrite ?in_app_iff; cbn [In]; tauto.
  - exact K.
  - intros k1 k2 Hk Hs. apply get_subnet_inj in Hs. lia.
Qed.

End Stack.

Lemma attachments_per_interface_witness :
  exists m docs,
    generate_full_stack default_base (fun _ _ _ => "D") (fun _ _ => "S")
      (fun _ _ _ _ => "H") (fun _ _ _ _ => "P") (fun _ _ _ => "X")
      "5g_upf" "moscow-upf" "telecom" = Ok m
    /\ In ("network-attachment.yaml", join (nl ++ "---" ++ nl) docs) m
    /\ List.length docs = 3%nat.
Proof.
  destruct (attachments_per_interface default_base (fun _ _ _ => "D")
              (fun _ _ => "S") (fun _ _ _ _ => "H") (fun _ _ _ _ => "P")
              (fun _ _ _ => "X") "5g_upf" "moscow-upf" "telecom" eq_refl)
    as (m & docs & E & I & L & _).
  - discriminate.
  - exists m, docs. split; [exact E|]. split; [exact I|exact L].
Defined.



End StackFacts.

(** ** Texts that are not numbers *)

Module NumeralFacts.
Import PyStr PyNum PyStrFacts Numeral CostOptimizer.

Lemma numeral_app a b : numeral (a ++ b) = numeral a && numeral b.
Proof.
  induction a as [|x a IH]; simpl; [reflexivity|].
  rewrite IH. apply andb_assoc.
Qed.

Lemma digit_numeral a : is_digit a = true -> numeral_char a = true.
Proof. unfold numeral_char. intros ->. reflexivity. Qed.

Lemma space_numeral a : is_space a = true -> numeral_char a = true.
Proof. unfold numeral_char. intros ->. apply orb_true_iff. left.
  rewrite !orb_true_r. reflexivity. Qed.

Lemma parsed_digits s d :
  NilEmpty.uint_of_string s = Some d -> numeral s = true.
Proof.
  revert d. induction s as [|a s IH]; intros d; [reflexivity|].
  cbn [NilEmpty.uint_of_string numeral].
  destruct (NilEmpty.uint_of_string s) as [d'|]; [|discriminate].
  intros H. rewrite (IH d' eq_refl), andb_true_r.
  apply uint_of_char_spec in H.
  destruct H as [[-> _]|[[-> _]|[[-> _]|[[-> _]|[[-> _]|[[-> _]|[[-> _]|
                [[-> _]|[[-> _]|[-> _]]]]]]]]]]; reflexivity.
Qed.

Lemma digits_value_numeral s z : digits_value s = Some z -> numeral s = true.
Proof.
  unfold digits_value.
  destruct (NilEmpty.uint_of_string s) as [d|] eqn:E; [|discriminate].
  intros _. apply (parsed_digits s d E).
Qed.

Lemma split_sign_numeral s neg body :
  split_sign s = (neg, body) -> numeral body = true -> numeral s = true.
Proof.
  unfold split_sign. destruct s as [|a s]; [intros [= _ <-]; auto|].
  destruct (Ascii.eqb_spec a "-") as [->|Hm].
  - intros [= _ <-] H. cbn [numeral]. rewrite H. reflexivity.
  - destruct (Ascii.eqb_spec a "+") as [->|Hp].
    + intros [= _ <-] H. cbn [numeral]. rewrite H. reflexivity.
    + destruct a as [[|] [|] [|] [|] [|] [|] [|] [|]];
        try (intros [= _ <-]; auto); congruence.
Qed.

Lemma signed_digits_numeral s z : signed_digits s = Some z -> numeral s = true.
Proof.
  unfold signed_digits. destruct (split_sign s) as [neg body] eqn:E.
  destruct body as [|a body]; [discriminate|].
  destruct (digits_value (String a body)) as [v|] eqn:D; [|discriminate].
  intros _. apply (split_sign_numeral s neg _ E), (digits_value_numeral _ v D).
Qed.

Lemma cut_at_numeral p s l r :
  (forall a, p a = true -> numeral_char a = true) ->
  cut_at p s = (l, r) -> numeral l = true ->
  numeral (match r with Some e => e | None => "" end) = true ->
  numeral s = true.
Proof.
  intros Hp. revert l r. induction s as [|a s IH]; intros l r; [reflexivity|].
  cbn [cut_at]. destruct (p a) eqn:Pa.
  - intros [= <- <-] _ H. cbn [numeral]. rewrite (Hp a Pa), H. reflexivity.
  - destruct (cut_at p s) as [l' r'] eqn:E. intros [= <- <-] Hl Hr.
    cbn [numeral] in *. apply andb_true_iff in Hl as [Ha Hl].
    rewrite Ha, (IH l' r' eq_refl Hl Hr). reflexivity.
Qed.

Lemma lstrip_numeral s : numeral (lstrip s) = true -> numeral s = true.
Proof.
  induction s as [|a s IH]; [reflexivity|]. cbn [lstrip].
  destruct (is_space a) eqn:Sa; [|auto].
  intros H. cbn [numeral]. rewrite (space_numeral a Sa), (IH H). reflexivity.
Qed.

Lemma rstrip_numeral s : numeral (rstrip s) = true -> numeral s = true.
Proof.
  induction s as [|a s IH]; [reflexivity|]. cbn [rstrip numeral].
  destruct (rstrip s) as [|b r].
  - destruct (is_space a) eqn:Sa.
    + intros _. rewrite (space_numeral a Sa), IH; reflexivity.
    + cbn [numeral]. rewrite andb_true_r. intros ->. rewrite IH; reflexivity.
  - intros H. change (numeral_char a && numeral (String b r) = true) in H.
    apply andb_true_iff in H as [-> H]. rewrite (IH H). reflexivity.
Qed.

Lemma is_e_numeral a : is_e a = true -> numeral_char a = true.
Proof. unfold numeral_char. intros ->. rewrite !orb_true_r. reflexivity. Qed.

Lemma is_dot_numeral a : is_dot a = true -> numeral_char a = true.
Proof. unfold numeral_char. intros ->. rewrite !orb_true_r. reflexivity. Qed.

(** What [float] accepts is written with the characters of a number. *)
Lemma py_float_numeral s q : py_float s = Some q -> numeral s = true.
Proof.
  unfold py_float.
  destruct (split_sign (strip s)) as [neg body] eqn:Es.
  destruct (cut_at is_e body) as [mant ex] eqn:Ee.
  destruct (cut_at is_dot mant) as [ip fp] eqn:Ed.
  set (fp' := match fp with Some f => f | None => "" end).
  destruct (digits_value ip) as [i|] eqn:Hi;
    [|destruct ip, fp'; discriminate].
  destruct (digits_value fp') as [f|] eqn:Hf;
    [|destruct ip, fp'; discriminate].
  destruct (match ex with None => Some 0 | Some e => signed_digits e end)
    as [e|] eqn:He; [|destruct ip, fp'; discriminate].
  intros _.
  apply lstrip_numeral, rstrip_numeral. fold (strip s).
  apply (split_sign_numeral _ neg body Es).
  apply (cut_at_numeral is_e body mant ex is_e_numeral Ee).
  - apply (cut_at_numeral is_dot mant ip fp is_dot_numeral Ed).
    + apply (digits_value_numeral _ _ Hi).
    + apply (digits_value_numeral _ _ Hf).
  - destruct ex as [x|]; [|reflexivity]. apply (signed_digits_numeral _ _ He).
Qed.

(** What [int] accepts is a number or is written with the characters of
    one. *)
Lemma not_a_count_raises v : not_a_count v = true -> PyExtra.int_of v = None.
Proof.
  destruct v as [| | | |s| |]; try discriminate; try reflexivity.
  cbn [not_a_count PyExtra.int_of]. intros H.
  destruct (signed_digits (strip s)) as [z|] eqn:E; [|reflexivity].
  apply signed_digits_numeral in E. unfold strip in E.
  apply rstrip_numeral, lstrip_numeral in E. rewrite E in H. discriminate H.
Qed.

(** X6. A quantity with a character that no number has is a parse
    failure, never a guess: [_parse_memory] fails on a text that has none
    of the four suffixes, or whose part before the suffix is not a number;
    [_parse_cpu] likewise around its [m].  So ["1G"], ["500M"] and
    ["2GB"] are not memory quantities and ["2 cores"] is not a CPU
    quantity. *)
Theorem unknown_unit_rejected :
  (forall s,
     numeral s = false ->
     endswith s "Ki" = false -> endswith s "Mi" = false ->
     endswith s "Gi" = false -> endswith s "Ti" = false ->
     _parse_memory (VStr s) = None)
  /\ (forall body suffix,
        In suffix ["Ki"; "Mi"; "Gi"; "Ti"] -> numeral body = false ->
        _parse_memory (VStr (body ++ suffix)) = None)
  /\ (forall s,
        numeral s = false -> endswith s "m" = false ->
        _parse_cpu (VStr s) = None)
  /\ (forall body,
        numeral body = false -> _parse_cpu (VStr (body ++ "m")) = None).
Proof.
  assert (F : forall s, numeral s = false -> py_float s = None).
  { intros s H. destruct (py_float s) as [q|] eqn:E; [|reflexivity].
    apply py_float_numeral in E. congruence. }
  split; [|split; [|split]].
  - intros s H K M G T. unfold _parse_memory, multipliers, scan_suffixes.
    rewrite K, M, G, T. apply F, H.
  - intros body suffix Hin H.
    pose proof (F body H) as E.
    destruct Hin as [<-|[<-|[<-|[<-|[]]]]].
    + rewrite ParserFacts.parse_memory_Ki, E. reflexivity.
    + rewrite ParserFacts.parse_memory_Mi, E. reflexivity.
    + rewrite ParserFacts.parse_memory_Gi, E. reflexivity.
    + rewrite ParserFacts.parse_memory_Ti, E. reflexivity.
  - intros s H M. unfold _parse_cpu. rewrite M. apply F, H.
  - intros body H. rewrite ParserFacts.parse_cpu_milli, (F body H). reflexivity.
Qed.

Lemma unknown_unit_rejected_witness :
  _parse_memory (VStr "1G") = None
  /\ _parse_memory (VStr "500M") = None
  /\ _parse_memory (VStr "2GB") = None
  /\ _parse_memory (VStr "x5Gi") = None
  /\ _parse_cpu (VStr "2 cores") = None
  /\ _parse_cpu (VStr "half m") = None.
Proof.
  destruct unknown_unit_rejected as (A & B & C & D).
  refine (conj (A "1G" _ _ _ _ _) (conj (A "500M" _ _ _ _ _)
           (conj (A "2GB" _ _ _ _ _) (conj (B "x5" "Gi" _ _)
             (conj (C "2 cores" _ _) (D "half " _))))));
    try reflexivity.
  right; right; left; reflexivity.
Defined.

End NumeralFacts.

(** ** Billing that stops *)

Module AbortFacts.
Import CostOptimizer CostFacts ExcFacts.

Lemma for_each_app {S A} (l1 l2 : list A) (body : A -> Exc S unit) s :
  ExcM.for_each (l1 ++ l2) body s
  = match ExcM.for_each l1 body s with
    | (s1, Some _) => ExcM.for_each l2 body s1
    | (s1, None) => (s1, None)
    end.
Proof.
  revert s. induction l1 as [|x l1 IH]; intros s; [reflexivity|].
  cbn [List.app ExcM.for_each]. rewrite !bind_run.
  destruct (body x s) as [s1 [[]|]]; [apply IH|reflexivity].
Qed.

(** X7. Billing a file stops at the first document that raises: what
    the documents before it cost stays in the total, together with what
    the failing document added before it raised, and the documents after
    it are not billed, whatever they are. *)
Theorem billing_stops_at_failure
    (safe_load_all : string -> option (list value)) (self : pricing)
    (filename content : string) (before rest : list value) (doc : value)
    (total t1 t2 : Q) :
  PyStr.endswith filename ".yaml" = true ->
  safe_load_all content = Some (before ++ doc :: rest)%list ->
  ExcM.for_each before (bill_doc self) total = (t1, Some tt) ->
  bill_doc self doc t1 = (t2, None) ->
  bill_entry safe_load_all self total (filename, content) = t2.
Proof.
  intros Hy Hl Hb Hd. unfold bill_entry. rewrite Hy. cbn [negb].
  unfold ExcM.try_, bill_file. rewrite bind_lift, Hl, for_each_app, Hb.
  cbn [ExcM.for_each]. rewrite bind_run, Hd. reflexivity.
Qed.

(** X8. A Deployment whose first container gives its CPU request as a
    YAML number, not as text, is not billed at all and makes billing
    raise. *)
Theorem numeric_request_raises (self : pricing) (doc replicas container : value)
    (others : list value) (requests : list (string * value)) (cpu : value)
    (total : Q) :
  Py.truthy doc = true ->
  Py.get1 doc "kind" = Some (VStr "Deployment") ->
  replicas_of doc = Some replicas ->
  containers_of doc = Some (container :: others) ->
  requests_of container = Some (VDict requests) ->
  Py.lookup "cpu" requests = Some cpu ->
  (forall s, cpu <> VStr s) ->
  bill_doc self doc total = (total, None).
Proof.
  intros Ht Hk Hr Hc Hq Hl Hn.
  unfold replicas_of in Hr. unfold containers_of in Hc. unfold requests_of in Hq.
  unfold bill_doc. rewrite Ht. cbn [negb].
  rewrite bind_lift, Hk. cbn [Py.is_str String.eqb Ascii.eqb Bool.eqb negb].
  rewrite bind_lift, Hr, bind_lift, Hc.
  rewrite bind_run. cbn [ExcM.for_each]. rewrite bind_run.
  unfold bill_container at 1. rewrite bind_lift, Hq.
  rewrite bind_lift. cbn [Py.get]. rewrite Hl. cbn [obind].
  destruct cpu; try reflexivity. exfalso. apply (Hn s). reflexivity.
Qed.

Lemma numeric_request_raises_witness :
  bill_doc default_pricing MoreSamples.raw_doc 450%Q = (450%Q, None).
Proof.
  apply (numeric_request_raises default_pricing MoreSamples.raw_doc (VInt 1)
           (VDict [("name", VStr "app");
                   ("resources", VDict [("requests", VDict [("cpu", VInt 2)])])])
           [] [("cpu", VInt 2)] (VInt 2) 450%Q);
    try reflexivity.
  intros s. discriminate.
Defined.

Lemma billing_stops_at_failure_witness :
  bill_entry MoreSamples.safe_load_all default_pricing 0%Q
    ("all.yaml", MoreSamples.trio_yaml)
  = fst (bill_doc default_pricing Samples.pair_doc 0%Q).
Proof.
  apply (billing_stops_at_failure MoreSamples.safe_load_all default_pricing
           "all.yaml" MoreSamples.trio_yaml [Samples.pair_doc]
           [Samples.pair_doc] MoreSamples.raw_doc 0%Q
           (fst (bill_doc default_pricing Samples.pair_doc 0%Q))
           (fst (bill_doc default_pricing Samples.pair_doc 0%Q)));
    reflexivity.
Defined.

End AbortFacts.

(** ** Files that do not parse *)

Module CorruptFacts.
Import CostOptimizer Optimizer SecurityAnalyzer CostFacts ApplyFacts FilterFacts
       ExcFacts.

(** X9. A file whose text the YAML loader rejects is skipped by the
    three analyses and does not stop them: cost and basic-checks record
    are what they are without the file, and the optimized map is the
    one computed without the file with the file put back unchanged at its
    place. *)
Theorem unparsable_entry_skipped
    (safe_load_all : string -> option (list value))
    (dump_all : list value -> string) (format : value -> string)
    (self : pricing) (m1 m2 : manifests) (filename content : string) :
  safe_load_all content = None ->
  let m := (m1 ++ (filename, content) :: m2)%list in
  _calculate_current_cost safe_load_all self m
  = _calculate_current_cost safe_load_all self (m1 ++ m2)%list
  /\ (forall optimization,
        match _apply_optimizations safe_load_all dump_all (m1 ++ m2)%list
                optimization with
        | Some r =>
            _apply_optimizations safe_load_all dump_all m optimization
            = Some (firstn (List.length m1) r
                    ++ (filename, content) :: skipn (List.length m1) r)%list
        | None =>
            _apply_optimizations safe_load_all dump_all m optimization = None
        end)
  /\ _run_basic_checks safe_load_all format m
     = _run_basic_checks safe_load_all format (m1 ++ m2)%list.
Proof.
  intros H m. subst m. split; [|split].
  - unfold _calculate_current_cost, total_cost_of. f_equal.
    rewrite !fold_left_app. cbn [fold_left]. f_equal.
    unfold bill_entry. destruct (PyStr.endswith filename ".yaml"); [|reflexivity].
    cbn [negb]. unfold ExcM.try_, bill_file. rewrite bind_lift, H. reflexivity.
  - intros optimization. unfold _apply_optimizations.
    destruct (Py.get optimization "changes" empty_list >>= Py.iter)
      as [changes|]; [|reflexivity].
    cbn [obind]. rewrite !apply_changes_map.
    destruct (edit_by_all safe_load_all dump_all changes) as [h|] eqn:Eh;
      [|reflexivity].
    cbn [option_map].
    pose proof (firstn_skipn_map h m1 m2) as P. injection P as -> ->.
    rewrite map_app. cbn [map]. do 3 f_equal.
    apply (edit_by_all_fixed safe_load_all dump_all (filename, content) changes);
      [|exact Eh].
    intros change g _ Eg.
    destruct (edit_by_shape _ _ _ _ Eg) as (ty & target & to & _ & _ & _ & ->).
    unfold edit_entry. rewrite H.
    destruct (negb (PyStr.endswith filename ".yaml")); reflexivity.
  - unfold _run_basic_checks. rewrite !fold_left_app. cbn [fold_left].
    f_equal. unfold check_entry.
    destruct (PyStr.endswith filename ".yaml"); [|reflexivity].
    cbn [negb]. unfold ExcM.try_, check_file. rewrite bind_lift, H. reflexivity.
Qed.

Lemma unparsable_entry_skipped_witness :
  let m := [("deployment.yaml", Samples.pair_yaml);
            ("broken.yaml", "kind: [Deployment")] in
  _calculate_current_cost Samples.safe_load_all default_pricing m
  = _calculate_current_cost Samples.safe_load_all default_pricing
      [("deployment.yaml", Samples.pair_yaml)]
  /\ _run_basic_checks Samples.safe_load_all Samples.format m
     = _run_basic_checks Samples.safe_load_all Samples.format
         [("deployment.yaml", Samples.pair_yaml)].
Proof.
  destruct (unparsable_entry_skipped Samples.safe_load_all Samples.dump_all
              Samples.format default_pricing
              [("deployment.yaml", Samples.pair_yaml)] []
              "broken.yaml" "kind: [Deployment" eq_refl) as (C & _ & S).
  split; [exact C|exact S].
Defined.

End CorruptFacts.

(** ** What an edit changes *)

Module WriteFacts.
Import PyExtra Optimizer CostOptimizer Reading EditFacts.




Lemma names_target_read doc target :
  names_target doc target = true ->
  exists name,
    (Py.get doc "metadata" empty_dict >>= fun md => Py.get1 md "name") = Some name
    /\ py_eq name target = true.
Proof.
  unfold names_target.
  destruct (Py.get doc "metadata" empty_dict >>= fun md => Py.get1 md "name")
    as [name|]; [eauto|discriminate].
Qed.



Lemma edit_docs_raises ty target to docs doc :
  In doc docs -> edit_doc ty target to doc = None ->
  edit_docs ty target to docs = None.
Proof.
  intros Hin Hd. induction docs as [|d docs IH]; [contradiction|].
  cbn [edit_docs]. destruct Hin as [->|Hin].
  - rewrite Hd. reflexivity.
  - destruct (edit_doc ty target to d) as [[d' b]|]; [|reflexivity].
    cbn [obind]. rewrite (IH Hin). reflexivity.
Qed.

(** X11. An edit that raises on one document cancels the edit of the
    whole file: the entry comes back byte-identical, even when other
    documents of the file were modified.  This happens for a Deployment
    that bears the target name and has no [spec] key, under each of the
    three change types, and for a [reduce_replicas] change whose new value
    is [None], a list, a mapping or a text with a character no number
    has. *)
Theorem failed_edit_keeps_file
    (safe_load_all : string -> option (list value))
    (dump_all : list value -> string) :
  (forall ty target to filename content docs doc,
     safe_load_all content = Some docs -> In doc docs ->
     edit_doc ty target to doc = None ->
     edit_entry safe_load_all dump_all ty target to (filename, content)
     = (filename, content))
  /\ (forall ty target to doc,
        Py.truthy doc = true -> names_target doc target = true ->
        Py.get1 doc "kind" = Some (VStr "Deployment") ->
        implemented ty = true ->
        Py.item doc "spec" = None
        \/ (ty = VStr "reduce_replicas" /\ Numeral.not_a_count to = true) ->
        edit_doc ty target to doc = None).
Proof.
  split.
  - intros ty target to filename content docs doc Hl Hin Hd.
    unfold edit_entry. rewrite Hl. cbn [obind].
    rewrite (edit_docs_raises ty target to docs doc Hin Hd).
    destruct (negb (PyStr.endswith filename ".yaml")); reflexivity.
  - intros ty target to doc Ht Hn Hk Hty Hcause.
    destruct (names_target_read doc target Hn) as (name & En & Eq).
    unfold edit_doc. rewrite Ht. cbn [negb]. rewrite En. cbn [obind].
    rewrite Eq. cbn [negb]. rewrite Hk. cbn [obind].
    cbn [Py.is_str String.eqb Ascii.eqb Bool.eqb andb]. rewrite !andb_true_r.
    unfold containers_path.
    destruct Hcause as [Hs|[-> Hi]].
    + cbn [update_at]. rewrite Hs. cbn [obind].
      destruct (PyExtra.int_of to); cbn [obind];
      unfold implemented in Hty;
      destruct (Py.is_str ty "reduce_replicas"),
        (Py.is_str ty "reduce_cpu"), (Py.is_str ty "reduce_memory");
      try reflexivity; discriminate.
    + cbn [Py.is_str String.eqb Ascii.eqb Bool.eqb].
      rewrite (NumeralFacts.not_a_count_raises to Hi). reflexivity.
Qed.

Lemma failed_edit_keeps_file_witness :
  edit_entry MoreSamples.safe_load_all Samples.dump_all
    (VStr "reduce_replicas") (VStr "web") (VStr "3")
    ("deployment.yaml", MoreSamples.hollow_yaml)
  = ("deployment.yaml", MoreSamples.hollow_yaml)
  /\ edit_doc (VStr "reduce_replicas") (VStr "web") (VStr "three")
       (Samples.web_doc 5) = None.
Proof.
  destruct (failed_edit_keeps_file MoreSamples.safe_load_all Samples.dump_all)
    as [A B].
  split.
  - apply (A (VStr "reduce_replicas") (VStr "web") (VStr "3")
             "deployment.yaml" MoreSamples.hollow_yaml
             [MoreSamples.hollow_doc] MoreSamples.hollow_doc eq_refl
             (or_introl eq_refl)).
    apply B; try reflexivity. left. reflexivity.
  - apply B; try reflexivity. right. split; reflexivity.
Defined.









End WriteFacts.

(** ** The record only grows *)

Module GrowthFacts.
Import SecurityAnalyzer ExcM ExcFacts ScanFacts Findings.

Lemma extends_refl l : extends l l.
Proof. exists []. symmetry. apply app_nil_r. Qed.

Lemma extends_trans a b c : extends a b -> extends b c -> extends a c.
Proof.
  intros [l ->] [l' ->]. exists (l ++ l')%list. symmetry. apply app_assoc.
Qed.

Lemma extends_add a l : extends a (a ++ l)%list.
Proof. exists l. reflexivity. Qed.

Lemma grows_refl s : grows s s.
Proof. unfold grows, flag_le. repeat split; auto using extends_refl. Qed.

Lemma grows_trans a b c : grows a b -> grows b c -> grows a c.
Proof.
  unfold grows, flag_le.
  intros (A1 & A2 & A3 & A4 & A5 & A6 & A7 & A8 & A9 & A10 & A11 & A12 & A13 & A14)
         (B1 & B2 & B3 & B4 & B5 & B6 & B7 & B8 & B9 & B10 & B11 & B12 & B13 & B14).
  repeat split; eauto using extends_trans.
Qed.

Ltac setter :=
  intro; unfold grows, flag_le; cbn;
  repeat split; auto using extends_refl, extends_add.

Lemma ext_ret {A} (a : A) : extensive (ret a).
Proof. intros s. apply grows_refl. Qed.

Lemma ext_lift {A} (o : option A) : extensive (lift o).
Proof. intros s. apply grows_refl. Qed.

Lemma ext_modify (g : basic_checks -> basic_checks) :
  (forall s, grows s (g s)) -> extensive (modify g).
Proof. intros H s. apply H. Qed.

Lemma ext_bind {A B} (m : Exc basic_checks A) (k : A -> Exc basic_checks B) :
  extensive m -> (forall a, extensive (k a)) -> extensive (bind m k).
Proof.
  intros Hm Hk s. rewrite bind_run. specialize (Hm s).
  destruct (m s) as [s1 [a|]]; cbn [fst] in *; [|exact Hm].
  apply (grows_trans _ _ _ Hm), Hk.
Qed.

Lemma ext_for_each {A} (l : list A) (body : A -> Exc basic_checks unit) :
  (forall x, extensive (body x)) -> extensive (for_each l body).
Proof.
  intros H. induction l as [|x l IH]; cbn [for_each].
  - apply ext_ret.
  - apply ext_bind; [apply H|intros _; exact IH].
Qed.

Lemma ext_when (c : bool) (m : Exc basic_checks unit) :
  extensive m -> extensive (when c m).
Proof. intros H. destruct c; [exact H|apply ext_ret]. Qed.

Ltac ext :=
  repeat match goal with
    | |- extensive (ExcM.ret _) => apply ext_ret
    | |- extensive (ExcM.lift _) => apply ext_lift
    | |- extensive (ExcM.modify _) => apply ext_modify; setter
    | |- extensive (when _ _) => apply ext_when
    | |- extensive (ExcM.for_each _ _) => apply ext_for_each; intro; cbv beta
    | |- extensive (ExcM.bind _ _) => apply ext_bind; [|intro; cbv beta]
    | |- extensive (if ?c then _ else _) => destruct c
    end.

Section WithYaml.
Variable safe_load_all : string -> option (list value).
Variable format : value -> string.

Lemma check_container_ext name c : extensive (check_container format name c).
Proof. unfold check_container, check_env. ext. Qed.

Lemma check_doc_ext doc : extensive (check_doc format doc).
Proof.
  unfold check_doc, check_deployment, check_pod, check_volume.
  ext; apply check_container_ext.
Qed.

Lemma check_entry_grows s entry :
  grows s (check_entry safe_load_all format s entry).
Proof.
  destruct entry as [filename content]. unfold check_entry.
  destruct (negb (PyStr.endswith filename ".yaml")); [apply grows_refl|].
  unfold try_, check_file.
  assert (E : extensive (docs <- lift (safe_load_all content) ;;
                         for_each docs (check_doc format))).
  { ext. apply check_doc_ext. }
  apply E.
Qed.

Lemma fold_grows m : forall s,
  grows s (fold_left (check_entry safe_load_all format) m s).
Proof.
  induction m as [|entry m IH]; intros s; [apply grows_refl|].
  cbn [fold_left]. eapply grows_trans; [apply check_entry_grows|apply IH].
Qed.

(** X13. Scanning more files never takes a finding back: the record
    of a set followed by further entries has every flag the record of the
    set has, and each of its lists begins with the list of the set.  In
    particular further entries never lower zero-trust readiness. *)
Theorem findings_only_grow (m more : manifests) :
  grows (_run_basic_checks safe_load_all format m)
        (_run_basic_checks safe_load_all format (m ++ more)%list)
  /\ (zero_trust_ready
        (_check_compliance (_run_basic_checks safe_load_all format m)) = true ->
      zero_trust_ready
        (_check_compliance
           (_run_basic_checks safe_load_all format (m ++ more)%list)) = true).
Proof.
  assert (G : grows (_run_basic_checks safe_load_all format m)
                    (_run_basic_checks safe_load_all format (m ++ more)%list)).
  { unfold _run_basic_checks. rewrite fold_left_app. apply fold_grows. }
  split; [exact G|].
  unfold _check_compliance. cbn [zero_trust_ready].
  destruct G as (_ & _ & _ & _ & _ & Gn & Gs & _).
  rewrite !andb_true_iff. intros [Hn Hs]. split; [apply Gn, Hn|apply Gs, Hs].
Qed.

End WithYaml.

Lemma findings_only_grow_witness :
  zero_trust_ready
    (_check_compliance
       (_run_basic_checks Samples.safe_load_all Samples.format
          [("all.yaml", Samples.mixed_yaml);
           ("deployment.yaml", Samples.pair_yaml)])) = true.
Proof.
  apply (proj2 (findings_only_grow Samples.safe_load_all Samples.format
                  [("all.yaml", Samples.mixed_yaml)]
                  [("deployment.yaml", Samples.pair_yaml)])).
  reflexivity.
Defined.

End GrowthFacts.

(** ** Non-root enforcement implies a security context *)

Module ContextFacts.
Import SecurityAnalyzer ExcM ExcFacts ScanFacts Findings.

Lemma keeps_ret {S A} (P : S -> Prop) (a : A) : keeps P (ret (S:=S) a).
Proof. intros s H. exact H. Qed.

Lemma keeps_lift {S A} (P : S -> Prop) (o : option A) : keeps P (lift (S:=S) o).
Proof. intros s H. exact H. Qed.

Lemma keeps_modify {S} (P : S -> Prop) (g : S -> S) :
  (forall s, P s -> P (g s)) -> keeps P (modify g).
Proof. intros H s. apply H. Qed.

Lemma keeps_bind {S A B} (P : S -> Prop) (m : Exc S A) (k : A -> Exc S B) :
  keeps P m -> (forall a, keeps P (k a)) -> keeps P (bind m k).
Proof.
  intros Hm Hk s Hs. rewrite bind_run. specialize (Hm s Hs).
  destruct (m s) as [s1 [a|]]; cbn [fst] in *; [|exact Hm].
  apply Hk, Hm.
Qed.

Lemma keeps_for_each {S A} (P : S -> Prop) (l : list A) (body : A -> Exc S unit) :
  (forall x, keeps P (body x)) -> keeps P (for_each l body).
Proof.
  intros H. induction l as [|x l IH]; cbn [for_each].
  - apply keeps_ret.
  - apply keeps_bind; [apply H|intros _; exact IH].
Qed.

Lemma keeps_when {S} (P : S -> Prop) (c : bool) (m : Exc S unit) :
  keeps P m -> keeps P (when c m).
Proof. intros H. destruct c; [exact H|apply keeps_ret]. Qed.

Ltac keep :=
  repeat match goal with
    | |- keeps _ (ExcM.ret _) => apply keeps_ret
    | |- keeps _ (ExcM.lift _) => apply keeps_lift
    | |- keeps _ (ExcM.modify _) =>
        apply keeps_modify; let H := fresh in intros ? H; exact H
    | |- keeps _ (when _ _) => apply keeps_when
    | |- keeps _ (ExcM.for_each _ _) => apply keeps_for_each; intro; cbv beta
    | |- keeps _ (ExcM.bind _ _) => apply keeps_bind; [|intro; cbv beta]
    | |- keeps _ (if ?c then _ else _) => destruct c
    end.

Section WithYaml.
Variable safe_load_all : string -> option (list value).
Variable format : value -> string.

Lemma check_container_keeps name c :
  keeps context_seen (check_container format name c).
Proof. unfold check_container, check_env. keep. Qed.

(** The two flags are written by one block, the context first. *)
Lemma context_block_keeps pod_security :
  keeps context_seen
    (when (Py.truthy pod_security)
       (modify Checks.set_security_context_present ;;;
        non_root <- lift (Py.get1 pod_security "runAsNonRoot") ;;
        when (Py.truthy non_root) (modify Checks.set_run_as_non_root))).
Proof.
  intros s Hs. destruct (Py.truthy pod_security); [|exact Hs].
  cbn [when]. rewrite bind_run. cbn [modify]. rewrite bind_lift.
  destruct (Py.get1 pod_security "runAsNonRoot") as [v|];
    [destruct (Py.truthy v)|]; unfold context_seen; cbn; intros _; reflexivity.
Qed.

Lemma check_doc_keeps doc : keeps context_seen (check_doc format doc).
Proof.
  unfold check_doc, check_deployment, check_pod, check_volume.
  destruct (negb (Py.truthy doc)); [apply keeps_ret|].
  apply keeps_bind; [apply keeps_lift|intro kind; cbv beta].
  apply keeps_bind; [apply keeps_lift|intro name; cbv beta].
  destruct (Py.is_str kind "Deployment"); [|keep].
  apply keeps_bind; [apply keeps_lift|intro spec; cbv beta].
  apply keeps_bind; [|intros _; keep].
  apply keeps_bind; [apply keeps_lift|intro pod_security; cbv beta].
  apply keeps_bind; [apply context_block_keeps|intros _].
  keep. apply check_container_keeps.
Qed.

(** X14. In every record that [_run_basic_checks] returns, non-root
    enforcement is recorded only if a pod security context is: the
    restricted compliance flag implies that a security context was seen,
    and with no privileged container recorded it implies the baseline
    flag. *)
Theorem restricted_implies_context (m : manifests) :
  let checks := _run_basic_checks safe_load_all format m in
  context_seen checks
  /\ (pod_security_restricted (_check_compliance checks) = true ->
      security_context_present checks = true
      /\ (privileged_containers checks = [] ->
          pod_security_baseline (_check_compliance checks) = true)).
Proof.
  cbv zeta.
  assert (I : context_seen (_run_basic_checks safe_load_all format m)).
  { unfold _run_basic_checks.
    assert (F : forall s, context_seen s ->
                context_seen (fold_left (check_entry safe_load_all format) m s)).
    { induction m as [|[filename content] m IH]; intros s Hs; [exact Hs|].
      cbn [fold_left]. apply IH. unfold check_entry.
      destruct (negb (PyStr.endswith filename ".yaml")); [exact Hs|].
      unfold try_, check_file.
      assert (K : keeps context_seen
                    (docs <- lift (safe_load_all content) ;;
                     for_each docs (check_doc format))).
      { keep. apply check_doc_keeps. }
      apply K, Hs. }
    apply F. intros H. discriminate H. }
  split; [exact I|].
  unfold _check_compliance. cbn [pod_security_restricted pod_security_baseline].
  rewrite !andb_true_iff. intros [[Hr _] _]. split; [apply I, Hr|].
  intros ->. split; [apply I, Hr|reflexivity].
Qed.

End WithYaml.

Lemma restricted_implies_context_witness :
  Findings.context_seen
    (_run_basic_checks Samples.safe_load_all Samples.format
       [("all.yaml", Samples.mixed_yaml)]).
Proof.
  exact (proj1 (restricted_implies_context Samples.safe_load_all Samples.format
                  [("all.yaml", Samples.mixed_yaml)])).
Defined.

End ContextFacts.

(** ** Grades *)

Module GradeFacts.
Import SecurityAnalyzer ScoreFacts.

Lemma deductions_nonneg c : 0 <= deductions c.
Proof.
  unfold deductions.
  destruct (security_context_present c), (run_as_non_root c),
    (flag_of (privileged_containers c)), (flag_of (secrets_in_env c)),
    (resource_limits_set c), (network_policies_present c); cbn [negb]; lia.
Qed.





End GradeFacts.

(** ** Fix types *)

Module FixFacts.
Import SecurityFixes.

Lemma fix_type_known lower issue t :
  _determine_fix_type lower issue = Some t -> In t fix_types.
Proof.
  unfold _determine_fix_type.
  destruct (Py.get issue "issue" (VStr "") >>= lower_of lower) as [text|];
    [|discriminate].
  cbn [obind].
  destruct (PyStr.contains "security context" text
            || PyStr.contains "runasnonroot" text);
    [intros [= <-]; cbn; tauto|].
  destruct (PyStr.contains "privileged" text); [intros [= <-]; cbn; tauto|].
  destruct (PyStr.contains "secret" text || PyStr.contains "password" text);
    [intros [= <-]; cbn; tauto|].
  destruct (PyStr.contains "network policy" text); [intros [= <-]; cbn; tauto|].
  destruct (PyStr.contains "resource limit" text); intros [= <-]; cbn; tauto.
Qed.

Lemma affected_read lower issue t :
  _determine_fix_type lower issue = Some t ->
  exists a, Py.get issue "affected" (VStr "") = Some a.
Proof.
  unfold _determine_fix_type. destruct issue; try discriminate.
  intros _. eexists. reflexivity.
Qed.

(** X16. For an issue whose text can be read, the fix type is one of
    six names and both the auto-applicable mark and the kubectl command
    are computed.  A command is given exactly for the types
    [add_security_context], [remove_privileged] and [add_resource_limits];
    the mark is set exactly for [add_security_context],
    [add_resource_limits] and [add_network_policy].  So a fix is marked
    auto-applicable without a command exactly when its type is
    [add_network_policy], and has a command without the mark exactly when
    its type is [remove_privileged]. *)
Theorem fix_mark_and_command (lower : string -> string)
    (format : value -> string) (issue : value) (t : string) :
  _determine_fix_type lower issue = Some t ->
  In t fix_types
  /\ exists auto cmd,
       _is_auto_fixable lower issue = Some auto
       /\ _generate_kubectl_fix lower format issue = Some cmd
       /\ (cmd <> None <->
           In t ["add_security_context"; "remove_privileged";
                 "add_resource_limits"])
       /\ (auto = true <-> In t auto_fixable_types)
       /\ (auto = true /\ cmd = None <-> t = "add_network_policy")
       /\ (auto = false /\ cmd <> None <-> t = "remove_privileged").
Proof.
  intros H. pose proof (fix_type_known lower issue t H) as K.
  split; [exact K|].
  destruct (affected_read lower issue t H) as [a Ha].
  unfold _is_auto_fixable, _generate_kubectl_fix. rewrite H, Ha.
  cbn [option_map obind]. eexists. eexists.
  split; [reflexivity|]. split; [reflexivity|].
  cbn in K.
  destruct K as [<-|[<-|[<-|[<-|[<-|[<-|[]]]]]]]; cbn;
    repeat split; intros; try discriminate; try tauto; try congruence;
    intuition (try discriminate; try congruence).
Qed.

Lemma fix_mark_and_command_witness :
  exists auto cmd,
    _is_auto_fixable ascii_lower
      (VDict [("issue", VStr "Missing Network Policy")]) = Some auto
    /\ _generate_kubectl_fix ascii_lower Samples.format
         (VDict [("issue", VStr "Missing Network Policy")]) = Some cmd
    /\ auto = true /\ cmd = None.
Proof.
  destruct (fix_mark_and_command ascii_lower Samples.format
              (VDict [("issue", VStr "Missing Network Policy")])
              "add_network_policy" eq_refl)
    as (_ & auto & cmd & A & C & _ & _ & N & _).
  exists auto, cmd. split; [exact A|]. split; [exact C|].
  apply N. reflexivity.
Defined.

Section WithFormat.
Variable lower : string -> string.
Variable format : value -> string.

Lemma make_fix_total issue t :
  _determine_fix_type lower issue = Some t ->
  exists f, make_fix lower format issue = Some f /\ fix_type f = t.
Proof.
  intros H. destruct (affected_read lower issue t H) as [a Ha].
  unfold make_fix, _is_auto_fixable, _generate_kubectl_fix.
  rewrite H, Ha. destruct issue; try discriminate Ha.
  cbn [Py.get1 Py.get obind option_map]. eexists. split; reflexivity.
Qed.

Lemma make_fix_type issue f :
  make_fix lower format issue = Some f -> _determine_fix_type lower issue = Some (fix_type f).
Proof.
  unfold make_fix.
  destruct (Py.get1 issue "issue"); [|discriminate]. cbn [obind].
  destruct (Py.get1 issue "severity"); [|discriminate]. cbn [obind].
  destruct (Py.get1 issue "affected"); [|discriminate]. cbn [obind].
  destruct (_determine_fix_type lower issue) as [t|]; [|discriminate]. cbn [obind].
  destruct (_is_auto_fixable lower issue); [|discriminate]. cbn [obind].
  destruct (_generate_kubectl_fix lower format issue); [|discriminate]. cbn [obind].
  intros [= <-]. reflexivity.
Qed.

(** The fixes of a list of issues, one by one. *)
Lemma fixes_of_items (items : list value) :
  (Forall (fun issue => _determine_fix_type lower issue <> None) items
   <-> PyExtra.mapM (make_fix lower format) items <> None)
  /\ (forall fixes,
        PyExtra.mapM (make_fix lower format) items = Some fixes ->
        Forall2 (fun issue f => _determine_fix_type lower issue = Some (fix_type f))
                items fixes).
Proof.
  induction items as [|issue issues [IH1 IH2]].
  - split; [split; [discriminate|constructor]|].
    intros fixes [= <-]. constructor.
  - cbn [PyExtra.mapM]. split; [split|].
    + intros F. inversion F as [|? ? Hi Hr]; subst.
      destruct (_determine_fix_type lower issue) as [t|] eqn:Et; [|contradiction].
      destruct (make_fix_total issue t Et) as (f & -> & _). cbn [obind].
      apply IH1 in Hr.
      destruct (PyExtra.mapM (make_fix lower format) issues); [discriminate|contradiction].
    + intros N. destruct (make_fix lower format issue) as [f|] eqn:Ef;
        [|contradiction]. cbn [obind] in N.
      constructor.
      * rewrite (make_fix_type issue f Ef). discriminate.
      * apply IH1. destruct (PyExtra.mapM (make_fix lower format) issues);
          [discriminate|contradiction].
    + intros fixes. destruct (make_fix lower format issue) as [f|] eqn:Ef;
        [|discriminate]. cbn [obind].
      destruct (PyExtra.mapM (make_fix lower format) issues) as [fs|];
        [|discriminate]. cbn [obind]. intros [= <-].
      constructor; [apply (make_fix_type issue f Ef)|apply IH2; reflexivity].
Qed.

(** X17. The list of fixes has one entry per critical issue, in the
    order of the issues, each with the fix type of its issue; it is
    returned exactly when the text of every issue can be read (every issue
    is a mapping whose [issue] field, if present, is text), and otherwise
    the call raises. *)
Theorem fixes_follow_issues (llm_analysis : value) (issues : list value) :
  Py.get llm_analysis "critical_issues" empty_list = Some (VList issues) ->
  (Forall (fun issue => _determine_fix_type lower issue <> None) issues
   <-> _generate_security_fixes lower format llm_analysis <> None)
  /\ (forall fixes,
        _generate_security_fixes lower format llm_analysis = Some fixes ->
        Forall2 (fun issue f => _determine_fix_type lower issue = Some (fix_type f))
                issues fixes).
Proof.
  intros H. unfold _generate_security_fixes. rewrite H. cbn [obind Py.iter].
  apply fixes_of_items.
Qed.

End WithFormat.

Lemma fixes_follow_issues_witness :
  _generate_security_fixes ascii_lower Samples.format
    (VDict [("critical_issues",
             VList [VDict [("issue", VStr "Privileged container")];
                    VStr "not a mapping"])]) = None.
Proof.
  destruct (fixes_follow_issues ascii_lower Samples.format
              (VDict [("critical_issues",
                       VList [VDict [("issue", VStr "Privileged container")];
                              VStr "not a mapping"])])
              [VDict [("issue", VStr "Privileged container")];
               VStr "not a mapping"] eq_refl) as [[_ B] _].
  destruct (_generate_security_fixes _ _) as [fixes|] eqn:E; [|reflexivity].
  exfalso. assert (N : Some fixes <> None) by discriminate.
  apply B in N. inversion N as [|? ? _ N2]; subst.
  inversion N2 as [|? ? N3 _]; subst. apply N3. reflexivity.
Defined.

End FixFacts.

(** ** Image registries *)

Module RegistryFacts.
Import SecurityAnalyzer ExcM ExcFacts Findings ContextFacts Registry.

Lemma starts_with_app sub a b :
  PyStr.starts_with sub a = true -> PyStr.starts_with sub (a ++ b) = true.
Proof.
  revert a. induction sub as [|c sub IH]; intros a H; [reflexivity|].
  destruct a as [|d a]; [discriminate|]. cbn in *.
  apply andb_true_iff in H. destruct H as [H1 H2].
  rewrite H1, (IH a H2). reflexivity.
Qed.

Lemma contains_app_l sub a b :
  PyStr.contains sub a = true -> PyStr.contains sub (a ++ b) = true.
Proof.
  induction a as [|d a IH]; intros H.
  - cbn in H. rewrite orb_false_r in H.
    destruct sub; [destruct b; reflexivity|discriminate].
  - cbn [PyStr.contains] in H. apply orb_true_iff in H.
    change (String d a ++ b) with (String d (a ++ b)).
    cbn [PyStr.contains]. apply orb_true_iff. destruct H as [H|H].
    + left. apply (starts_with_app sub (String d a) b H).
    + right. apply IH, H.
Qed.

(** The scan keeps whatever every document keeps. *)
Lemma scan_keeps (safe_load_all : string -> option (list value))
    (format : value -> string) (P : basic_checks -> Prop) :
  (forall doc, keeps P (check_doc format doc)) ->
  forall m s, P s ->
  P (fold_left (check_entry safe_load_all format) m s).
Proof.
  intros K m. induction m as [|[filename content] m IH]; intros s Hs;
    [exact Hs|].
  cbn [fold_left]. apply IH. unfold check_entry.
  destruct (negb (PyStr.endswith filename ".yaml")); [exact Hs|].
  unfold try_, check_file.
  assert (F : keeps P (docs <- lift (safe_load_all content) ;;
                       for_each docs (check_doc format))).
  { apply keeps_bind; [apply keeps_lift|intro docs].
    apply keeps_for_each, K. }
  apply F, Hs.
Qed.

Section WithYaml.
Variable safe_load_all : string -> option (list value).
Variable format : value -> string.

Lemma image_block_keeps name image :
  keeps (sorted format)
    (when (Py.truthy image)
       (in_mts <- lift (PyExtra.str_in "registry.mts.ru" image) ;;
        in_hub <- (if in_mts then ret true
                   else lift (PyExtra.str_in "docker.io/library" image)) ;;
        if in_hub
        then modify (Checks.add_trusted_registry [image])
        else modify (Checks.add_image_pull_policy
               [VStr (format name ++ ": " ++ format image)]))).
Proof.
  intros s [Ht Hf]. destruct (Py.truthy image) eqn:T; [|split; assumption].
  cbn [when]. rewrite bind_lift.
  destruct (PyExtra.str_in "registry.mts.ru" image) as [[|]|] eqn:E1;
    [| |split; assumption].
  - cbn. split; [|exact Hf]. apply Forall_app. split; [exact Ht|].
    constructor; [|constructor]. split; [exact T|left; exact E1].
  - rewrite bind_lift.
    destruct (PyExtra.str_in "docker.io/library" image) as [[|]|] eqn:E2;
      [| |split; assumption]; cbn.
    + split; [|exact Hf]. apply Forall_app. split; [exact Ht|].
      constructor; [|constructor]. split; [exact T|right; exact E2].
    + split; [exact Ht|]. apply Forall_app. split; [exact Hf|].
      constructor; [|constructor]. exists name, image. repeat split; assumption.
Qed.

Ltac keep_sorted :=
  repeat first
    [ apply image_block_keeps
    | match goal with
      | |- keeps _ (ExcM.ret _) => apply keeps_ret
      | |- keeps _ (ExcM.lift _) => apply keeps_lift
      | |- keeps _ (ExcM.modify _) =>
          apply keeps_modify; let H := fresh in intros ? H; exact H
      | |- keeps _ (when _ _) => apply keeps_when
      | |- keeps _ (ExcM.for_each _ _) => apply keeps_for_each; intro; cbv beta
      | |- keeps _ (ExcM.bind _ _) => apply keeps_bind; [|intro; cbv beta]
      | |- keeps _ (if ?c then _ else _) => destruct c
      end ].

Lemma check_doc_sorted doc : keeps (sorted format) (check_doc format doc).
Proof.
  unfold check_doc, check_deployment, check_pod, check_volume,
    check_container, check_env.
  keep_sorted.
Qed.

(** X18. In every record that [_run_basic_checks] returns, each entry
    of [trusted_registry] is a non-empty image that names
    [registry.mts.ru] or [docker.io/library], and each entry of
    [image_pull_policy] is the text [name: image] of a non-empty image
    that names neither. *)
Theorem registry_lists_sorted (m : manifests) :
  sorted format (_run_basic_checks safe_load_all format m).
Proof.
  unfold _run_basic_checks. apply scan_keeps; [apply check_doc_sorted|].
  split; constructor.
Qed.

(** What a container whose image names [registry.mts.ru] adds. *)
Lemma trusted_block name img :
  PyStr.contains "registry.mts.ru" img = true ->
  let block :=
    when (Py.truthy (VStr img))
      (in_mts <- lift (PyExtra.str_in "registry.mts.ru" (VStr img)) ;;
       in_hub <- (if in_mts then ret true
                  else lift (PyExtra.str_in "docker.io/library" (VStr img))) ;;
       if in_hub
       then modify (Checks.add_trusted_registry [VStr img])
       else modify (Checks.add_image_pull_policy
              [VStr (format name ++ ": " ++ format (VStr img))])) in
  preserves image_pull_policy block /\ appends [VStr img] block.
Proof.
  intros H. cbv zeta. cbn [PyExtra.str_in]. rewrite H.
  assert (T : Py.truthy (VStr img) = true).
  { destruct img; [discriminate H|reflexivity]. }
  rewrite T. split; intros s; reflexivity.
Qed.

Lemma pres_bind_some {S A B C} (f : S -> C) (a : A) (k : A -> Exc S B) :
  preserves f (k a) -> preserves f (bind (lift (Some a)) k).
Proof. intros H s. apply H. Qed.

Lemma appends_bind_some {A B} l (a : A) (k : A -> Exc basic_checks B) :
  appends l (k a) -> appends l (bind (lift (Some a)) k).
Proof. intros H s. apply H. Qed.

Lemma appends_bind_l {A B} l (m : Exc basic_checks A)
    (k : A -> Exc basic_checks B) :
  preserves trusted_registry m -> (forall a, appends l (k a)) ->
  appends l (bind m k).
Proof.
  intros Hm Hk s. unfold completes. rewrite bind_run. specialize (Hm s).
  destruct (m s) as [s1 [a|]]; cbn [fst snd] in *; [|discriminate].
  intros C. rewrite <- Hm. apply Hk. exact C.
Qed.

Lemma appends_bind_r {A B} l (m : Exc basic_checks A)
    (k : A -> Exc basic_checks B) :
  appends l m -> (forall a, preserves trusted_registry (k a)) ->
  appends l (bind m k).
Proof.
  intros Hm Hk s. unfold completes. rewrite bind_run.
  specialize (Hm s). unfold completes in Hm.
  destruct (m s) as [s1 [a|]]; cbn [fst snd] in *; [|discriminate].
  intros _. rewrite Hk. apply Hm. reflexivity.
Qed.

(** X19. A container whose image is one that [get_image_name] builds
    under a registry naming [registry.mts.ru] is never reported in
    [image_pull_policy], whatever else the container holds; and where
    its scan runs to the end, the image is the one entry added to
    [trusted_registry]. *)
Theorem generated_image_trusted (registry organization component_type : string)
    (tag : option string) (name container : value) (s : basic_checks) :
  let image :=
    DockerConfig.get_image_name registry organization component_type tag in
  PyStr.contains "registry.mts.ru" registry = true ->
  Py.get container "image" (VStr "") = Some (VStr image) ->
  trusted_image (VStr image)
  /\ image_pull_policy (fst (check_container format name container s))
     = image_pull_policy s
  /\ (completes (check_container format name container) s = true ->
      trusted_registry (fst (check_container format name container s))
      = (trusted_registry s ++ [VStr image])%list).
Proof.
  intros image Hr Hi.
  assert (Hc : PyStr.contains "registry.mts.ru" image = true).
  { unfold image, DockerConfig.get_image_name. apply contains_app_l, Hr. }
  destruct (trusted_block name image Hc) as [Bp Ba].
  split; [left; cbn [PyExtra.str_in]; rewrite Hc; reflexivity|].
  split.
  - assert (P : preserves image_pull_policy (check_container format name container)).
    { unfold check_container, check_env. rewrite Hi.
      do 11 (apply pres_bind; [pres|intro; cbv beta]).
      apply pres_bind_some. apply pres_bind; [exact Bp|intro; pres]. }
    apply P.
  - assert (A : appends [VStr image] (check_container format name container)).
    { unfold check_container, check_env. rewrite Hi.
      do 11 (apply appends_bind_l; [pres|intro; cbv beta]).
      apply appends_bind_some. apply appends_bind_r; [exact Ba|intro; pres]. }
    apply A.
Qed.

End WithYaml.

Lemma generated_image_trusted_witness :
  let container :=
    VDict [("name", VStr "upf");
           ("image", VStr "registry.mts.ru/telecom/5g_upf:latest");
           ("securityContext", VDict [("privileged", VBool true)])] in
  let s' := fst (check_container Samples.format (VStr "upf") container
                   Checks.initial) in
  image_pull_policy s' = []
  /\ trusted_registry s' = [VStr "registry.mts.ru/telecom/5g_upf:latest"].
Proof.
  cbv zeta.
  pose proof (generated_image_trusted Samples.format
                DockerConfig.default_registry DockerConfig.default_organization
                "5g_upf" None (VStr "upf")
                (VDict [("name", VStr "upf");
                        ("image", VStr "registry.mts.ru/telecom/5g_upf:latest");
                        ("securityContext", VDict [("privileged", VBool true)])])
                Checks.initial eq_refl eq_refl) as (_ & P & T).
  exact (conj P (T eq_refl)).
Defined.

End RegistryFacts.

(** ** The cost report *)

Module ReportFacts.
Import CostOptimizer Optimizer Report ApplyFacts EditFacts RoundFacts.


Section WithYaml.
Variable safe_load_all : string -> option (list value).
Variable dump_all : list value -> string.
Variable self : pricing.
Variable failure_note : string.


Lemma apply_changes_mappings items : forall m,
  apply_changes safe_load_all dump_all m items <> None
  <-> forallb is_mapping items = true.
Proof.
  induction items as [|c items IH]; intros m; cbn [apply_changes forallb].
  - split; [reflexivity|discriminate].
  - destruct c; cbn; try (split; [intros N; contradiction|discriminate]).
    apply IH.
Qed.

Lemma counted_shape reply result :
  counted reply = Some result ->
  reply = Some result
  /\ exists changes items,
       Py.get result "changes" empty_list = Some changes
       /\ Py.iter changes = Some items.
Proof.
  unfold counted. destruct reply as [r|]; [|discriminate]. cbn [obind].
  destruct (Py.get r "changes" empty_list) as [changes|] eqn:E; [|discriminate].
  cbn [obind]. destruct (PyExtra.len changes) eqn:L; [|discriminate].
  cbn [obind]. intros [= <-]. split; [reflexivity|].
  exists changes.
  destruct changes; try discriminate L; eexists; (split; [exact E|reflexivity]).
Qed.

(** X21. For an answer whose changes were counted, the analysis ends
    with status [error] exactly when some change is not a mapping;
    otherwise the report lists the changes of the answer and its
    optimized manifests have the file names of the input, in the same
    order. *)
Theorem analysis_fails_on_odd_change (m : manifests) (reply : option value)
    (result : value) :
  counted reply = Some result ->
  exists changes items,
    Py.get result "changes" empty_list = Some changes
    /\ Py.iter changes = Some items
    /\ (analyze_costs safe_load_all dump_all self failure_note m reply = Error
        <-> forallb is_mapping items = false)
    /\ (forall a,
          analyze_costs safe_load_all dump_all self failure_note m reply
          = Analyzed a ->
          optimizations a = changes
          /\ map fst (optimized_manifests a) = map fst m).
Proof.
  intros H. destruct (counted_shape reply result H) as (-> & changes & items & Hc & Hi).
  exists changes, items. split; [exact Hc|]. split; [exact Hi|].
  unfold analyze_costs, analyze, _llm_optimize. rewrite H.
  unfold _apply_optimizations. rewrite Hc. cbn [obind]. rewrite Hi. cbn [obind].
  pose proof (apply_changes_mappings items m) as M.
  assert (R : exists r, Py.get result "recommendations" empty_list = Some r).
  { destruct result; try discriminate Hc. eexists. reflexivity. }
  destruct R as [r Hr]. rewrite Hr.
  destruct (apply_changes safe_load_all dump_all m items) as [o|] eqn:Ea;
    cbn [obind].
  - split.
    + split; [discriminate|]. intros F.
      assert (T : forallb is_mapping items = true) by (apply M; discriminate).
      rewrite T in F. discriminate F.
    + intros a [= <-]. cbn. split; [reflexivity|].
      rewrite apply_changes_map in Ea.
      destruct (edit_by_all safe_load_all dump_all items) as [h|] eqn:Eh;
        [|discriminate]. cbn in Ea. injection Ea as <-.
      rewrite map_map. apply map_ext. intros entry.
      apply (edit_by_all_name safe_load_all dump_all items h entry Eh).
  - split; [|discriminate]. split; [|reflexivity]. intros _.
    destruct (forallb is_mapping items); [|reflexivity].
    exfalso. destruct M as [_ M]. apply (M eq_refl). reflexivity.
Qed.

End WithYaml.


Lemma analysis_fails_on_odd_change_witness :
  analyze_costs Samples.safe_load_all Samples.dump_all default_pricing
    "no answer" [("stack.yaml", Samples.stack_yaml)]
    (Some (VDict [("changes", VList [Samples.scale_down; VStr "scale"])]))
  = Error.
Proof.
  destruct (analysis_fails_on_odd_change Samples.safe_load_all Samples.dump_all
              default_pricing "no answer" [("stack.yaml", Samples.stack_yaml)]
              (Some (VDict [("changes",
                             VList [Samples.scale_down; VStr "scale"])]))
              (VDict [("changes", VList [Samples.scale_down; VStr "scale"])])
              eq_refl)
    as (changes & items & Hc & Hi & [_ F] & _).
  apply F. cbn in Hc. injection Hc as <-. cbn in Hi. injection Hi as <-.
  reflexivity.
Defined.

End ReportFacts.

(** ** The security report *)

Module SecurityReportFacts.
Import SecurityAnalyzer SecurityFixes SecurityReport FixFacts.

Lemma chars_length s : List.length (Py.chars s) = String.length s.
Proof. induction s as [|a s IH]; [reflexivity|]. cbn. rewrite IH. reflexivity. Qed.

Section WithYaml.
Variable safe_load_all : string -> option (list value).
Variable format : value -> string.
Variable lower : string -> string.
Variable failure_note : string.

Lemma score_of_counts c llm (n w : Z) :
  (Py.get llm "critical_issues" empty_list >>= PyExtra.len) = Some n ->
  (Py.get llm "warnings" empty_list >>= PyExtra.len) = Some w ->
  _calculate_security_score c llm
  = Some (Z.max 0 (Z.min 100 (100 - n * 15 - w * 5 - deductions c))).
Proof.
  intros Hn Hw. unfold _calculate_security_score, deductions.
  destruct (Py.get llm "critical_issues" empty_list) as [ci|]; [|discriminate].
  cbn [obind] in Hn |- *. rewrite Hn. cbn [obind].
  destruct (Py.get llm "warnings" empty_list) as [ws|]; [|discriminate].
  cbn [obind] in Hw |- *. rewrite Hw. cbn [obind]. cbv zeta.
  f_equal. f_equal. f_equal.
  destruct (negb (security_context_present c)), (negb (run_as_non_root c)),
    (flag_of (privileged_containers c)), (flag_of (secrets_in_env c)),
    (negb (resource_limits_set c)), (negb (network_policies_present c)); lia.
Qed.

(** X22. When the call to the model fails, or its answer has no
    countable [critical_issues], the report still has status
    [analyzed]: no critical issue, the one warning of the fallback, no
    recommendation and no fix; the basic checks and the compliance flags
    are those of the scan; and the warning costs five points, the score
    being 95 less the flat deductions, never below 0. *)
Theorem failed_analysis_costs_five (m : manifests) (reply : option value) :
  counted reply = None ->
  let checks := _run_basic_checks safe_load_all format m in
  exists a,
    analyze_security safe_load_all format lower failure_note m reply
    = Analyzed a
    /\ critical_issues a = VList []
    /\ warnings a = VList [VDict [("warning", VStr failure_note)]]
    /\ recommendations a = VList []
    /\ auto_fixes a = []
    /\ basic_checks_found a = checks
    /\ compliance_found a = _check_compliance checks
    /\ security_score a = Z.max 0 (95 - deductions checks)
    /\ grade a = _get_security_grade (security_score a)
    /\ 0 <= security_score a <= 95.
Proof.
  intros H checks. unfold analyze_security, analyze, _llm_security_analysis.
  rewrite H. fold checks.
  rewrite (score_of_counts checks (fallback failure_note) 0 1 eq_refl eq_refl).
  pose proof (GradeFacts.deductions_nonneg checks) as D.
  replace (Z.max 0 (Z.min 100 (100 - 0 * 15 - 1 * 5 - deductions checks)))
    with (Z.max 0 (95 - deductions checks)) by lia.
  set (score := Z.max 0 (95 - deductions checks)).
  assert (B : 0 <= score <= 95) by (unfold score; lia).
  eexists. split; [reflexivity|].
  cbn [critical_issues warnings recommendations auto_fixes basic_checks_found
       compliance_found security_score grade].
  repeat (split; [reflexivity|]). exact B.
Qed.

Lemma counted_issues_shape reply result :
  counted reply = Some result ->
  reply = Some result
  /\ exists issues items n,
       Py.get result "critical_issues" empty_list = Some issues
       /\ Py.iter issues = Some items
       /\ PyExtra.len issues = Some n
       /\ n = Z.of_nat (List.length items).
Proof.
  unfold counted. destruct reply as [r|]; [|discriminate]. cbn [obind].
  destruct (Py.get r "critical_issues" empty_list) as [issues|] eqn:E;
    [|discriminate].
  cbn [obind]. destruct (PyExtra.len issues) as [n|] eqn:L; [|discriminate].
  cbn [obind]. intros [= <-]. split; [reflexivity|].
  exists issues.
  destruct issues; try discriminate L; cbn in L; injection L as <-;
    eexists; eexists; (split; [exact E|]); (split; [reflexivity|]);
    (split; [reflexivity|]); cbn [Py.iter].
  - rewrite chars_length. reflexivity.
  - reflexivity.
  - rewrite length_map. reflexivity.
Qed.

(** X23. For an answer whose critical issues were counted, the
    analysis ends with status [error] exactly when the text of some
    critical issue cannot be read or the warnings cannot be counted;
    otherwise the report carries one fix per critical issue and a score
    between 0 and 100 that is 100 less 15 per critical issue, 5 per
    warning and the flat deductions, with the grade of that score. *)
Theorem security_analysis_fails_iff (m : manifests) (reply : option value)
    (result : value) :
  counted reply = Some result ->
  let checks := _run_basic_checks safe_load_all format m in
  exists issues items,
    Py.get result "critical_issues" empty_list = Some issues
    /\ Py.iter issues = Some items
    /\ (analyze_security safe_load_all format lower failure_note m reply = Error
        <-> Exists (fun issue => _determine_fix_type lower issue = None) items
            \/ (Py.get result "warnings" empty_list >>= PyExtra.len) = None)
    /\ (forall a,
          analyze_security safe_load_all format lower failure_note m reply
          = Analyzed a ->
          List.length (auto_fixes a) = List.length items
          /\ (exists w,
                (Py.get result "warnings" empty_list >>= PyExtra.len) = Some w
                /\ security_score a
                   = Z.max 0 (Z.min 100
                       (100 - Z.of_nat (List.length items) * 15 - w * 5
                        - deductions checks)))
          /\ 0 <= security_score a <= 100
          /\ grade a = _get_security_grade (security_score a)).
Proof.
  intros H checks.
  destruct (counted_issues_shape reply result H)
    as (-> & issues & items & n & Hg & Hi & Hl & Hn).
  exists issues, items. split; [exact Hg|]. split; [exact Hi|].
  unfold analyze_security, analyze, _llm_security_analysis. rewrite H.
  fold checks. unfold _generate_security_fixes. rewrite Hg. cbn [obind].
  rewrite Hi. cbn [obind].
  destruct (fixes_of_items lower format items) as [[F1 F2] F3].
  assert (G : exists ws rs, Py.get result "warnings" empty_list = Some ws
                            /\ Py.get result "recommendations" empty_list = Some rs).
  { destruct result; try discriminate Hg. eexists. eexists. split; reflexivity. }
  destruct G as (ws & rs & Hw & Hr).
  assert (Hc : (Py.get result "critical_issues" empty_list >>= PyExtra.len) = Some n).
  { rewrite Hg. exact Hl. }
  destruct (PyExtra.mapM (make_fix lower format) items) as [fixes|] eqn:Em;
    cbn [obind].
  - assert (All : Forall (fun issue => _determine_fix_type lower issue <> None) items).
    { apply F2. discriminate. }
    destruct (Py.get result "warnings" empty_list >>= PyExtra.len) as [w|] eqn:El.
    + rewrite (score_of_counts checks result n w Hc El). cbn [obind].
      rewrite Hw, Hr. cbn [obind]. split.
      * split; [discriminate|]. intros [Ex|N]; [|discriminate N].
        exfalso. apply Exists_exists in Ex. destruct Ex as (issue & Hin & Hnone).
        rewrite Forall_forall in All. apply (All issue Hin Hnone).
      * intros a [= <-]. cbn. split.
        { symmetry. apply (Forall2_length (F3 fixes eq_refl)). }
        split; [exists w; split; [reflexivity|rewrite Hn; reflexivity]|].
        split; [lia|reflexivity].
    + assert (S : _calculate_security_score checks result = None).
      { unfold _calculate_security_score. rewrite Hg. cbn [obind]. rewrite Hl.
        cbn [obind]. rewrite Hw in El |- *. cbn [obind] in El |- *. rewrite El.
        reflexivity. }
      rewrite S. cbn [obind]. split; [|discriminate].
      split; [intros _; right; reflexivity|reflexivity].
  - split; [|discriminate]. split; [|reflexivity]. intros _. left.
    apply Exists_exists.
    assert (N : ~ Forall (fun issue => _determine_fix_type lower issue <> None) items).
    { intros All. apply F1 in All. apply All. reflexivity. }
    clear - N. induction items as [|x items IH].
    + exfalso. apply N. constructor.
    + destruct (_determine_fix_type lower x) as [t|] eqn:E.
      * destruct IH as (y & Hy & Ey).
        { intros All. apply N. constructor; [rewrite E; discriminate|exact All]. }
        exists y. split; [right; exact Hy|exact Ey].
      * exists x. split; [left; reflexivity|exact E].
Qed.

End WithYaml.

Lemma failed_analysis_costs_five_witness :
  exists a,
    analyze_security Samples.safe_load_all Samples.format ascii_lower
      "no answer" [("all.yaml", Samples.mixed_yaml)] None = Analyzed a
    /\ auto_fixes a = []
    /\ 0 <= security_score a <= 95.
Proof.
  destruct (failed_analysis_costs_five Samples.safe_load_all Samples.format
              ascii_lower "no answer" [("all.yaml", Samples.mixed_yaml)] None
              eq_refl)
    as (a & A & _ & _ & _ & F & _ & _ & _ & _ & B).
  exists a. exact (conj A (conj F B)).
Defined.

Lemma security_analysis_fails_iff_witness :
  analyze_security Samples.safe_load_all Samples.format ascii_lower
    "no answer" [("all.yaml", Samples.mixed_yaml)]
    (Some (VDict [("critical_issues", VList []); ("warnings", VInt 2)]))
  = Error.
Proof.
  destruct (security_analysis_fails_iff Samples.safe_load_all Samples.format
              ascii_lower "no answer" [("all.yaml", Samples.mixed_yaml)]
              (Some (VDict [("critical_issues", VList []);
                            ("warnings", VInt 2)]))
              (VDict [("critical_issues", VList []); ("warnings", VInt 2)])
              eq_refl)
    as (issues & items & _ & _ & [_ F] & _).
  apply F. right. reflexivity.
Defined.

End SecurityReportFacts.
